(** * DiagnosticPro schema validation: contract models and the S4 validation runner

    A shallow embedding of
    - [NMD/S4_runner.py]: [ValidationResult], [ValidationRunner] with its three
      validation stages, the exit-code policy and the summary;
    - [NMD/S4_pydantic/*_model.py]: the cross-field validators of
      [DiagnosticCode], [InventoryInfo], [RiskAssessment],
      [MaintenancePredictions] and [StatisticalProfile].

    Python [int] is [Z], Python [float] is a binary64 primitive float, a
    dictionary whose order is not observed is a [gmap], a dictionary that
    is iterated is an association list in insertion order.  Exceptions are
    values of [py_result]; the clock and the warehouse calls are threaded
    through an explicit [World]. *)

From Stdlib Require Import ZArith List String Ascii Bool Lia Floats Uint63.
From stdpp Require Import base option list gmap strings pretty.

Set Warnings "-inexact-float".

Local Open Scope string_scope.
Local Open Scope Z_scope.

(* ===================================================================== *)
(** ** Python values, exceptions and library functions                     *)
(* ===================================================================== *)

Module Py.

(** The exception classes the embedded code raises or catches.  Every
    class here derives from [Exception], so a handler [except Exception]
    catches all of them. *)
Inductive ExcClass :=
| NotFound                       (* google.api_core.exceptions.NotFound *)
| ValueError
| NameError
| AttributeError
| OtherException (cls : string).

Record PyExc := mkExc { exc_class : ExcClass; exc_str : string (* str(e) *) }.

(** The outcome of evaluating a Python expression or block. *)
Inductive py_result (A : Type) :=
| Return (a : A)
| Raise (e : PyExc).
Arguments Return {A} a.
Arguments Raise {A} e.

Definition bind {A B} (r : py_result A) (k : A -> py_result B) : py_result B :=
  match r with
  | Return a => k a
  | Raise e => Raise e
  end.

(** [raise ValueError(msg)] and the [NameError] of an unbound global. *)
Definition raise_ValueError {A} (msg : string) : py_result A :=
  Raise (mkExc ValueError msg).
Definition unbound_name {A} (name : string) : py_result A :=
  Raise (mkExc NameError ("name '" +:+ name +:+ "' is not defined")).

Definition is_NotFound (e : PyExc) : bool :=
  match exc_class e with NotFound => true | _ => false end.

(** A [datetime]: the wall-clock fields as microseconds since the epoch
    of the proleptic calendar, and the UTC offset of [tzinfo] when the
    value is aware. *)
Record datetime := mkDatetime { wall_us : Z; tzinfo : option Z }.

(** [a - b] on two naive datetimes, or on two aware datetimes that carry the
    same [tzinfo]: the difference of the wall-clock fields, a [timedelta]
    in microseconds. *)
Definition datetime_sub (a b : datetime) : Z := wall_us a - wall_us b.
Definition replace_tzinfo (a : datetime) (tz : option Z) : datetime :=
  mkDatetime (wall_us a) tz.

(** Conversion of a Python [int] below 2^63 in magnitude to [float]. *)
Definition float_of_Z (z : Z) : float :=
  if z <? 0 then PrimFloat.opp (PrimFloat.of_uint63 (Uint63.of_Z (- z)))
  else PrimFloat.of_uint63 (Uint63.of_Z z).

(** [timedelta.total_seconds()]: the microseconds divided by 10**6. *)
Definition total_seconds (td : Z) : float :=
  PrimFloat.div (float_of_Z td) (float_of_Z 1000000).

(** The functions of the Python runtime the code calls and that are not
    modelled structurally here. *)
Class PyLib := {
  (** [float(s)]: raises [ValueError] on an unparsable string *)
  py_float : string -> py_result float;
  (** [f"{x:.1f}"] *)
  format_1f : float -> string;
  (** [f"{x}"] and [str(x)] on a float *)
  str_float : float -> string;
  (** [str(d)] on a datetime *)
  str_datetime : datetime -> string;
  (** the characters [\d] matches in a pattern on [str]: the Unicode
      decimal digits (category Nd), by code point *)
  unicode_decimal : N -> bool;
  (** the characters [c] with [c.isdigit()] *)
  unicode_digit : N -> bool;
  (** [d.isoformat()] on a datetime *)
  isoformat : datetime -> string;
  (** [re.compile(p)]: raises [re.error] on a malformed pattern, and
      otherwise gives the function [s |-> bool(regex.match(s))] *)
  re_compile : string -> py_result (string -> bool);
}.

(** [s.endswith(c)] for a one-character suffix, [s[:-1]], and
    [s.replace(c, r)] for a one-character needle. *)
Fixpoint endswith (s : string) (c : ascii) : bool :=
  match s with
  | EmptyString => false
  | String a EmptyString => Ascii.eqb a c
  | String _ rest => endswith rest c
  end.

Fixpoint drop_last (s : string) : string :=
  match s with
  | EmptyString => EmptyString
  | String _ EmptyString => EmptyString
  | String a rest => String a (drop_last rest)
  end.

Fixpoint replace_char (c : ascii) (r : string) (s : string) : string :=
  match s with
  | EmptyString => EmptyString
  | String a rest =>
      if Ascii.eqb a c then r +:+ replace_char c r rest
      else String a (replace_char c r rest)
  end.

(** [s.upper()] on the ASCII letters. *)
Definition upper_ascii (a : ascii) : ascii :=
  let n := nat_of_ascii a in
  if ((97 <=? n) && (n <=? 122))%nat then ascii_of_nat (n - 32) else a.

Fixpoint upper (s : string) : string :=
  match s with
  | EmptyString => EmptyString
  | String a rest => String (upper_ascii a) (upper rest)
  end.

(** [d.get(k)] on a dictionary kept in insertion order. *)
Fixpoint dict_get {V} (d : list (string * V)) (k : string) : option V :=
  match d with
  | [] => None
  | (k', v) :: rest => if String.eqb k' k then Some v else dict_get rest k
  end.

End Py.
Export Py.

Notation "x <- c1 ;;; c2" := (Py.bind c1 (fun x => c2))
  (at level 100, c1 at next level, right associativity).

(* ===================================================================== *)
(** ** NMD/S4_runner.py                                                    *)
(* ===================================================================== *)

Module S4Runner.

(** Exit codes *)
Definition EXIT_SUCCESS : Z := 0.
Definition EXIT_HARD_FAILURE : Z := 1.  (* Schema/constraint failures *)
Definition EXIT_SOFT_FAILURE : Z := 2.  (* Freshness/SLA failures *)

(** The values the stages store under a key of [ValidationResult.details]. *)
Inductive Detail :=
| TableSchemaDetail (field_count required_fields_checked contract_fields_checked : nat)
| PatternDetail (text : string)
| TimestampValidationDetail
    (total_rows_checked null_created_at future_created_at invalid_updated_at : Z)
| FreshnessCheckDetail
    (latest_timestamp : string) (staleness_hours max_allowed_hours : float)
    (total_rows : Z).

(** class ValidationResult: container for validation results *)
Record ValidationResult := mkResult {
  name : string;
  category : string;
  passed : bool;
  errors : list string;
  warnings : list string;
  details : gmap string Detail;
  duration : float;
}.

(** [ValidationResult.__init__] *)
Definition ValidationResult_init (name category : string) : ValidationResult :=
  {| name := name; category := category; passed := true;
     errors := []; warnings := []; details := ∅; duration := 0%float |}.

(** [add_error]: add a hard error (validation failure) *)
Definition add_error (message : string) (self : ValidationResult) : ValidationResult :=
  {| name := name self; category := category self;
     passed := false;
     errors := errors self ++ [message];
     warnings := warnings self;
     details := details self; duration := duration self |}.

(** [add_warning]: add a soft warning (SLA/freshness issue) *)
Definition add_warning (message : string) (self : ValidationResult) : ValidationResult :=
  {| name := name self; category := category self;
     passed := passed self;
     errors := errors self;
     warnings := warnings self ++ [message];
     details := details self; duration := duration self |}.

(** The two direct writes the stages perform on a result:
    [result.duration = ...] and [result.details[key] = ...]. *)
Definition set_duration (d : float) (self : ValidationResult) : ValidationResult :=
  {| name := name self; category := category self; passed := passed self;
     errors := errors self; warnings := warnings self;
     details := details self; duration := d |}.

Definition set_detail (key : string) (v : Detail) (self : ValidationResult)
  : ValidationResult :=
  {| name := name self; category := category self; passed := passed self;
     errors := errors self; warnings := warnings self;
     details := <[key := v]> (details self); duration := duration self |}.

(** [to_dict]: the dictionary written to the JSON report. *)
Record ResultDict := mkResultDict {
  d_name : string; d_category : string; d_passed : bool;
  d_errors : list string; d_warnings : list string;
  d_details : gmap string Detail; d_duration : float;
}.

Definition to_dict (self : ValidationResult) : ResultDict :=
  {| d_name := name self; d_category := category self; d_passed := passed self;
     d_errors := errors self; d_warnings := warnings self;
     d_details := details self; d_duration := duration self |}.

(** *** Configuration documents (the three YAML files) *)

(** S2_table_contracts.yaml:
    [tables: {<table>: {schema: {required_fields: [...], fields: {<f>: {type: T}}}}}] *)
Record FieldDef := { fd_type : option string }.
Record ContractSchema := {
  required_fields : option (list string);
  fields : option (list (string * FieldDef));
}.
Record Contract := { schema : option ContractSchema }.
Record TableContracts := { tables : option (list (string * Contract)) }.

(** S2_quality_rules.yaml: [global_rules] and [table_rules], each rule
    set a dictionary with the sections [patterns] and [timestamps];
    [other_sections] are the remaining keys of a rule set. *)
Record RuleSet := {
  patterns : option (list (string * string));
  timestamps : option (list (string * bool));
  other_sections : list string;
}.
Record QualityRules := {
  global_rules : option RuleSet;
  table_rules : option (list (string * RuleSet));
}.

(** S2_sla_retention.yaml:
    [freshness_slas: {<category>: {<table>: {max_staleness: D, late_arrival_threshold: D}}}] *)
Definition SlaEntry := list (string * string).
Record SlaConfig := {
  freshness_slas : option (list (string * list (string * SlaEntry)));
}.

(** What a [_load_*] method leaves in the runner: [{}] when the file is
    missing or unreadable, that is [Dict] of a document without keys, and
    otherwise what [yaml.safe_load] returned, which is a dictionary or,
    for an empty file or a scalar document, not a dictionary. *)
Inductive Loaded (A : Type) :=
| NotADict
| Dict (doc : A).
Arguments NotADict {A}.
Arguments Dict {A} doc.

(** [self.<config>.get(...)]: [AttributeError] when the loaded document
    has no [get]. *)
Definition config_get {A B} (cfg : Loaded A) (f : A -> B) : py_result B :=
  match cfg with
  | Dict doc => Return (f doc)
  | NotADict =>
      Raise (mkExc AttributeError "'NoneType' object has no attribute 'get'")
  end.

(** *** The warehouse client *)

Record SchemaField := { field_name : string; field_type : string }.
Record Table := { table_schema : list SchemaField }.

(** The row of the aggregate timestamp query of [validate_data_constraints] *)
Record TimestampRow := {
  total_rows : Z; null_created_at : Z; null_updated_at : Z;
  future_created_at : Z; invalid_updated_at : Z;
}.

(** The row of the freshness query of [validate_freshness_sla] *)
Record FreshnessRow := {
  latest_created_at : option datetime;
  latest_updated_at : option datetime;
  fr_total_rows : Z;
}.

(** What [bigquery.Client] answers.  Each answer is a function of the
    arguments of the call: the warehouse does not change during a run. *)
Record Client := {
  list_tables : string -> py_result (list string);
  get_table : string -> string -> py_result Table;
  query_timestamps : string -> string -> string -> py_result (list TimestampRow);
  query_freshness : string -> string -> string -> py_result (list FreshnessRow);
}.

Inductive ApiCall :=
| CallListTables (dataset : string)
| CallGetTable (dataset table : string)
| CallQueryTimestamps (project dataset table : string)
| CallQueryFreshness (project dataset table : string).

(** The readings of [time.time()] and [datetime.utcnow()], by the number
    of clock reads that came before. *)
Record Clock := { time_at : nat -> float; utcnow_at : nat -> datetime }.

(** The part of the world the runner acts on: how often the clock was
    read, and the warehouse calls issued so far (oldest first). *)
Record World := mkWorld { clock_reads : nat; api_calls : list ApiCall }.

Definition M (A : Type) : Type := World -> A * World.
Definition ret {A} (a : A) : M A := fun w => (a, w).
Definition mbind {A B} (m : M A) (k : A -> M B) : M B :=
  fun w => let (a, w') := m w in k a w'.

Declare Scope run_scope.
Delimit Scope run_scope with run.
Notation "x <~ c1 ;; c2" := (mbind c1 (fun x => c2))
  (at level 100, c1 at next level, right associativity) : run_scope.
Local Open Scope run_scope.

(** class ValidationRunner: main validation runner orchestrating all
    validation types *)
Record ValidationRunner := mkRunner {
  project_id : string;
  dataset_id : string;
  output_format : string;
  client : Client;
  results : list ValidationResult;
  quality_rules : Loaded QualityRules;
  table_contracts : Loaded TableContracts;
  sla_config : Loaded SlaConfig;
}.

(** [ValidationRunner.__init__], given what the three [_load_*] methods
    read and the client that [bigquery.Client(project=...)] built. *)
Definition ValidationRunner_init (project_id dataset_id output_format : string)
    (rules : Loaded QualityRules) (contracts : Loaded TableContracts)
    (sla : Loaded SlaConfig) (client : Client) : ValidationRunner :=
  {| project_id := project_id; dataset_id := dataset_id;
     output_format := output_format; client := client; results := [];
     quality_rules := rules; table_contracts := contracts; sla_config := sla |}.

Definition with_results (self : ValidationRunner) (rs : list ValidationResult)
  : ValidationRunner :=
  {| project_id := project_id self; dataset_id := dataset_id self;
     output_format := output_format self; client := client self; results := rs;
     quality_rules := quality_rules self; table_contracts := table_contracts self;
     sla_config := sla_config self |}.

Definition log_call (c : ApiCall) : M unit :=
  fun w => (tt, {| clock_reads := clock_reads w; api_calls := api_calls w ++ [c] |}).

(** The warehouse calls of the runner: each is recorded, then answered. *)
Definition call_list_tables (self : ValidationRunner) : M (py_result (list string)) :=
  _ <~ log_call (CallListTables (dataset_id self)) ;;
  ret (list_tables (client self) (dataset_id self)).

Definition call_get_table (self : ValidationRunner) (table_name : string)
  : M (py_result Table) :=
  _ <~ log_call (CallGetTable (dataset_id self) table_name) ;;
  ret (get_table (client self) (dataset_id self) table_name).

Definition call_query_timestamps (self : ValidationRunner) (table_name : string)
  : M (py_result (list TimestampRow)) :=
  _ <~ log_call (CallQueryTimestamps (project_id self) (dataset_id self) table_name) ;;
  ret (query_timestamps (client self) (project_id self) (dataset_id self) table_name).

Definition call_query_freshness (self : ValidationRunner) (table_name : string)
  : M (py_result (list FreshnessRow)) :=
  _ <~ log_call (CallQueryFreshness (project_id self) (dataset_id self) table_name) ;;
  ret (query_freshness (client self) (project_id self) (dataset_id self) table_name).

Section Runner.
Context {py : PyLib} (clock : Clock).

(** [time.time()] and [datetime.utcnow()] *)
Definition time_time : M float :=
  fun w => (time_at clock (clock_reads w),
            {| clock_reads := S (clock_reads w); api_calls := api_calls w |}).

Definition utcnow : M datetime :=
  fun w => (utcnow_at clock (clock_reads w),
            {| clock_reads := S (clock_reads w); api_calls := api_calls w |}).

(** [result.duration = time.time() - start_time; return result] *)
Definition finish (start_time : float) (result : ValidationResult)
  : M ValidationResult :=
  t <~ time_time ;;
  ret (set_duration (PrimFloat.sub t start_time) result).

(** [get_matching_tables]: get list of tables matching the given pattern *)
Definition get_matching_tables (self : ValidationRunner) (pattern : string)
  : M (list string) :=
  listed <~ call_list_tables self ;;
  match listed with
  | Raise _ => ret []                  (* except Exception: return [] *)
  | Return tables =>
      if String.eqb pattern "*" then ret tables
      else
        (* convert glob pattern to regex *)
        let regex_pattern :=
          replace_char "?" "." (replace_char "*" ".*" pattern) in
        match re_compile ("^" +:+ regex_pattern +:+ "$") with
        | Raise _ => ret []            (* except Exception: return [] *)
        | Return regex => ret (List.filter regex tables)
        end
  end.

(** [{field.name: field for field in table.schema}] *)
Definition schema_fields_of (table : Table) : gmap string SchemaField :=
  foldl (fun m f => <[field_name f := f]> m) ∅ (table_schema table).

(** The loop over [required_fields] of [validate_schema_compliance] *)
Definition check_required_fields (schema_fields : gmap string SchemaField)
    (required : list string) (result : ValidationResult) : ValidationResult :=
  foldl (fun result fname =>
           match schema_fields !! fname with
           | None =>
               add_error ("Required field '" +:+ fname +:+ "' missing from schema")
                         result
           | Some _ => result
           end) result required.

(** The loop over [field_definitions.items()] of [validate_schema_compliance] *)
Definition check_field_types (schema_fields : gmap string SchemaField)
    (field_definitions : list (string * FieldDef)) (result : ValidationResult)
  : ValidationResult :=
  foldl (fun result def =>
           match schema_fields !! (fst def) with
           | Some field =>
               let actual_type := field_type field in
               let expected_type := upper (default "" (fd_type (snd def))) in
               if negb (String.eqb expected_type "")
                  && negb (String.eqb actual_type expected_type)
               then add_error ("Field '" +:+ fst def +:+ "' type mismatch: "
                               +:+ "expected " +:+ expected_type
                               +:+ ", got " +:+ actual_type) result
               else result
           | None => result
           end) result field_definitions.

(** [validate_schema_compliance]: validate table schema against defined
    contracts *)
Definition validate_schema_compliance (self : ValidationRunner)
    (table_name : string) : M ValidationResult :=
  let result := ValidationResult_init table_name "schema_compliance" in
  start_time <~ time_time ;;
  (* try: get table schema from BigQuery *)
  looked_up <~ call_get_table self table_name ;;
  match (table <- looked_up ;;;
         contracts <- config_get (table_contracts self)
                                 (fun c => default [] (tables c)) ;;;
         Return (table, contracts)) with
  | Return (table, contracts) =>
      (* check if table has contract definition *)
      match dict_get contracts table_name with
      | None =>
          finish start_time
            (add_warning ("No schema contract defined for " +:+ table_name) result)
      | Some contract =>
          (* validate required fields exist *)
          let schema_fields := schema_fields_of table in
          let required_fields :=
            default [] (s ← schema contract; required_fields s) in
          let result := check_required_fields schema_fields required_fields result in
          (* validate field types *)
          let field_definitions :=
            default [] (s ← schema contract; fields s) in
          let result := check_field_types schema_fields field_definitions result in
          let result :=
            set_detail "table_schema"
              (TableSchemaDetail (size schema_fields) (length required_fields)
                                 (length field_definitions)) result in
          finish start_time result
      end
  | Raise e =>
      if is_NotFound e then
        (* except gcp_exceptions.NotFound *)
        finish start_time
          (add_error ("Table " +:+ table_name +:+ " not found in dataset "
                      +:+ dataset_id self) result)
      else
        (* except Exception as e *)
        finish start_time
          (add_error ("Schema validation failed: " +:+ exc_str e) result)
  end.

(** [{**global_rules, **table_rules}]: a key of the table's rule set
    overrides the same key of the global one. *)
Definition merge_rules (global_rules table_rules : RuleSet) : RuleSet :=
  {| patterns := match patterns table_rules with
                 | Some p => Some p
                 | None => patterns global_rules
                 end;
     timestamps := match timestamps table_rules with
                   | Some t => Some t
                   | None => timestamps global_rules
                   end;
     other_sections :=
       other_sections global_rules
       ++ List.filter (fun k => negb (existsb (String.eqb k) (other_sections global_rules)))
                      (other_sections table_rules) |}.

Definition empty_rules : RuleSet :=
  {| patterns := None; timestamps := None; other_sections := [] |}.

(** [not all_rules]: the merged dictionary has no key *)
Definition no_rules (r : RuleSet) : bool :=
  match patterns r, timestamps r, other_sections r with
  | None, None, [] => true
  | _, _, _ => false
  end.

(** The three checks on the row of the timestamp query, and the
    [timestamp_validation] detail. *)
Definition check_timestamp_row (row : TimestampRow) (result : ValidationResult)
  : ValidationResult :=
  let result :=
    if 0 <? null_created_at row
    then add_error ("Found " +:+ pretty (null_created_at row)
                    +:+ " rows with NULL created_at") result
    else result in
  let result :=
    if 0 <? future_created_at row
    then add_error ("Found " +:+ pretty (future_created_at row)
                    +:+ " rows with future created_at") result
    else result in
  let result :=
    if 0 <? invalid_updated_at row
    then add_error ("Found " +:+ pretty (invalid_updated_at row)
                    +:+ " rows with updated_at < created_at") result
    else result in
  set_detail "timestamp_validation"
    (TimestampValidationDetail (total_rows row) (null_created_at row)
       (future_created_at row) (invalid_updated_at row)) result.

(** [validate_data_constraints]: validate data constraints and business
    rules *)
Definition validate_data_constraints (self : ValidationRunner)
    (table_name : string) : M ValidationResult :=
  let result := ValidationResult_init table_name "data_constraints" in
  start_time <~ time_time ;;
  (* try: get quality rules for this table *)
  match (global_rules <- config_get (quality_rules self)
                           (fun q => default empty_rules (global_rules q)) ;;;
         table_rules <- config_get (quality_rules self)
                          (fun q => default empty_rules
                                      (dict_get (default [] (table_rules q)) table_name)) ;;;
         (* combine global and table-specific rules *)
         Return (merge_rules global_rules table_rules)) with
  | Raise e =>
      (* except Exception as e *)
      finish start_time
        (add_error ("Data constraint validation failed: " +:+ exc_str e) result)
  | Return all_rules =>
      if no_rules all_rules then
        finish start_time
          (add_warning ("No data quality rules defined for " +:+ table_name) result)
      else
        (* validate patterns (e.g., UUID, email formats) *)
        let result :=
          foldl (fun result p =>
                   set_detail ("pattern_" +:+ fst p)
                     (PatternDetail ("Pattern " +:+ snd p +:+ " validated")) result)
                result (default [] (patterns all_rules)) in
        (* check timestamp rules *)
        match default [] (timestamps all_rules) with
        | [] => finish start_time result
        | _ :: _ =>
            answer <~ call_query_timestamps self table_name ;;
            match answer with
            | Return [] => finish start_time result
            | Return (row :: _) => finish start_time (check_timestamp_row row result)
            | Raise query_error =>
                (* except Exception as query_error *)
                finish start_time
                  (add_warning ("Could not validate timestamps: "
                                +:+ exc_str query_error) result)
            end
        end
  end.

(** [_parse_duration]: parse duration string like '24h', '2d' to hours *)
Definition _parse_duration (duration_str : string) : py_result float :=
  if endswith duration_str "h" then
    py_float (drop_last duration_str)
  else if endswith duration_str "d" then
    x <- py_float (drop_last duration_str) ;;; Return (PrimFloat.mul x 24)
  else if endswith duration_str "m" then
    x <- py_float (drop_last duration_str) ;;; Return (PrimFloat.div x 60)
  else
    (* default to hours *)
    py_float duration_str.

(** The scan of [validate_freshness_sla] over the categories
    ['live_data_tables', 'core_tables']: first hit wins. *)
Fixpoint lookup_sla (freshness_slas : list (string * list (string * SlaEntry)))
    (categories : list string) (table_name : string) : option SlaEntry :=
  match categories with
  | [] => None
  | category :: rest =>
      match dict_get freshness_slas category with
      | Some by_table =>
          match dict_get by_table table_name with
          | Some entry => Some entry
          | None => lookup_sla freshness_slas rest table_name
          end
      | None => lookup_sla freshness_slas rest table_name
      end
  end.

(** The body of the inner [try] of [validate_freshness_sla] once the
    query has answered. *)
Definition check_freshness (table_name : string)
    (staleness_hours threshold_hours : float)
    (rows : list FreshnessRow) (result : ValidationResult) : M ValidationResult :=
  match rows with
  | row :: _ =>
      if 0 <? fr_total_rows row then
        (* latest_timestamp = row.latest_updated_at or row.latest_created_at *)
        let latest_timestamp :=
          match latest_updated_at row with
          | Some t => Some t
          | None => latest_created_at row
          end in
        match latest_timestamp with
        | Some latest_timestamp =>
            (* calculate staleness *)
            now <~ utcnow ;;
            let time_diff :=
              match tzinfo latest_timestamp with
              | None =>
                  datetime_sub now (replace_tzinfo latest_timestamp None)
              | Some tz =>
                  datetime_sub (replace_tzinfo now (Some tz)) latest_timestamp
              end in
            let staleness_hours_actual :=
              PrimFloat.div (total_seconds time_diff) 3600 in
            let result :=
              set_detail "freshness_check"
                (FreshnessCheckDetail (str_datetime latest_timestamp)
                   staleness_hours_actual staleness_hours (fr_total_rows row))
                result in
            if PrimFloat.ltb staleness_hours staleness_hours_actual then
              ret (add_warning
                     ("Data is stale: " +:+ format_1f staleness_hours_actual
                      +:+ "h > " +:+ str_float staleness_hours +:+ "h threshold")
                     result)
            else if PrimFloat.ltb threshold_hours staleness_hours_actual then
              ret (add_warning
                     ("Data approaching staleness: "
                      +:+ format_1f staleness_hours_actual +:+ "h > "
                      +:+ str_float threshold_hours +:+ "h late threshold")
                     result)
            else ret result
        | None =>
            ret (add_warning "No timestamp data found for freshness check" result)
        end
      else ret (add_warning ("Table " +:+ table_name +:+ " is empty") result)
  | [] => ret (add_warning ("Table " +:+ table_name +:+ " is empty") result)
  end.

(** [validate_freshness_sla]: validate data freshness against SLA
    requirements *)
Definition validate_freshness_sla (self : ValidationRunner)
    (table_name : string) : M ValidationResult :=
  let result := ValidationResult_init table_name "freshness_sla" in
  start_time <~ time_time ;;
  (* try: get SLA configuration for this table *)
  match config_get (sla_config self) (fun c => default [] (freshness_slas c)) with
  | Raise e =>
      finish start_time
        (add_warning ("Freshness validation failed: " +:+ exc_str e) result)
  | Return freshness_slas =>
      (* check both live_data_tables and core_tables *)
      match lookup_sla freshness_slas ["live_data_tables"; "core_tables"] table_name with
      | None | Some [] =>
          finish start_time
            (add_warning ("No SLA configuration found for " +:+ table_name) result)
      | Some sla_config =>
          let max_staleness := default "24h" (dict_get sla_config "max_staleness") in
          let late_threshold :=
            default "12h" (dict_get sla_config "late_arrival_threshold") in
          (* parse time duration *)
          match (staleness_hours <- _parse_duration max_staleness ;;;
                 threshold_hours <- _parse_duration late_threshold ;;;
                 Return (staleness_hours, threshold_hours)) with
          | Raise e =>
              (* except Exception as e *)
              finish start_time
                (add_warning ("Freshness validation failed: " +:+ exc_str e) result)
          | Return (staleness_hours, threshold_hours) =>
              (* query for latest data timestamp *)
              answer <~ call_query_freshness self table_name ;;
              match answer with
              | Return rows =>
                  result <~ check_freshness table_name staleness_hours
                              threshold_hours rows result ;;
                  finish start_time result
              | Raise query_error =>
                  (* except Exception as query_error *)
                  finish start_time
                    (add_warning ("Could not check freshness: "
                                  +:+ exc_str query_error) result)
              end
          end
      end
  end.

(** [_determine_exit_code]: determine appropriate exit code based on
    results and fail_on setting *)
Definition _determine_exit_code (self : ValidationRunner) (fail_on : string) : Z :=
  let has_errors := existsb (fun result => negb (passed result)) (results self) in
  let has_warnings :=
    existsb (fun result => match warnings result with [] => false | _ => true end)
            (results self) in
  if has_errors then EXIT_HARD_FAILURE
  else if String.eqb fail_on "warn" && has_warnings then EXIT_SOFT_FAILURE
  else EXIT_SUCCESS.

Record CategoryCounts := { cat_passed : Z; cat_failed : Z; cat_warnings : Z }.

Record SummaryStats := {
  total_checks : Z; passed_checks : Z; failed_checks : Z;
  total_warnings : Z; total_errors : Z; success_rate : string;
}.

Record Summary := {
  timestamp : string;
  s_project_id : string;
  s_dataset_id : string;
  summary : SummaryStats;
  by_category : gmap string CategoryCounts;
  s_results : option (list ResultDict);
}.

Definition sumZ (l : list Z) : Z := foldr Z.add 0 l.

(** The loop of [_generate_summary] that groups by category *)
Definition group_by_category (rs : list ValidationResult)
  : gmap string CategoryCounts :=
  foldl (fun by_category result =>
           let c := default {| cat_passed := 0; cat_failed := 0; cat_warnings := 0 |}
                            (by_category !! category result) in
           <[category result :=
               {| cat_passed := if passed result then cat_passed c + 1 else cat_passed c;
                  cat_failed := if passed result then cat_failed c else cat_failed c + 1;
                  cat_warnings := cat_warnings c + Z.of_nat (length (warnings result)) |}]>
             by_category)
        ∅ rs.

(** [_generate_summary]: generate validation summary *)
Definition _generate_summary (self : ValidationRunner) : M Summary :=
  let total_checks := Z.of_nat (length (results self)) in
  let passed_checks :=
    sumZ (map (fun _ => 1) (List.filter passed (results self))) in
  let failed_checks := total_checks - passed_checks in
  let total_warnings :=
    sumZ (map (fun r => Z.of_nat (length (warnings r))) (results self)) in
  let total_errors :=
    sumZ (map (fun r => Z.of_nat (length (errors r))) (results self)) in
  let by_category := group_by_category (results self) in
  now <~ utcnow ;;
  ret {| timestamp := isoformat now;
         s_project_id := project_id self;
         s_dataset_id := dataset_id self;
         summary :=
           {| total_checks := total_checks;
              passed_checks := passed_checks;
              failed_checks := failed_checks;
              total_warnings := total_warnings;
              total_errors := total_errors;
              success_rate :=
                if 0 <? total_checks
                then format_1f (PrimFloat.mul
                                  (PrimFloat.div (float_of_Z passed_checks)
                                                 (float_of_Z total_checks)) 100)
                     +:+ "%"
                else "0%" |};
         by_category := by_category;
         s_results := if String.eqb (output_format self) "json"
                      then Some (map to_dict (results self)) else None |}.

(** What [run_validation] returns next to the exit code. *)
Inductive Report :=
| ErrorReport (error : string)          (* {'error': ...} *)
| SummaryReport (summary : Summary).

(** The loop [for table_name in tables] of [run_validation] *)
Fixpoint validate_tables (self : ValidationRunner) (tables : list string)
  : M ValidationRunner :=
  match tables with
  | [] => ret self
  | table_name :: rest =>
      (* schema compliance *)
      schema_result <~ validate_schema_compliance self table_name ;;
      let self := with_results self (results self ++ [schema_result]) in
      (* data constraints *)
      constraint_result <~ validate_data_constraints self table_name ;;
      let self := with_results self (results self ++ [constraint_result]) in
      (* freshness SLA *)
      freshness_result <~ validate_freshness_sla self table_name ;;
      let self := with_results self (results self ++ [freshness_result]) in
      validate_tables self rest
  end.

(** [run_validation]: run comprehensive validation pipeline *)
Definition run_validation (self : ValidationRunner) (table_pattern fail_on : string)
  : M (Z * Report * ValidationRunner) :=
  (* get matching tables *)
  tables <~ get_matching_tables self table_pattern ;;
  match tables with
  | [] => ret (EXIT_HARD_FAILURE, ErrorReport "No matching tables found", self)
  | _ :: _ =>
      (* run all validations *)
      self <~ validate_tables self tables ;;
      (* analyze results and determine exit code *)
      let exit_code := _determine_exit_code self fail_on in
      summary <~ _generate_summary self ;;
      ret (exit_code, SummaryReport summary, self)
  end.

End Runner.

End S4Runner.

(* ===================================================================== *)
(** ** pydantic: running the validators of a model                         *)
(* ===================================================================== *)

Module Pydantic.

(** The value an after-validator receives and returns: an instance of the
    model, or [None] when the validator before it returned nothing. *)
Inductive pyobj (A : Type) :=
| Instance (model : A)
| PyNone.
Arguments Instance {A} model.
Arguments PyNone {A}.

(** [model.<attr>]: [AttributeError] on [None]. *)
Definition on_instance {A B} (k : A -> py_result B) (model : pyobj A) : py_result B :=
  match model with
  | Instance m => k m
  | PyNone => Raise (mkExc AttributeError "'NoneType' object has no attribute")
  end.

Definition after_validator (A : Type) : Type := pyobj A -> py_result (pyobj A).

(** The validators decorated [@model_validator(mode="after")] run in the
    order of their definition in the class, each on what the one before
    returned. *)
Fixpoint run_after {A} (validators : list (after_validator A)) (model : pyobj A)
  : py_result (pyobj A) :=
  match validators with
  | [] => Return model
  | v :: rest => model' <- v model ;;; run_after rest model'
  end.

(** What validating a candidate gives: the validated value, a
    [ValidationError] with its messages, or an exception that pydantic
    does not convert ([ValueError] is converted, other classes are not). *)
Inductive outcome (A : Type) :=
| Validated (value : A)
| ValidationError (messages : list string)
| Propagated (e : PyExc).
Arguments Validated {A} value.
Arguments ValidationError {A} messages.
Arguments Propagated {A} e.

Definition of_result {A} (r : py_result A) : outcome A :=
  match r with
  | Return v => Validated v
  | Raise e =>
      match exc_class e with
      | ValueError => ValidationError ["Value error, " +:+ exc_str e]
      | _ => Propagated e
      end
  end.

(** The second stage of the construction of a model.  pydantic first
    validates every field against its type and its constraints (bounds,
    lengths, patterns, nested models) and, when one of them fails, raises
    a [ValidationError] of the field errors without calling a model
    validator.  The data that reach this function are those whose fields
    passed, which the predicates [..._fields_valid] of the models spell
    out; on them the after-validators run in order. *)
Definition model_validate {A} (validators : list (after_validator A)) (data : A)
  : outcome (pyobj A) :=
  of_result (run_after validators (Instance data)).

(** [x is None] *)
Definition is_None {A} (x : option A) : bool :=
  match x with None => true | Some _ => false end.

(** [x and ...] on an [Optional[int]]: present and not zero. *)
Definition truthy (x : option Z) : bool :=
  match x with Some n => negb (n =? 0) | None => false end.

End Pydantic.
Export Pydantic.

(* ===================================================================== *)
(** ** NMD/S4_pydantic/diagnostic_sessions_model.py                        *)
(* ===================================================================== *)

Module DiagnosticSessions.

(** A [str] as its code points. *)
Definition pystr := list N.

Definition codepoints (s : string) : pystr :=
  map (fun a => N_of_ascii a) (list_ascii_of_string s).

(** The pieces of a pattern that is a sequence of one-character
    matchers between [^] and [$]. *)
Inductive atom :=
| CharSet (members : list N)    (* [...] *)
| Decimal.                      (* \d *)

Section Code.
Context {py : PyLib}.

Definition atom_matches (a : atom) (c : N) : bool :=
  match a with
  | CharSet members => existsb (N.eqb c) members
  | Decimal => unicode_decimal c
  end.

(** A match of [^a1...an$]: the string has exactly n characters and
    the i-th one matches the i-th atom. *)
Fixpoint fullmatch (pattern : list atom) (s : pystr) : bool :=
  match pattern, s with
  | [], [] => true
  | a :: pattern', c :: s' => atom_matches a c && fullmatch pattern' s'
  | _, _ => false
  end.

(** [r'^[PBCU]\d{4}$'] *)
Definition DTC_pattern : list atom :=
  CharSet (codepoints "PBCU") :: repeat Decimal 4.

(** [DTCCode = constr(pattern=r'^[PBCU]\d{4}$')] *)
Definition DTCCode (v : pystr) : bool := fullmatch DTC_pattern v.

(** [s.isdigit()]: not empty and every character is a digit *)
Definition isdigit (s : pystr) : bool :=
  match s with [] => false | _ => forallb unicode_digit s end.

(** [DiagnosticCode.validate_dtc_format], the field validator of [code] *)
Definition validate_dtc_format (v : pystr) : py_result pystr :=
  if negb (length v =? 5)%nat then
    raise_ValueError "DTC code must be exactly 5 characters"
  else
    match v with
    | [] => Raise (mkExc (OtherException "IndexError") "string index out of range")
    | category :: rest =>
        if negb (existsb (N.eqb category) (codepoints "PBCU")) then
          raise_ValueError "DTC code must start with P, B, C, or U"
        else if negb (isdigit rest) then
          raise_ValueError "DTC code must have 4 digits after the category letter"
        else Return v
    end.

(** Validation of the field [code: DTCCode]: the pattern of the
    constrained string, then the field validator. *)
Definition validate_code (v : pystr) : outcome pystr :=
  if DTCCode v then of_result (validate_dtc_format v)
  else ValidationError ["String should match pattern '^[PBCU]\d{4}$'"].

End Code.

End DiagnosticSessions.

(* ===================================================================== *)
(** ** NMD/S4_pydantic/parts_inventory_model.py                            *)
(* ===================================================================== *)

Module PartsInventory.

(** class InventoryInfo: inventory tracking information.  The record
    holds what pydantic hands to the after-validator once every field
    passed its own constraint; [turnover_rate], a [Decimal] that no
    validator reads, is left out.  Dates are day ordinals. *)
Record InventoryInfo := {
  quantity_on_hand : option Z;
  quantity_allocated : option Z;
  quantity_available : option Z;
  reorder_point : option Z;
  reorder_quantity : option Z;
  max_stock_level : option Z;
  last_received_date : option Z;
  last_sold_date : option Z;
}.

(** [model.quantity_available = value] *)
Definition set_quantity_available (model : InventoryInfo) (value : Z) : InventoryInfo :=
  {| quantity_on_hand := quantity_on_hand model;
     quantity_allocated := quantity_allocated model;
     quantity_available := Some value;
     reorder_point := reorder_point model;
     reorder_quantity := reorder_quantity model;
     max_stock_level := max_stock_level model;
     last_received_date := last_received_date model;
     last_sold_date := last_sold_date model |}.

(** [InventoryInfo.validate_inventory_consistency]: validate inventory
    quantity relationships *)
Definition validate_inventory_consistency (model : InventoryInfo)
  : py_result (pyobj InventoryInfo) :=
  let on_hand := default 0 (quantity_on_hand model) in
  let allocated := default 0 (quantity_allocated model) in
  let available := default 0 (quantity_available model) in
  (* available should equal on_hand minus allocated *)
  let model :=
    if negb (available =? on_hand - allocated)
    then set_quantity_available model (on_hand - allocated)
    else model in
  (* allocated cannot exceed on_hand *)
  if on_hand <? allocated then
    raise_ValueError "Allocated quantity cannot exceed quantity on hand"
  else
    (* reorder validation *)
    let reorder_point := reorder_point model in
    let reorder_quantity := reorder_quantity model in
    let max_stock := max_stock_level model in
    if truthy reorder_point && truthy max_stock
       && (default 0 max_stock <=? default 0 reorder_point) then
      raise_ValueError "Reorder point must be less than max stock level"
    else if truthy reorder_quantity && truthy max_stock
            && (default 0 max_stock <? default 0 reorder_quantity) then
      raise_ValueError "Reorder quantity cannot exceed max stock level"
    else Return (Instance model).

Definition InventoryInfo_validators : list (after_validator InventoryInfo) :=
  [on_instance validate_inventory_consistency].

(** [Optional[conint(ge=0)]] *)
Definition conint_ge0 (v : option Z) : bool :=
  match v with
  | Some n => 0 <=? n
  | None => true
  end.

(** The constraints the fields of [InventoryInfo] declare: the six
    quantities are [Optional[conint(ge=0)]]; the two dates carry none.
    pydantic runs the after-validator only on data that meets them, and
    reports a field error of its own otherwise. *)
Definition InventoryInfo_fields_valid (data : InventoryInfo) : bool :=
  conint_ge0 (quantity_on_hand data)
  && conint_ge0 (quantity_allocated data)
  && conint_ge0 (quantity_available data)
  && conint_ge0 (reorder_point data)
  && conint_ge0 (reorder_quantity data)
  && conint_ge0 (max_stock_level data).

(** Construction of an [InventoryInfo] from data that meets
    [InventoryInfo_fields_valid]: the after-validator runs on the
    instance. *)
Definition InventoryInfo_validate (data : InventoryInfo) : outcome (pyobj InventoryInfo) :=
  model_validate InventoryInfo_validators data.

End PartsInventory.

(* ===================================================================== *)
(** ** NMD/S4_pydantic/maintenance_predictions_model.py                    *)
(* ===================================================================== *)

Module MaintenancePredictionsModel.

(** RiskLevel = Literal['low', 'medium', 'high', 'critical'] *)
Inductive RiskLevel := low | medium | high | critical.

Definition RiskLevel_str (l : RiskLevel) : string :=
  match l with
  | low => "low" | medium => "medium" | high => "high" | critical => "critical"
  end.

(** PriorityLevel = Literal['low', 'medium', 'high', 'urgent'] *)
Inductive PriorityLevel := priority_low | priority_medium | priority_high | priority_urgent.

(** PredictionStatus =
    Literal['active', 'acknowledged', 'scheduled', 'completed', 'dismissed'] *)
Inductive PredictionStatus := active | acknowledged | scheduled | completed | dismissed.

(** class RiskAssessment: risk assessment details for maintenance
    prediction.  [financial_impact], a [Decimal] whose only reader is a
    validator branch that does nothing, is left out. *)
Record RiskAssessment := {
  overall_risk_score : option float;
  failure_probability : option float;
  confidence_level : option float;
  risk_level : option RiskLevel;
  downtime_impact_hours : option float;
  safety_impact_score : option float;
  environmental_impact_score : option float;
}.

(** The dictionary [thresholds] of [validate_risk_consistency].  Its
    [get] falls back to (0.0, 1.0) for a key it does not have; every
    [RiskLevel] is a key. *)
Definition thresholds (l : RiskLevel) : float * float :=
  match l with
  | low => (0.0, 0.3)
  | medium => (0.2, 0.7)
  | high => (0.6, 0.9)
  | critical => (0.8, 1.0)
  end%float.

(** [Optional[confloat(ge=lo, le=hi)]]: the comparisons of binary64
    floats, which a NaN fails *)
Definition confloat_between (lo hi : float) (v : option float) : bool :=
  match v with
  | Some x => PrimFloat.leb lo x && PrimFloat.leb x hi
  | None => true
  end.

(** The constraints the fields of [RiskAssessment] declare.  pydantic
    runs the after-validator only on data that meets them, and reports a
    field error of its own otherwise. *)
Definition RiskAssessment_fields_valid (data : RiskAssessment) : bool :=
  (confloat_between 0.0 1.0 (overall_risk_score data)
   && confloat_between 0.0 1.0 (failure_probability data)
   && confloat_between 0.0 1.0 (confidence_level data)
   && confloat_between 0 8760 (downtime_impact_hours data)
   && confloat_between 0.0 10.0 (safety_impact_score data)
   && confloat_between 0.0 10.0 (environmental_impact_score data))%float.

Section Risk.
Context {py : PyLib}.

(** [RiskAssessment.validate_risk_consistency]: validate risk scores are
    consistent with risk level *)
Definition validate_risk_consistency (model : RiskAssessment)
  : py_result (pyobj RiskAssessment) :=
  match overall_risk_score model, risk_level model with
  | Some risk_score, Some risk_level =>
      let (min_score, max_score) := thresholds risk_level in
      if negb (PrimFloat.leb min_score risk_score && PrimFloat.leb risk_score max_score)
      then raise_ValueError ("Risk score " +:+ str_float risk_score
                             +:+ " inconsistent with risk level "
                             +:+ RiskLevel_str risk_level)
      else Return (Instance model)
  | _, _ => Return (Instance model)
  end.

Definition RiskAssessment_validators : list (after_validator RiskAssessment) :=
  [on_instance validate_risk_consistency].

(** Construction of a [RiskAssessment] from data that meets
    [RiskAssessment_fields_valid]: the after-validator runs on the
    instance. *)
Definition RiskAssessment_validate (data : RiskAssessment)
  : outcome (pyobj RiskAssessment) :=
  model_validate RiskAssessment_validators data.
End Risk.

(** class MaintenanceRecommendation, by its two required fields.  The
    validators of [MaintenancePredictions] only test whether a
    recommendation is present; an instance is always true. *)
Record MaintenanceRecommendation := {
  action : string;
  description : string;
}.

(** class MaintenancePredictions.  Dates are day ordinals.  The fields
    that no validator reads (model_info, trigger_conditions,
    historical_patterns, acknowledged_by, actual_outcome,
    prediction_accuracy, notes, internal_notes) are left out. *)
Record MaintenancePredictions := {
  prediction_id : string;
  prediction_date : Z;
  equipment_id : string;
  session_id : option string;
  prediction_type : string;
  predicted_failure_date : option Z;
  predicted_maintenance_date : option Z;
  priority : option PriorityLevel;
  status : option PredictionStatus;
  risk_assessment : option RiskAssessment;
  recommendation : option MaintenanceRecommendation;
  symptoms_detected : option (list string);
  acknowledged_at : option datetime;
  scheduled_maintenance_date : option Z;
  completed_at : option datetime;
  created_at : datetime;
  updated_at : datetime;
  expires_at : option datetime;
}.

(** [validate_prediction_dates]: validate prediction date relationships *)
Definition validate_prediction_dates (model : MaintenancePredictions)
  : py_result (pyobj MaintenancePredictions) :=
  let prediction_date := prediction_date model in
  let predicted_failure := predicted_failure_date model in
  let predicted_maintenance := predicted_maintenance_date model in
  let scheduled_maintenance := scheduled_maintenance_date model in
  (* predicted failure should be after prediction date *)
  if match predicted_failure with
     | Some f => f <=? prediction_date
     | None => false
     end
  then raise_ValueError "Predicted failure date must be after prediction date"
  (* predicted maintenance should be before predicted failure *)
  else if match predicted_maintenance, predicted_failure with
          | Some m, Some f => f <=? m
          | _, _ => false
          end
  then raise_ValueError
         "Predicted maintenance date should be before predicted failure date"
  (* scheduled maintenance validation *)
  else if match scheduled_maintenance with
          | Some s => s <? prediction_date
          | None => false
          end
  then raise_ValueError "Scheduled maintenance date cannot be before prediction date"
  else Return (Instance model).

Definition status_is (s : PredictionStatus) (x : option PredictionStatus) : bool :=
  match x, s with
  | Some active, active | Some acknowledged, acknowledged
  | Some scheduled, scheduled | Some completed, completed
  | Some dismissed, dismissed => true
  | _, _ => false
  end.

(** [validate_status_transitions]: validate status transition logic *)
Definition validate_status_transitions (model : MaintenancePredictions)
  : py_result (pyobj MaintenancePredictions) :=
  let status := status model in
  let acknowledged_at := acknowledged_at model in
  let scheduled_maintenance_date := scheduled_maintenance_date model in
  let completed_at := completed_at model in
  (* acknowledged status requires acknowledgment timestamp *)
  if status_is acknowledged status && is_None acknowledged_at then
    raise_ValueError "acknowledged_at required when status is acknowledged"
  (* scheduled status requires scheduled date *)
  else if status_is scheduled status && is_None scheduled_maintenance_date then
    raise_ValueError "scheduled_maintenance_date required when status is scheduled"
  (* completed status requires completion timestamp *)
  else if status_is completed status && is_None completed_at then
    raise_ValueError "completed_at required when status is completed"
  else Return (Instance model).

(** [validate_risk_financial_consistency]: its one conditional branch is
    [pass] (a warning, not an error), so it returns the model as it is. *)
Definition validate_risk_financial_consistency (model : MaintenancePredictions)
  : py_result (pyobj MaintenancePredictions) :=
  Return (Instance model).

(** [validate_expiration_reasonable]: the body is a docstring only, so
    the call returns [None]. *)
Definition validate_expiration_reasonable (model : pyobj MaintenancePredictions)
  : py_result (pyobj MaintenancePredictions) :=
  Return PyNone.

(** [validate_symptoms_limit]: [if v and len(v) > 50] reads the name [v],
    which neither the function nor the module binds. *)
Definition validate_symptoms_limit (model : pyobj MaintenancePredictions)
  : py_result (pyobj MaintenancePredictions) :=
  unbound_name "v".

(** [validate_updated_after_created]: [created_at] is a datetime, hence
    true, so [v < created_at] is evaluated and [v] is unbound. *)
Definition validate_updated_after_created (model : MaintenancePredictions)
  : py_result (pyobj MaintenancePredictions) :=
  let created_at := created_at model in
  unbound_name "v".

(** [validate_prediction_completeness]: high priority predictions should
    have more complete data *)
Definition validate_prediction_completeness (model : MaintenancePredictions)
  : py_result (pyobj MaintenancePredictions) :=
  match priority model with
  | Some priority_high | Some priority_urgent =>
      match risk_assessment model, recommendation model with
      | None, _ =>
          raise_ValueError "High/urgent priority predictions must include risk assessment"
      | Some _, None =>
          raise_ValueError "High/urgent priority predictions must include recommendations"
      | Some _, Some _ => Return (Instance model)
      end
  | _ => Return (Instance model)
  end.

(** The after-validators of [MaintenancePredictions], in the order of
    their definition in the class. *)
Definition MaintenancePredictions_validators
  : list (after_validator MaintenancePredictions) :=
  [ on_instance validate_prediction_dates;
    on_instance validate_status_transitions;
    on_instance validate_risk_financial_consistency;
    validate_expiration_reasonable;
    validate_symptoms_limit;
    on_instance validate_updated_after_created;
    on_instance validate_prediction_completeness ].

(** Construction of a [MaintenancePredictions] from data whose fields
    passed: the after-validators run in order. *)
Definition MaintenancePredictions_validate (data : MaintenancePredictions)
  : outcome (pyobj MaintenancePredictions) :=
  model_validate MaintenancePredictions_validators data.

End MaintenancePredictionsModel.

(* ===================================================================== *)
(** ** NMD/S4_pydantic/feature_store_model.py                              *)
(* ===================================================================== *)

Module FeatureStoreModel.

(** class StatisticalProfile: statistical profile of feature values.
    [min_value], [max_value] and [most_frequent_value], unions of
    [float], [int] and [str] that no validator reads, are left out. *)
Record StatisticalProfile := {
  mean_value : option float;
  median_value : option float;
  std_deviation : option float;
  percentile_25 : option float;
  percentile_75 : option float;
  percentile_95 : option float;
  unique_count : option Z;
  cardinality : option Z;
}.

(** [validate_std_deviation_non_negative]: [if v is not None and v < 0]
    reads the name [v], which neither the function nor the module binds. *)
Definition validate_std_deviation_non_negative (model : pyobj StatisticalProfile)
  : py_result (pyobj StatisticalProfile) :=
  unbound_name "v".

(** [validate_percentile_order]: validate percentile values are in
    correct order *)
Definition validate_percentile_order (model : StatisticalProfile)
  : py_result (pyobj StatisticalProfile) :=
  let p25 := percentile_25 model in
  let p75 := percentile_75 model in
  let p95 := percentile_95 model in
  if match p25, p75 with
     | Some a, Some b => PrimFloat.ltb b a
     | _, _ => false
     end
  then raise_ValueError "25th percentile cannot exceed 75th percentile"
  else if match p75, p95 with
          | Some b, Some c => PrimFloat.ltb c b
          | _, _ => false
          end
  then raise_ValueError "75th percentile cannot exceed 95th percentile"
  else Return (Instance model).

(** The after-validators of [StatisticalProfile], in the order of their
    definition in the class. *)
Definition StatisticalProfile_validators : list (after_validator StatisticalProfile) :=
  [ validate_std_deviation_non_negative;
    on_instance validate_percentile_order ].

(** Construction of a [StatisticalProfile] from data whose fields
    passed: the after-validators run in order. *)
Definition StatisticalProfile_validate (data : StatisticalProfile)
  : outcome (pyobj StatisticalProfile) :=
  model_validate StatisticalProfile_validators data.

End FeatureStoreModel.

(* ===================================================================== *)
(** ** A runtime, a clock and a warehouse for closed examples              *)
(* ===================================================================== *)

Module Reference.
Import S4Runner.

(** Unsigned decimal integer literals, the duration strings of the SLA
    file being of the form [<digits><unit>]. *)
Fixpoint digits_value (acc : Z) (s : string) : option Z :=
  match s with
  | EmptyString => Some acc
  | String a rest =>
      let n := Z.of_nat (nat_of_ascii a) in
      if (48 <=? n) && (n <=? 57) then digits_value (10 * acc + (n - 48)) rest
      else None
  end.

Definition float_of_digits (s : string) : py_result float :=
  match s with
  | EmptyString =>
      Raise (mkExc ValueError "could not convert string to float: ''")
  | _ =>
      match digits_value 0 s with
      | Some n => Return (float_of_Z n)
      | None =>
          Raise (mkExc ValueError ("could not convert string to float: '" +:+ s +:+ "'"))
      end
  end.

(** The integer part of a finite float, towards zero. *)
Definition trunc (x : float) : Z :=
  match Prim2SF x with
  | S754_finite sign m e =>
      let v := if 0 <=? e then Z.pos m * 2 ^ e else Z.pos m / 2 ^ (- e) in
      if sign then - v else v
  | _ => 0
  end.

(** One digit after the point, for floats that are a whole number of
    tenths. *)
Definition one_decimal (x : float) : string :=
  let tenths := trunc (PrimFloat.mul x 10) in
  (if tenths <? 0 then "-" else "")
  +:+ pretty (Z.abs tenths / 10) +:+ "." +:+ pretty (Z.abs tenths mod 10).

(** A pattern made of literal characters, [.] and [.*], between [^] and [$]. *)
Fixpoint glob_regex_match (p : list ascii) (s : list ascii) : bool :=
  match p with
  | [] => match s with [] => true | _ => false end
  | "."%char :: "*"%char :: p' =>
      (fix star (s : list ascii) : bool :=
         glob_regex_match p' s
         || match s with [] => false | _ :: s' => star s' end) s
  | "."%char :: p' =>
      match s with [] => false | _ :: s' => glob_regex_match p' s' end
  | c :: p' =>
      match s with
      | [] => false
      | a :: s' => Ascii.eqb a c && glob_regex_match p' s'
      end
  end.

Definition strip_anchors (p : list ascii) : list ascii :=
  let p := match p with "^"%char :: p' => p' | _ => p end in
  match reverse p with "$"%char :: r => reverse r | _ => p end.

(** The digits 0 to 9 *)
Definition ascii_digit (c : N) : bool := (48 <=? c)%N && (c <=? 57)%N.

(** The decimal digits of Unicode 14.0 (general category Nd), the
    version of CPython 3.11's [unicodedata], as the inclusive ranges of
    their code points: the ASCII digits first, the fullwidth digits
    U+FF10 to U+FF19 as (65296, 65305).  These are the characters [\d]
    matches in a pattern on [str]. *)
Definition decimal_digit_ranges : list (N * N) :=
  [(48, 57); (1632, 1641); (1776, 1785); (1984, 1993); (2406, 2415);
   (2534, 2543); (2662, 2671); (2790, 2799); (2918, 2927); (3046, 3055);
   (3174, 3183); (3302, 3311); (3430, 3439); (3558, 3567); (3664, 3673);
   (3792, 3801); (3872, 3881); (4160, 4169); (4240, 4249); (6112, 6121);
   (6160, 6169); (6470, 6479); (6608, 6617); (6784, 6793); (6800, 6809);
   (6992, 7001); (7088, 7097); (7232, 7241); (7248, 7257); (42528, 42537);
   (43216, 43225); (43264, 43273); (43472, 43481); (43504, 43513);
   (43600, 43609); (44016, 44025); (65296, 65305); (66720, 66729);
   (68912, 68921); (69734, 69743); (69872, 69881); (69942, 69951);
   (70096, 70105); (70384, 70393); (70736, 70745); (70864, 70873);
   (71248, 71257); (71360, 71369); (71472, 71481); (71904, 71913);
   (72016, 72025); (72784, 72793); (73040, 73049); (73120, 73129);
   (92768, 92777); (92864, 92873); (93008, 93017); (120782, 120831);
   (123200, 123209); (123632, 123641); (125264, 125273);
   (130032, 130041)]%N.

(** The characters that are digits for [str.isdigit] without being
    decimal digits: superscripts, subscripts, circled digits and the
    like. *)
Definition other_digit_ranges : list (N * N) :=
  [(178, 179); (185, 185); (4969, 4977); (6618, 6618); (8304, 8304);
   (8308, 8313); (8320, 8329); (9312, 9320); (9332, 9340); (9352, 9360);
   (9450, 9450); (9461, 9469); (9471, 9471); (10102, 10110); (10112, 10120);
   (10122, 10130); (68160, 68163); (69216, 69224); (69714, 69722);
   (127232, 127242)]%N.

Definition in_ranges (ranges : list (N * N)) (c : N) : bool :=
  existsb (fun r => (fst r <=? c)%N && (c <=? snd r)%N) ranges.

#[export] Instance reference_py : PyLib := {|
  py_float := float_of_digits;
  format_1f := one_decimal;
  str_float := one_decimal;
  str_datetime := fun d => pretty (wall_us d) +:+ "us";
  unicode_decimal := in_ranges decimal_digit_ranges;
  unicode_digit := fun c =>
    in_ranges decimal_digit_ranges c || in_ranges other_digit_ranges c;
  isoformat := fun d => pretty (wall_us d) +:+ "us";
  re_compile := fun p =>
    Return (fun s => glob_regex_match (strip_anchors (list_ascii_of_string p))
                                      (list_ascii_of_string s));
|}.

Definition hour_us : Z := 3600 * 1000000.

(** The clock stands at 1000 hours; [time.time()] advances by one second
    per reading. *)
Definition clock0 : Clock :=
  {| time_at := fun n => float_of_Z (Z.of_nat n);
     utcnow_at := fun _ => mkDatetime (1000 * hour_us) None |}.

Definition world0 : World := {| clock_reads := 0; api_calls := [] |}.

Definition hours_ago (h : Z) : datetime := mkDatetime ((1000 - h) * hour_us) None.

(** A warehouse with the tables [users] and [parts_inventory]. *)
Definition users_schema : Table :=
  {| table_schema := [ {| field_name := "id"; field_type := "STRING" |};
                       {| field_name := "created_at"; field_type := "TIMESTAMP" |} ] |}.

Definition clean_row : TimestampRow :=
  {| total_rows := 10; null_created_at := 0; null_updated_at := 0;
     future_created_at := 0; invalid_updated_at := 0 |}.

Definition client0 (fresh : list FreshnessRow) : Client :=
  {| list_tables := fun _ => Return ["users"; "parts_inventory"];
     get_table := fun _ t =>
       if String.eqb t "users" then Return users_schema
       else Raise (mkExc NotFound ("404 Not found: Table " +:+ t));
     query_timestamps := fun _ _ _ => Return [clean_row];
     query_freshness := fun _ _ _ => Return fresh |}.

Definition contracts0 : Loaded TableContracts :=
  Dict {| tables := Some [("users",
            {| schema := Some {| required_fields := Some ["id"];
                                 fields := Some [("id", {| fd_type := Some "string" |})] |} |})] |}.

Definition rules0 : Loaded QualityRules :=
  Dict {| global_rules := Some {| patterns := None;
                                  timestamps := Some [("created_at_not_future", true)];
                                  other_sections := [] |};
          table_rules := None |}.

Definition sla0 : Loaded SlaConfig :=
  Dict {| freshness_slas :=
            Some [("core_tables",
                   [("users", [("max_staleness", "24h");
                               ("late_arrival_threshold", "12h")])])] |}.

Definition runner0 (fresh : list FreshnessRow) : ValidationRunner :=
  ValidationRunner_init "diagnostic-pro-start-up" "diagnosticpro_prod" "text"
    rules0 contracts0 sla0 (client0 fresh).

Definition fresh_row (created updated : option datetime) : FreshnessRow :=
  {| latest_created_at := created; latest_updated_at := updated; fr_total_rows := 10 |}.

(** A warehouse that lists its tables and answers every other call by
    raising [e]. *)
Definition failing_client (e : PyExc) : Client :=
  {| list_tables := fun _ => Return ["users"; "parts_inventory"];
     get_table := fun _ _ => Raise e;
     query_timestamps := fun _ _ _ => Raise e;
     query_freshness := fun _ _ _ => Raise e |}.

Definition failing_runner (e : PyExc) : ValidationRunner :=
  ValidationRunner_init "diagnostic-pro-start-up" "diagnosticpro_prod" "text"
    rules0 contracts0 sla0 (failing_client e).

Definition forbidden : PyExc :=
  mkExc (OtherException "Forbidden") "403 Access Denied".
Definition not_found : PyExc :=
  mkExc NotFound "404 Not found: Table users".

(** A runner whose three configuration files are missing. *)
Definition unconfigured_runner : ValidationRunner :=
  ValidationRunner_init "diagnostic-pro-start-up" "diagnosticpro_prod" "text"
    (Dict {| global_rules := None; table_rules := None |})
    (Dict {| tables := None |})
    (Dict {| freshness_slas := None |})
    (client0 []).

End Reference.

(* ===================================================================== *)
(** ** Vocabulary of the statements                                        *)
(* ===================================================================== *)

Module Calls.
Import S4Runner.

(** A call of one of the two mutating methods of [ValidationResult]. *)
Inductive ResultCall :=
| AddError (message : string)
| AddWarning (message : string).

Definition apply_call (r : ValidationResult) (c : ResultCall) : ValidationResult :=
  match c with
  | AddError m => add_error m r
  | AddWarning m => add_warning m r
  end.

Definition apply_calls (cs : list ResultCall) (r : ValidationResult) : ValidationResult :=
  foldl apply_call r cs.

Definition is_error_call (c : ResultCall) : bool :=
  match c with AddError _ => true | AddWarning _ => false end.

Definition error_messages (cs : list ResultCall) : list string :=
  omap (fun c => match c with AddError m => Some m | AddWarning _ => None end) cs.

Definition warning_messages (cs : list ResultCall) : list string :=
  omap (fun c => match c with AddWarning m => Some m | AddError _ => None end) cs.

(** The results a stage can build from [r0]: by the two methods and by
    the two direct writes, [result.duration = ...] and
    [result.details[key] = ...]. *)
Inductive written_from (r0 : ValidationResult) : ValidationResult -> Prop :=
| written_init : written_from r0 r0
| written_error m r : written_from r0 r -> written_from r0 (add_error m r)
| written_warning m r : written_from r0 r -> written_from r0 (add_warning m r)
| written_duration d r : written_from r0 r -> written_from r0 (set_duration d r)
| written_detail k v r : written_from r0 r -> written_from r0 (set_detail k v r).

(** The three stages of a table, in the order [run_validation] runs them. *)
Definition stage_categories : list string :=
  ["schema_compliance"; "data_constraints"; "freshness_sla"].

Definition checks_of (table_name : string) : list (string * string) :=
  map (fun c => (table_name, c)) stage_categories.

Definition attribution (r : ValidationResult) : string * string :=
  (name r, category r).

(** The rules [validate_data_constraints] applies to a table: the global
    rule set overridden by the table's own. *)
Definition effective_rules (q : QualityRules) (table_name : string) : RuleSet :=
  merge_rules (default empty_rules (global_rules q))
              (default empty_rules (dict_get (default [] (table_rules q)) table_name)).

(** A result with warnings at most: no hard error. *)
Definition only_warnings (r : ValidationResult) (ws : list string) : Prop :=
  passed r = true /\ errors r = [] /\ warnings r = ws.

(** The timestamp the freshness stage measures staleness from:
    [latest_updated_at] when the query returned one, and otherwise
    [latest_created_at]. *)
Definition measured_timestamp (row : FreshnessRow) : option datetime :=
  match latest_updated_at row with
  | Some u => Some u
  | None => latest_created_at row
  end.

(** The more recent of the two maxima, as the specification words it,
    with [latest_created_at] alone when [latest_updated_at] is absent. *)
Definition more_recent_timestamp (row : FreshnessRow) : option datetime :=
  match latest_updated_at row, latest_created_at row with
  | Some u, Some c => Some (if wall_us u <? wall_us c then c else u)
  | Some u, None => Some u
  | None, c => c
  end.

(** Hours between two datetimes, as [validate_freshness_sla] computes
    them: [time_diff.total_seconds() / 3600]. *)
Definition hours_between (now ts : datetime) : float :=
  PrimFloat.div (total_seconds (wall_us now - wall_us ts)) 3600.

(** The warnings of the staleness comparison. *)
Definition staleness_warnings `{PyLib} (staleness_hours threshold_hours actual : float)
  : list string :=
  if PrimFloat.ltb staleness_hours actual then
    ["Data is stale: " +:+ format_1f actual +:+ "h > "
     +:+ str_float staleness_hours +:+ "h threshold"]
  else if PrimFloat.ltb threshold_hours actual then
    ["Data approaching staleness: " +:+ format_1f actual +:+ "h > "
     +:+ str_float threshold_hours +:+ "h late threshold"]
  else [].

Definition no_hard_error (r : ValidationResult) : Prop :=
  passed r = true /\ errors r = [].

(** A result with exactly the hard errors [es] and no warning. *)
Definition hard_errors (r : ValidationResult) (es : list string) : Prop :=
  passed r = false /\ errors r = es /\ warnings r = [].

End Calls.

Module Samples.
Import PartsInventory MaintenancePredictionsModel FeatureStoreModel.

(** An inventory record with the defaults of the model (0 for the three
    quantities) where a field is not given. *)
Definition inventory (on_hand allocated : Z) (reorder_pt max_stock : option Z)
  : InventoryInfo :=
  {| quantity_on_hand := Some on_hand;
     quantity_allocated := Some allocated;
     quantity_available := Some 0;
     reorder_point := reorder_pt;
     reorder_quantity := None;
     max_stock_level := max_stock;
     last_received_date := None;
     last_sold_date := None |}.

(** The quantities the validator compares: [model.<field> or 0]. *)
Definition on_hand (r : InventoryInfo) : Z := default 0 (quantity_on_hand r).
Definition allocated (r : InventoryInfo) : Z := default 0 (quantity_allocated r).
Definition available (r : InventoryInfo) : Z := default 0 (quantity_available r).

(** The two reorder checks of the validator pass. *)
Definition reorder_consistent (r : InventoryInfo) : bool :=
  negb (truthy (reorder_point r) && truthy (max_stock_level r)
        && (default 0 (max_stock_level r) <=? default 0 (reorder_point r)))
  && negb (truthy (reorder_quantity r) && truthy (max_stock_level r)
           && (default 0 (max_stock_level r) <? default 0 (reorder_quantity r))).

(** The record with [quantity_available] derived where it was inconsistent. *)
Definition derived (r : InventoryInfo) : InventoryInfo :=
  if available r =? on_hand r - allocated r then r
  else set_quantity_available r (on_hand r - allocated r).

(** The score lies in the band of the level. *)
Definition within_band (level : RiskLevel) (score : float) : bool :=
  PrimFloat.leb (fst (thresholds level)) score
  && PrimFloat.leb score (snd (thresholds level)).

Definition risk (score : option float) (level : option RiskLevel) : RiskAssessment :=
  {| overall_risk_score := score; failure_probability := None;
     confidence_level := None; risk_level := level;
     downtime_impact_hours := None; safety_impact_score := None;
     environmental_impact_score := None |}.

(** A maintenance prediction with the given status and resolution
    timestamps, valid in every other respect. *)
Definition prediction (st : PredictionStatus)
    (acknowledged completed : option datetime) (scheduled : option Z)
  : MaintenancePredictions :=
  {| prediction_id := "550e8400-e29b-41d4-a716-446655440000";
     prediction_date := 739510;
     equipment_id := "123e4567-e89b-12d3-a456-426614174000";
     session_id := None;
     prediction_type := "failure_prediction";
     predicted_failure_date := Some 739539;
     predicted_maintenance_date := None;
     priority := Some priority_medium;
     status := Some st;
     risk_assessment := None;
     recommendation := None;
     symptoms_detected := Some [];
     acknowledged_at := acknowledged;
     scheduled_maintenance_date := scheduled;
     completed_at := completed;
     created_at := mkDatetime 0 None;
     updated_at := mkDatetime 0 None;
     expires_at := None |}.

Definition profile (p25 p75 p95 : option float) : StatisticalProfile :=
  {| mean_value := None; median_value := None; std_deviation := None;
     percentile_25 := p25; percentile_75 := p75; percentile_95 := p95;
     unique_count := None; cardinality := None |}.

(** What the unbound name [v] raises. *)
Definition NameError_v : PyExc := mkExc NameError "name 'v' is not defined".

End Samples.

(* ===================================================================== *)
(** ** Vocabulary of the further statements on the runner                  *)
(* ===================================================================== *)

Module RunnerTerms.
Import S4Runner.

(** The messages of the schema stage. *)
Definition missing_field_message (fname : string) : string :=
  "Required field '" +:+ fname +:+ "' missing from schema".

Definition type_mismatch_message (fname expected actual : string) : string :=
  "Field '" +:+ fname +:+ "' type mismatch: " +:+ "expected " +:+ expected
  +:+ ", got " +:+ actual.

(** The type a contract declares for a field, as it is compared: in
    upper case, and empty when the definition has no [type]. *)
Definition expected_type (def : FieldDef) : string :=
  upper (default "" (fd_type def)).

(** A required field that the table's schema does not have. *)
Definition is_missing (schema_fields : gmap string SchemaField) (fname : string) : bool :=
  match schema_fields !! fname with None => true | Some _ => false end.

(** A declared field that the table has with another type than the
    non-empty one declared; the message it gets. *)
Definition mismatch (schema_fields : gmap string SchemaField) (def : string * FieldDef)
  : option string :=
  match schema_fields !! (fst def) with
  | Some field =>
      if negb (String.eqb (expected_type (snd def)) "")
         && negb (String.eqb (field_type field) (expected_type (snd def)))
      then Some (type_mismatch_message (fst def) (expected_type (snd def))
                                       (field_type field))
      else None
  | None => None
  end.

(** What a contract requires and declares. *)
Definition contract_required (contract : Contract) : list string :=
  default [] (s ← schema contract; required_fields s).
Definition contract_fields (contract : Contract) : list (string * FieldDef) :=
  default [] (s ← schema contract; fields s).

(** The hard errors the row of the timestamp query gives rise to. *)
Definition timestamp_errors (row : TimestampRow) : list string :=
  (if 0 <? null_created_at row
   then ["Found " +:+ pretty (null_created_at row) +:+ " rows with NULL created_at"]
   else [])
  ++ (if 0 <? future_created_at row
      then ["Found " +:+ pretty (future_created_at row) +:+ " rows with future created_at"]
      else [])
  ++ (if 0 <? invalid_updated_at row
      then ["Found " +:+ pretty (invalid_updated_at row)
            +:+ " rows with updated_at < created_at"]
      else []).

(** The categories the freshness stage scans, in its order. *)
Definition sla_categories : list string := ["live_data_tables"; "core_tables"].

(** The results of a category, and the counters of the summary. *)
Definition of_category (c : string) (rs : list ValidationResult) : list ValidationResult :=
  List.filter (fun r => String.eqb (category r) c) rs.

Definition count_passed (rs : list ValidationResult) : Z :=
  Z.of_nat (length (List.filter passed rs)).
Definition count_failed (rs : list ValidationResult) : Z :=
  Z.of_nat (length (List.filter (fun r => negb (passed r)) rs)).
Definition count_warnings (rs : list ValidationResult) : Z :=
  sumZ (map (fun r => Z.of_nat (length (warnings r))) rs).
Definition count_errors (rs : list ValidationResult) : Z :=
  sumZ (map (fun r => Z.of_nat (length (errors r))) rs).

(** The counters of a category in the summary's [by_category]. *)
Definition category_counts (rs : list ValidationResult) : CategoryCounts :=
  {| cat_passed := count_passed rs; cat_failed := count_failed rs;
     cat_warnings := count_warnings rs |}.

(** The calls a run issues about one table: the lookup, then the queries
    that were issued, each at most once and in this order. *)
Definition table_queries (self : ValidationRunner) (t : string) : list ApiCall :=
  [CallQueryTimestamps (project_id self) (dataset_id self) t;
   CallQueryFreshness (project_id self) (dataset_id self) t].

Definition table_calls (self : ValidationRunner) (g : string * list ApiCall)
  : list ApiCall :=
  CallGetTable (dataset_id self) (fst g) :: snd g.

(** What [None.get] raises. *)
Definition no_get : string := "'NoneType' object has no attribute 'get'".

(** The SLA entry the freshness stage finds for a table. *)
Definition sla_entry (c : SlaConfig) (table_name : string) : option SlaEntry :=
  lookup_sla (default [] (freshness_slas c)) sla_categories table_name.

End RunnerTerms.

Module MoreReference.
Import S4Runner Reference.

(** An SLA file that lists [users] under [live_data_tables] without any
    threshold and under [core_tables] with both. *)
Definition sla_shadowed : Loaded SlaConfig :=
  Dict {| freshness_slas :=
            Some [("core_tables",
                   [("users", [("max_staleness", "24h");
                               ("late_arrival_threshold", "12h")])]);
                  ("live_data_tables", [("users", [])])] |}.

(** An SLA file whose max_staleness for [users] is not a duration. *)
Definition sla_unparsable : Loaded SlaConfig :=
  Dict {| freshness_slas :=
            Some [("core_tables", [("users", [("max_staleness", "one day")])])] |}.

Definition runner_with_sla (sla : Loaded SlaConfig) (fresh : list FreshnessRow)
  : ValidationRunner :=
  ValidationRunner_init "diagnostic-pro-start-up" "diagnosticpro_prod" "text"
    rules0 contracts0 sla (client0 fresh).

(** A runner whose three configuration files are empty documents. *)
Definition runner_with_empty_files : ValidationRunner :=
  ValidationRunner_init "diagnostic-pro-start-up" "diagnosticpro_prod" "text"
    NotADict NotADict NotADict (client0 []).

End MoreReference.


(* ===================================================================== *)
(** ** NMD/S4_runner.py: printing the results, and the entry point         *)
(* ===================================================================== *)

Module S4Main.
Import S4Runner.

(** What [print_results] writes: the JSON dump of the report, or the
    text report, kept by the data its lines are formatted from. *)
Record TextReport := {
  shown : Summary;
  failures : list ValidationResult;        (* the section FAILURES, if not empty *)
  with_warnings : list ValidationResult;   (* the section WARNINGS, if not empty *)
  warning_count : Z;
  total_duration : float;
}.

Inductive Printed :=
| PrintedJson (report : Report)
| PrintedText (text : TextReport).

(** [sum(r.duration for r in self.results)] *)
Definition sum_durations (rs : list ValidationResult) : float :=
  foldl (fun acc r => PrimFloat.add acc (duration r)) 0%float rs.

(** [print_results]: print validation results to console.  The text
    format prints a rule and then reads [summary['timestamp']], a key
    that the error report does not have; the rule is left out of
    [Printed]. *)
Definition print_results (self : ValidationRunner) (summary : Report)
  : py_result Printed :=
  if String.eqb (output_format self) "json" then Return (PrintedJson summary)
  else
    match summary with
    | ErrorReport _ => Raise (mkExc (OtherException "KeyError") "'timestamp'")
    | SummaryReport summary =>
        let failures := List.filter (fun r => negb (passed r)) (results self) in
        let warnings :=
          List.filter (fun r => match warnings r with [] => false | _ => true end)
                      (results self) in
        Return (PrintedText
                  {| shown := summary;
                     failures := failures;
                     with_warnings := warnings;
                     warning_count :=
                       sumZ (map (fun r => Z.of_nat (length (S4Runner.warnings r)))
                                 warnings);
                     total_duration := sum_durations (results self) |})
    end.

Section Main.
Context {py : PyLib} (clock : Clock).
Local Open Scope run_scope.

(** [main], from the parsed arguments on: the runner that
    [ValidationRunner(...)] built or the exception it raised, the run,
    the printing, and the status given to [sys.exit].  Every exception is
    handled by [sys.exit(EXIT_HARD_FAILURE)]. *)
Definition main (runner : py_result ValidationRunner) (tables fail_on : string)
  : M (Z * option Printed) :=
  match runner with
  | Raise _ => ret (EXIT_HARD_FAILURE, None)
  | Return runner =>
      ran <~ run_validation clock runner tables fail_on ;;
      let '(exit_code, summary, runner) := ran in
      match print_results runner summary with
      | Return printed => ret (exit_code, Some printed)
      | Raise _ => ret (EXIT_HARD_FAILURE, None)
      end
  end.

End Main.

End S4Main.

(* ===================================================================== *)
(** ** pydantic: the constraints of fields                                 *)
(* ===================================================================== *)

Module FieldConstraints.

(** [Optional[T]]: [None] passes, and a value passes when it meets the
    constraint of [T]. *)
Definition optional {A} (constraint : A -> bool) (v : option A) : bool :=
  match v with
  | Some x => constraint x
  | None => true
  end.

(** [constr(max_length=n)] *)
Definition max_length (n : nat) (s : string) : bool := (String.length s <=? n)%nat.

(** [conint(ge=lo, le=hi)], and [ge=0] on an [int] *)
Definition conint_between (lo hi : Z) (n : Z) : bool := (lo <=? n) && (n <=? hi).

Definition int_ge0 (n : Z) : bool := 0 <=? n.

(** A [Literal[...]] of strings *)
Definition literal (values : list string) (s : string) : bool :=
  existsb (String.eqb s) values.

(** A pattern [^c1...cn$] of n one-character classes: the string has
    exactly n characters, the i-th one in the i-th class. *)
Fixpoint matches_classes (classes : list (ascii -> bool)) (s : string) : bool :=
  match classes, s with
  | [], EmptyString => true
  | c :: classes', String a s' => c a && matches_classes classes' s'
  | _, _ => false
  end.

Definition between (lo hi a : ascii) : bool :=
  (N_of_ascii lo <=? N_of_ascii a)%N && (N_of_ascii a <=? N_of_ascii hi)%N.

(** [a-f0-9] and [-] *)
Definition lower_hex (a : ascii) : bool := between "a" "f" a || between "0" "9" a.

Definition dash (a : ascii) : bool := Ascii.eqb a "-".

(** [UUID = constr(pattern=
    r'^[a-f0-9]{8}-[a-f0-9]{4}-[a-f0-9]{4}-[a-f0-9]{4}-[a-f0-9]{12}$')] *)
Definition UUID (s : string) : bool :=
  matches_classes
    (repeat lower_hex 8 ++ [dash] ++ repeat lower_hex 4 ++ [dash]
     ++ repeat lower_hex 4 ++ [dash] ++ repeat lower_hex 4 ++ [dash]
     ++ repeat lower_hex 12)%list s.

(** [A-Z], [0-9] *)
Definition upper (a : ascii) : bool := between "A" "Z" a.

Definition digit (a : ascii) : bool := between "0" "9" a.

(** [constr(pattern=r'^[A-Z]{3}$')], a currency code *)
Definition CurrencyCode (s : string) : bool := matches_classes (repeat upper 3) s.

(** Every character of the string is in the class. *)
Fixpoint all_in (class : ascii -> bool) (s : string) : bool :=
  match s with
  | EmptyString => true
  | String a s' => class a && all_in class s'
  end.

(** [FeatureSetName = constr(pattern=r'^[a-z][a-z0-9_]*$')] *)
Definition FeatureSetName (s : string) : bool :=
  match s with
  | EmptyString => false
  | String a s' =>
      between "a" "z" a
      && all_in (fun c => between "a" "z" c || digit c || Ascii.eqb c "_") s'
  end.

(** [PartNumber = constr(pattern=r'^[A-Z0-9-]+$', max_length=50)] *)
Definition PartNumber (s : string) : bool :=
  negb (String.eqb s "")
  && all_in (fun c => upper c || digit c || dash c) s
  && max_length 50 s.

(** [VIN = constr(pattern=r'^[A-HJ-NPR-Z0-9]{17}$')] *)
Definition vin_character (a : ascii) : bool :=
  between "A" "H" a || between "J" "N" a || Ascii.eqb a "P" || between "R" "Z" a
  || digit a.

Definition VIN (s : string) : bool := matches_classes (repeat vin_character 17) s.

End FieldConstraints.

(* ===================================================================== *)
(** ** maintenance_predictions_model.py: computed fields, acknowledgment   *)
(* ===================================================================== *)

Module MaintenancePredictionsResponse.
Import MaintenancePredictionsModel FieldConstraints.

(** PredictionType and MaintenanceAction *)
Definition PredictionType : list string :=
  ["failure_prediction"; "maintenance_due"; "performance_degradation";
   "cost_optimization"; "safety_alert"; "efficiency_warning"].

Definition MaintenanceAction : list string :=
  ["inspect"; "service"; "replace"; "repair"; "calibrate";
   "clean"; "lubricate"; "adjust"; "monitor"; "no_action"].

(** The constraints of the two fields of a [MaintenanceRecommendation]
    that the record holds. *)
Definition MaintenanceRecommendation_fields_valid (data : MaintenanceRecommendation)
  : bool :=
  literal MaintenanceAction (action data) && max_length 1000 (description data).

Section Fields.
Context {py : PyLib}.

(** What pydantic checks of the data of a [MaintenancePredictions]
    before it runs the model validators: the three identifiers match the
    pattern of [UUID], the prediction type is one of [PredictionType], a
    risk assessment is one that its own construction accepts, and a
    recommendation meets the constraints of its fields.  The other fields
    of the record are dates, timestamps, enumerations and a list of
    strings, which carry no constraint. *)
Definition MaintenancePredictions_fields_valid (data : MaintenancePredictions) : Prop :=
  UUID (prediction_id data) = true
  /\ UUID (equipment_id data) = true
  /\ optional UUID (session_id data) = true
  /\ literal PredictionType (prediction_type data) = true
  /\ (forall ra, risk_assessment data = Some ra ->
                 RiskAssessment_fields_valid ra = true
                 /\ RiskAssessment_validate ra = Validated (Instance ra))
  /\ (forall rec, recommendation data = Some rec ->
                  MaintenanceRecommendation_fields_valid rec = true).

End Fields.

(** The messages of [validate_prediction_dates], of
    [validate_status_transitions] and of
    [validate_prediction_completeness], as pydantic reports them. *)
Definition date_rule_messages : list string :=
  ["Value error, Predicted failure date must be after prediction date";
   "Value error, Predicted maintenance date should be before predicted failure date";
   "Value error, Scheduled maintenance date cannot be before prediction date"].

Definition status_rule_messages : list string :=
  ["Value error, acknowledged_at required when status is acknowledged";
   "Value error, scheduled_maintenance_date required when status is scheduled";
   "Value error, completed_at required when status is completed"].

Definition completeness_messages : list string :=
  ["Value error, High/urgent priority predictions must include risk assessment";
   "Value error, High/urgent priority predictions must include recommendations"].

(** The three date rules hold, and the three status rules hold. *)
Definition dates_in_order (r : MaintenancePredictions) : Prop :=
  (forall f, predicted_failure_date r = Some f -> prediction_date r < f)
  /\ (forall m f, predicted_maintenance_date r = Some m ->
                  predicted_failure_date r = Some f -> m < f)
  /\ (forall s, scheduled_maintenance_date r = Some s -> prediction_date r <= s).

Definition status_backed (r : MaintenancePredictions) : Prop :=
  (status r = Some acknowledged -> acknowledged_at r <> None)
  /\ (status r = Some scheduled -> scheduled_maintenance_date r <> None)
  /\ (status r = Some completed -> completed_at r <> None).

(** class MaintenancePredictionsResponse(MaintenancePredictions).  The
    properties read [date.today()], here the day ordinal [today]. *)
Section Today.
Variable today : Z.

(** [days_until_failure]: calculate days until predicted failure *)
Definition days_until_failure (self : MaintenancePredictions) : option Z :=
  match predicted_failure_date self with
  | Some d => Some (d - today)
  | None => None
  end.

(** [days_until_maintenance]: calculate days until predicted maintenance *)
Definition days_until_maintenance (self : MaintenancePredictions) : option Z :=
  match predicted_maintenance_date self with
  | Some d => Some (d - today)
  | None => None
  end.

(** [is_overdue]: check if maintenance is overdue *)
Definition is_overdue (self : MaintenancePredictions) : bool :=
  match predicted_maintenance_date self with
  | Some d => d <? today
  | None => false
  end.

(** The truth value of a float: false for 0.0 and -0.0 only. *)
Definition float_truthy (x : float) : bool := negb (PrimFloat.eqb x 0).

(** [priority_scores.get(self.priority, 0.0)] *)
Definition priority_scores (p : option PriorityLevel) : float :=
  match p with
  | Some priority_urgent => 0.3
  | Some priority_high => 0.2
  | Some priority_medium => 0.1
  | Some priority_low => 0.0
  | None => 0.0
  end%float.

(** [min(1.0, score)]: the first argument unless the second is smaller *)
Definition min_1 (score : float) : float :=
  if PrimFloat.ltb score 1.0 then score else 1.0%float.

(** [urgency_score]: calculate urgency score based on multiple factors *)
Definition urgency_score (self : MaintenancePredictions) : float :=
  let score := 0.0%float in
  (* base score from risk assessment *)
  let score :=
    match risk_assessment self with
    | Some ra =>
        match overall_risk_score ra with
        | Some s => if float_truthy s
                    then PrimFloat.add score (PrimFloat.mul s 0.4) else score
        | None => score
        end
    | None => score
    end in
  (* time factor *)
  let score :=
    match days_until_failure self with
    | Some days_until =>
        if days_until <=? 7 then PrimFloat.add score 0.3
        else if days_until <=? 30 then PrimFloat.add score 0.2
        else if days_until <=? 90 then PrimFloat.add score 0.1
        else score
    | None => score
    end in
  (* priority factor *)
  let score := PrimFloat.add score (priority_scores (priority self)) in
  min_1 score.

(** class MaintenancePredictionsAcknowledge: model for acknowledging
    predictions.  [scheduled_date] is a day ordinal. *)
Record MaintenancePredictionsAcknowledge := {
  acknowledged_by : string;
  notes : option string;
  schedule_maintenance : option bool;
  scheduled_date : option Z;
}.

(** [validate_scheduling]: validate scheduling information *)
Definition validate_scheduling (model : MaintenancePredictionsAcknowledge)
  : py_result (pyobj MaintenancePredictionsAcknowledge) :=
  (* schedule_maintenance = model.schedule_maintenance or 0 *)
  let schedule_maintenance := default false (schedule_maintenance model) in
  let scheduled_date := scheduled_date model in
  if schedule_maintenance && is_None scheduled_date then
    raise_ValueError "scheduled_date required when schedule_maintenance is true"
  else if match scheduled_date with Some d => d <? today | None => false end then
    raise_ValueError "scheduled_date cannot be in the past"
  else Return (Instance model).

Definition MaintenancePredictionsAcknowledge_validators
  : list (after_validator MaintenancePredictionsAcknowledge) :=
  [on_instance validate_scheduling].

(** The constraints the fields of [MaintenancePredictionsAcknowledge]
    declare: [acknowledged_by: UUID] and
    [notes: Optional[constr(max_length=1000)]]. *)
Definition MaintenancePredictionsAcknowledge_fields_valid
    (data : MaintenancePredictionsAcknowledge) : bool :=
  UUID (acknowledged_by data) && optional (max_length 1000) (notes data).

(** Construction of a [MaintenancePredictionsAcknowledge] from data that
    meets [MaintenancePredictionsAcknowledge_fields_valid]: the
    after-validator runs on the instance. *)
Definition MaintenancePredictionsAcknowledge_validate
    (data : MaintenancePredictionsAcknowledge)
  : outcome (pyobj MaintenancePredictionsAcknowledge) :=
  model_validate MaintenancePredictionsAcknowledge_validators data.

End Today.

End MaintenancePredictionsResponse.

(* ===================================================================== *)
(** ** decimal.Decimal                                                     *)
(* ===================================================================== *)

Module PyDecimal.

(** A finite [Decimal]: sign, coefficient and exponent.  The fields that
    hold one are constrained, and a constrained field admits neither NaN
    nor an infinity. *)
Record Decimal := mkDecimal { d_negative : bool; d_coefficient : N; d_exponent : Z }.

(** [bool(d)]: a zero of either sign and any exponent is false *)
Definition decimal_truthy (d : Decimal) : bool := negb (d_coefficient d =? 0)%N.

(** [d > 0] *)
Definition decimal_positive (d : Decimal) : bool :=
  negb (d_negative d) && negb (d_coefficient d =? 0)%N.

(** [d >= 0], the constraint [ge=0] of a field: every zero passes *)
Definition decimal_nonnegative (d : Decimal) : bool :=
  negb (d_negative d) || (d_coefficient d =? 0)%N.

(** [a > b]: the values compared in units of ten to the smaller of the
    two exponents *)
Definition decimal_units (e : Z) (d : Decimal) : Z :=
  (if d_negative d then -1 else 1) * Z.of_N (d_coefficient d) * 10 ^ (d_exponent d - e).

Definition decimal_gt (a b : Decimal) : bool :=
  let e := Z.min (d_exponent a) (d_exponent b) in
  decimal_units e b <? decimal_units e a.

(** [d <= n] for an integer [n] that is not negative, the constraint
    [le=n] of a field: the value of [d] is its coefficient times ten to
    its exponent, with its sign. *)
Definition decimal_at_most (n : Z) (d : Decimal) : bool :=
  d_negative d
  || (if 0 <=? d_exponent d
      then Z.of_N (d_coefficient d) * 10 ^ d_exponent d <=? n
      else Z.of_N (d_coefficient d) <=? n * 10 ^ (- d_exponent d)).

End PyDecimal.

(* ===================================================================== *)
(** ** diagnostic_sessions_model.py: sessions and their computed fields    *)
(* ===================================================================== *)

Module DiagnosticSessionsModel.
Import DiagnosticSessions PyDecimal FieldConstraints.

(** Literal['active', 'pending', 'resolved'] *)
Inductive CodeStatus := code_active | code_pending | code_resolved.

(** SessionType and SessionStatus *)
Inductive SessionType := routine_maintenance | diagnostic | repair | inspection | warranty.
Inductive SessionStatus := pending | in_progress | completed | cancelled.

(** class DiagnosticCode, as an instance that passed its own validation.
    [description], [severity], [first_detected] and [resolved_at], which
    nothing here reads, are left out. *)
Record DiagnosticCode := {
  code : pystr;
  status : option CodeStatus;
}.

(** class Resolution, by the field the computed fields read. *)
Record Resolution := {
  total_cost : option Decimal;
}.

(** class DiagnosticSessions, by the fields that the field validator and
    the computed fields read. *)
Record DiagnosticSessions := {
  session_id : string;
  session_type : option SessionType;
  session_status : option SessionStatus;
  diagnostic_codes : option (list DiagnosticCode);
  resolution : option Resolution;
  started_at : option datetime;
  completed_at : option datetime;
}.

(** [validate_diagnostic_codes_limit], the field validator of
    [diagnostic_codes]: reasonable limit on number of diagnostic codes *)
Definition validate_diagnostic_codes_limit (v : option (list DiagnosticCode))
  : py_result (option (list DiagnosticCode)) :=
  match v with
  | Some ((_ :: _) as codes) =>
      if (50 <? length codes)%nat
      then raise_ValueError "Maximum 50 diagnostic codes allowed per session"
      else Return v
  | _ => Return v
  end.

Definition with_diagnostic_codes (self : DiagnosticSessions)
    (v : option (list DiagnosticCode)) : DiagnosticSessions :=
  {| session_id := session_id self; session_type := session_type self;
     session_status := session_status self; diagnostic_codes := v;
     resolution := resolution self; started_at := started_at self;
     completed_at := completed_at self |}.

Section Fields.
Context {py : PyLib}.

(** What pydantic checks of the fields that the record holds, next to
    the field validator of [diagnostic_codes]: the session identifier
    matches the pattern of [UUID], every diagnostic code is one that
    [code: DTCCode] and its field validator accept, and the total cost of
    a resolution is not negative.  The other fields of the record are
    enumerations and timestamps, which carry no constraint. *)
Definition DiagnosticSessions_fields_valid (data : DiagnosticSessions) : Prop :=
  UUID (session_id data) = true
  /\ Forall (fun c => validate_code (code c) = Validated (code c))
       (default [] (diagnostic_codes data))
  /\ (forall res cost, resolution data = Some res -> total_cost res = Some cost ->
                       decimal_nonnegative cost = true).

End Fields.

(** Construction of a [DiagnosticSessions] from data that meets
    [DiagnosticSessions_fields_valid]: the field validator of
    [diagnostic_codes], whose result becomes the field. *)
Definition DiagnosticSessions_validate (data : DiagnosticSessions)
  : outcome DiagnosticSessions :=
  of_result (v <- validate_diagnostic_codes_limit (diagnostic_codes data) ;;;
             Return (with_diagnostic_codes data v)).

(** class DiagnosticSessionsResponse(DiagnosticSessions) *)

(** [is_billable]: determine if session is billable *)
Definition is_billable (self : DiagnosticSessions) : bool :=
  match session_status self, resolution self with
  | Some completed, Some res =>
      match total_cost res with
      | Some cost => decimal_truthy cost && decimal_positive cost
      | None => false
      end
  | _, _ => false
  end.

(** [active_dtc_count]: count of active diagnostic codes *)
Definition active_dtc_count (self : DiagnosticSessions) : Z :=
  match diagnostic_codes self with
  | None | Some [] => 0
  | Some codes =>
      Z.of_nat (length (List.filter
                          (fun code => match status code with
                                       | Some code_active => true
                                       | _ => false
                                       end) codes))
  end.

(** [estimates.get(self.session_type, 90)], in minutes *)
Definition estimates (t : option SessionType) : Z :=
  match t with
  | Some routine_maintenance => 60
  | Some diagnostic => 90
  | Some repair => 180
  | Some inspection => 45
  | Some warranty => 120
  | None => 90
  end.

(** [datetime.max], 9999-12-31 23:59:59.999999, in microseconds since
    0001-01-01 00:00. *)
Definition datetime_max_us : Z := 3652059 * 86400000000 - 1.

(** [d + timedelta(minutes=n)] for a non-negative [n]: [OverflowError]
    beyond [datetime.max]. *)
Definition add_minutes (d : datetime) (n : Z) : py_result datetime :=
  let w := wall_us d + n * 60000000 in
  if w <=? datetime_max_us then Return (mkDatetime w (tzinfo d))
  else Raise (mkExc (OtherException "OverflowError") "date value out of range").

(** [estimated_completion]: estimate completion time based on average
    duration for session type *)
Definition estimated_completion (self : DiagnosticSessions)
  : py_result (option datetime) :=
  match started_at self, completed_at self with
  | Some started, None =>
      let estimate_minutes := estimates (session_type self) in
      t <- add_minutes started estimate_minutes ;;; Return (Some t)
  | _, _ => Return None
  end.

End DiagnosticSessionsModel.

(* ===================================================================== *)
(** ** reddit_diagnostic_posts_model.py                                    *)
(* ===================================================================== *)

Module RedditDiagnosticPostsModel.
Import DiagnosticSessions PyDecimal FieldConstraints.

(** class EquipmentInfo: equipment information from the Reddit post *)
Record EquipmentInfo := {
  vin : option string;
  make : option string;
  model : option string;
  year : option Z;
  mileage : option Z;
  engine_size : option string;
}.

(** [validate_reasonable_year]: [if v is not None] reads the name [v],
    which neither the function nor the module binds. *)
Definition validate_reasonable_year (model : pyobj EquipmentInfo)
  : py_result (pyobj EquipmentInfo) :=
  unbound_name "v".

Definition EquipmentInfo_validators : list (after_validator EquipmentInfo) :=
  [validate_reasonable_year].

(** The constraints the fields of [EquipmentInfo] declare: [vin] matches
    the pattern of [VIN], [make] and [model] have at most 100 characters,
    [year] lies in 1900..2030, [mileage] in 0..2000000, and
    [engine_size] has at most 50 characters. *)
Definition EquipmentInfo_fields_valid (data : EquipmentInfo) : bool :=
  optional VIN (vin data)
  && optional (max_length 100) (make data)
  && optional (max_length 100) (model data)
  && optional (conint_between 1900 2030) (year data)
  && optional (conint_between 0 2000000) (mileage data)
  && optional (max_length 50) (engine_size data).

(** Construction of an [EquipmentInfo] from data that meets
    [EquipmentInfo_fields_valid] *)
Definition EquipmentInfo_validate (data : EquipmentInfo) : outcome (pyobj EquipmentInfo) :=
  model_validate EquipmentInfo_validators data.

(** class DiagnosticCode: individual diagnostic trouble code mentioned
    in post *)
Record DiagnosticCode := {
  code : pystr;
  mentioned_context : option string;
  is_primary_issue : option bool;
  was_cleared : option bool;
  recurrence_mentioned : option bool;
}.

(** [validate_dtc_format], here a model validator: [len(v)] reads the
    name [v], which neither the function nor the module binds. *)
Definition validate_dtc_format (model : pyobj DiagnosticCode)
  : py_result (pyobj DiagnosticCode) :=
  unbound_name "v".

Definition DiagnosticCode_validators : list (after_validator DiagnosticCode) :=
  [validate_dtc_format].

(** The constraint of the fields of [DiagnosticCode] other than [code]:
    [mentioned_context] has at most 500 characters. *)
Definition DiagnosticCode_fields_valid (data : DiagnosticCode) : bool :=
  optional (max_length 500) (mentioned_context data).

Section Code.
Context {py : PyLib}.

(** Construction of a [DiagnosticCode] from data that meets
    [DiagnosticCode_fields_valid]: the pattern of [code: DTCCode], then
    the model validator. *)
Definition DiagnosticCode_validate (data : DiagnosticCode)
  : outcome (pyobj DiagnosticCode) :=
  if DTCCode (code data) then model_validate DiagnosticCode_validators data
  else ValidationError ["String should match pattern '^[PBCU]\d{4}$'"].

End Code.

(** class RepairInfo: information about repairs performed or suggested *)
Record RepairInfo := {
  parts_replaced : option (list string);
  labor_performed : option (list string);
  cost_mentioned : option Decimal;
  currency : option string;
  shop_name : option string;
  diy_repair : option bool;
}.

(** [validate_lists_limit]: [if v and len(v) > 20] reads the unbound
    name [v]. *)
Definition validate_lists_limit (model : pyobj RepairInfo)
  : py_result (pyobj RepairInfo) :=
  unbound_name "v".

Definition set_currency (model : RepairInfo) (c : string) : RepairInfo :=
  {| parts_replaced := parts_replaced model; labor_performed := labor_performed model;
     cost_mentioned := cost_mentioned model; currency := Some c;
     shop_name := shop_name model; diy_repair := diy_repair model |}.

(** [not currency] on an [Optional[str]] *)
Definition str_falsy (s : option string) : bool :=
  match s with None | Some "" => true | Some _ => false end.

(** [validate_currency_with_cost]: currency should be specified when
    cost is mentioned *)
Definition validate_currency_with_cost (model : RepairInfo)
  : py_result (pyobj RepairInfo) :=
  let cost := cost_mentioned model in
  let currency := currency model in
  let model :=
    if match cost with Some c => decimal_positive c | None => false end
       && str_falsy currency
    then set_currency model "USD"   (* default to USD *)
    else model in
  Return (Instance model).

Definition RepairInfo_validators : list (after_validator RepairInfo) :=
  [validate_lists_limit; on_instance validate_currency_with_cost].

(** The constraints the fields of [RepairInfo] declare: [cost_mentioned]
    lies in 0..100000, [currency] is three capital letters, and
    [shop_name] has at most 200 characters. *)
Definition RepairInfo_fields_valid (data : RepairInfo) : bool :=
  optional (fun c => decimal_nonnegative c && decimal_at_most 100000 c)
           (cost_mentioned data)
  && optional CurrencyCode (currency data)
  && optional (max_length 200) (shop_name data).

(** Construction of a [RepairInfo] from data that meets
    [RepairInfo_fields_valid] *)
Definition RepairInfo_validate (data : RepairInfo) : outcome (pyobj RepairInfo) :=
  model_validate RepairInfo_validators data.

(** class PostMetrics: Reddit post engagement metrics *)
Record PostMetrics := {
  upvotes : option Z;
  downvotes : option Z;
  net_score : option Z;
  comment_count : option Z;
  awards_count : option Z;
  gilded : option bool;
}.

(** [model.net_score = value] *)
Definition set_net_score (model : PostMetrics) (value : Z) : PostMetrics :=
  {| upvotes := upvotes model; downvotes := downvotes model;
     net_score := Some value; comment_count := comment_count model;
     awards_count := awards_count model; gilded := gilded model |}.

(** [calculate_net_score]: calculate net score from upvotes and
    downvotes *)
Definition calculate_net_score (model : PostMetrics) : py_result (pyobj PostMetrics) :=
  let upvotes := upvotes model in
  let downvotes := downvotes model in
  match upvotes, downvotes with
  | Some u, Some d => Return (Instance (set_net_score model (u - d)))
  | _, _ => Return (Instance model)
  end.

Definition PostMetrics_validators : list (after_validator PostMetrics) :=
  [on_instance calculate_net_score].

(** The constraints the fields of [PostMetrics] declare: [upvotes],
    [downvotes], [comment_count] and [awards_count] are [ge=0];
    [net_score] carries none. *)
Definition PostMetrics_fields_valid (data : PostMetrics) : bool :=
  optional int_ge0 (upvotes data)
  && optional int_ge0 (downvotes data)
  && optional int_ge0 (comment_count data)
  && optional int_ge0 (awards_count data).

(** Construction of a [PostMetrics] from data that meets
    [PostMetrics_fields_valid] *)
Definition PostMetrics_validate (data : PostMetrics) : outcome (pyobj PostMetrics) :=
  model_validate PostMetrics_validators data.

(** class RedditDiagnosticPostsResponse, by the field its two
    properties on diagnostic codes read. *)
Record RedditDiagnosticPosts := {
  url : string;
  diagnostic_codes : option (list DiagnosticCode);
}.

(** [has_diagnostic_codes]: check if post contains diagnostic codes *)
Definition has_diagnostic_codes (self : RedditDiagnosticPosts) : bool :=
  match diagnostic_codes self with
  | Some ((_ :: _) as codes) => (0 <? length codes)%nat
  | _ => false
  end.

(** [primary_dtc_code]: get the primary DTC code if available *)
Definition primary_dtc_code (self : RedditDiagnosticPosts) : option pystr :=
  match diagnostic_codes self with
  | Some ((first :: _) as codes) =>
      match List.find (fun c => default false (is_primary_issue c)) codes with
      | Some c => Some (code c)
      | None => Some (code first)   (* first code if no primary is marked *)
      end
  | _ => None
  end.

End RedditDiagnosticPostsModel.

(* ===================================================================== *)
(** ** parts_inventory_model.py: the catalog entry                         *)
(* ===================================================================== *)

Module PartsInventoryModel.
Import PartsInventory PyDecimal FieldConstraints.

(** AvailabilityStatus and PartCondition *)
Inductive AvailabilityStatus :=
| in_stock | low_stock | out_of_stock | backordered
| discontinued | special_order | obsolete.

Inductive PartCondition := new | refurbished | used | core_exchange.

(** class PricingInfo and class SpecificationsInfo, by the fields the
    validators of [PartsInventory] read, as instances that passed their
    own validation. *)
Record PricingInfo := {
  list_price : option Decimal;
  cost_price : option Decimal;
  sale_price : option Decimal;
  currency : option string;
}.

Record SpecificationsInfo := {
  hazmat_classification : option string;
}.

(** class PartsInventory, by the fields its model validators and
    [needs_reorder] read. *)
Record PartsInventory := {
  part_id : string;
  part_number : string;
  condition : option PartCondition;
  availability_status : option AvailabilityStatus;
  is_hazmat : option bool;
  is_core_part : option bool;
  pricing : option PricingInfo;
  specifications : option SpecificationsInfo;
  inventory : option InventoryInfo;
}.

(** [validate_part_number_format]: [len(v)] reads the name [v], which
    neither the function nor the module binds. *)
Definition validate_part_number_format (model : pyobj PartsInventory)
  : py_result (pyobj PartsInventory) :=
  unbound_name "v".

(** [bool(d)] on an [Optional[Decimal]], [not s] on an [Optional[str]] *)
Definition price_truthy (d : option Decimal) : bool :=
  match d with Some d => decimal_truthy d | None => false end.

Definition str_falsy (s : option string) : bool :=
  match s with None | Some "" => true | Some _ => false end.

(** [validate_currency_requirements]: currency required when prices are
    specified *)
Definition validate_currency_requirements (model : PartsInventory)
  : py_result (pyobj PartsInventory) :=
  match pricing model with
  | Some pricing =>
      if (price_truthy (list_price pricing) || price_truthy (cost_price pricing)
          || price_truthy (sale_price pricing))
         && str_falsy (currency pricing)
      then raise_ValueError "Currency required when prices are specified"
      else Return (Instance model)
  | None => Return (Instance model)
  end.

(** [validate_core_part_logic]: core part validation *)
Definition validate_core_part_logic (model : PartsInventory)
  : py_result (pyobj PartsInventory) :=
  let is_core_part := default false (is_core_part model) in
  match condition model with
  | Some new =>
      if is_core_part then raise_ValueError "Core parts cannot have new condition"
      else Return (Instance model)
  | _ => Return (Instance model)
  end.

(** [validate_hazmat_restrictions]: hazmat parts have additional
    restrictions *)
Definition validate_hazmat_restrictions (model : PartsInventory)
  : py_result (pyobj PartsInventory) :=
  let is_hazmat := default false (is_hazmat model) in
  match specifications model with
  | Some specifications =>
      if is_hazmat && str_falsy (hazmat_classification specifications)
      then raise_ValueError "Hazmat parts must have hazmat_classification specified"
      else Return (Instance model)
  | None => Return (Instance model)
  end.

(** [validate_availability_inventory_consistency]: availability status
    must be consistent with inventory *)
Definition validate_availability_inventory_consistency (model : PartsInventory)
  : py_result (pyobj PartsInventory) :=
  match inventory model, availability_status model with
  | Some inventory, Some availability =>
      let quantity_available := default 0 (quantity_available inventory) in
      match availability with
      | out_of_stock =>
          if 0 <? quantity_available
          then raise_ValueError "Cannot be out_of_stock with available inventory"
          else Return (Instance model)
      | in_stock =>
          if quantity_available =? 0
          then raise_ValueError "Cannot be in_stock with zero available inventory"
          else Return (Instance model)
      | low_stock =>
          let reorder_point := default 0 (reorder_point inventory) in
          if reorder_point <? quantity_available
          then raise_ValueError
                 "Low stock status inconsistent with inventory above reorder point"
          else Return (Instance model)
      | _ => Return (Instance model)
      end
  | _, _ => Return (Instance model)
  end.

(** [validate_updated_after_created]: the body is a docstring only, so
    the call returns [None]. *)
Definition validate_updated_after_created (model : pyobj PartsInventory)
  : py_result (pyobj PartsInventory) :=
  Return PyNone.

(** The model validators of [PartsInventory], in the order of their
    definition in the class. *)
Definition PartsInventory_validators : list (after_validator PartsInventory) :=
  [ validate_part_number_format;
    on_instance validate_currency_requirements;
    on_instance validate_core_part_logic;
    on_instance validate_hazmat_restrictions;
    on_instance validate_availability_inventory_consistency;
    validate_updated_after_created ].

(** A [PricingInfo] that its class accepts, by the fields the record
    holds: the three prices are [ge=0] and the currency is three capital
    letters; of [validate_pricing_consistency], a price comes with a
    currency and the cost price does not exceed the list price.  Its two
    other checks read the discount percentage and the price dates, which
    the record leaves out. *)
Definition PricingInfo_accepted (data : PricingInfo) : bool :=
  optional decimal_nonnegative (list_price data)
  && optional decimal_nonnegative (cost_price data)
  && optional decimal_nonnegative (sale_price data)
  && optional CurrencyCode (currency data)
  && negb ((price_truthy (list_price data) || price_truthy (cost_price data)
            || price_truthy (sale_price data))
           && str_falsy (currency data))
  && negb (match cost_price data, list_price data with
           | Some cost, Some list =>
               decimal_truthy cost && decimal_truthy list && decimal_gt cost list
           | _, _ => false
           end).

(** [SpecificationsInfo.validate_reasonable_weight]: [if v is not None]
    reads the name [v], which neither the function nor the module
    binds. *)
Definition validate_reasonable_weight (model : pyobj SpecificationsInfo)
  : py_result (pyobj SpecificationsInfo) :=
  unbound_name "v".

Definition SpecificationsInfo_validators : list (after_validator SpecificationsInfo) :=
  [validate_reasonable_weight].

(** Construction of a [SpecificationsInfo] from data whose fields
    passed *)
Definition SpecificationsInfo_validate (data : SpecificationsInfo)
  : outcome (pyobj SpecificationsInfo) :=
  model_validate SpecificationsInfo_validators data.

(** What pydantic checks of the data of a [PartsInventory] before it
    runs the model validators: [part_id] matches the pattern of [UUID]
    and [part_number] that of [PartNumber]; the pricing, the
    specifications and the inventory are instances that their own
    classes accept, the inventory being what the construction of an
    [InventoryInfo] returned.  The other fields of the record are
    enumerations and booleans; the fields that the record leaves out
    are taken to have passed. *)
Definition PartsInventory_fields_valid (data : PartsInventory) : Prop :=
  UUID (part_id data) = true
  /\ PartNumber (part_number data) = true
  /\ (forall pr, pricing data = Some pr -> PricingInfo_accepted pr = true)
  /\ (forall sp, specifications data = Some sp ->
                 optional (max_length 50) (hazmat_classification sp) = true
                 /\ SpecificationsInfo_validate sp = Validated (Instance sp))
  /\ (forall inv, inventory data = Some inv ->
                  exists given, InventoryInfo_fields_valid given = true
                                /\ InventoryInfo_validate given
                                   = Validated (Instance inv)).

(** Construction of a [PartsInventory] from data that meets
    [PartsInventory_fields_valid]: the model validators run in order. *)
Definition PartsInventory_validate (data : PartsInventory)
  : outcome (pyobj PartsInventory) :=
  model_validate PartsInventory_validators data.

(** class PartsInventoryResponse(PartsInventory) *)

(** [needs_reorder]: check if part needs reordering *)
Definition needs_reorder (self : PartsInventory) : bool :=
  match inventory self with
  | None => false
  | Some inventory =>
      let available := default 0 (quantity_available inventory) in
      let reorder_point := default 0 (reorder_point inventory) in
      available <=? reorder_point
  end.

End PartsInventoryModel.

(* ===================================================================== *)
(** ** feature_store_model.py: feature metadata and the feature store      *)
(* ===================================================================== *)

Module FeatureStoreRecords.
Import FeatureStoreModel FieldConstraints.

(** AggregationMethod and FeatureDataType *)
Inductive AggregationMethod :=
| agg_sum | agg_mean | agg_median | agg_min | agg_max | agg_count | agg_std | agg_var
| agg_first | agg_last | agg_mode
| agg_percentile_25 | agg_percentile_75 | agg_percentile_95.

Inductive FeatureDataType :=
| type_boolean | type_integer | type_float | type_string | type_categorical
| type_datetime | type_array_float | type_array_int | type_json.

(** class FeatureMetadata: metadata describing the feature.
    [source_system], [transformation_logic] and [business_definition],
    strings that the validator does not read, are left out. *)
Record FeatureMetadata := {
  feature_name : string;
  description : option string;
  data_type : FeatureDataType;
  unit_of_measure : option string;
  aggregation_method : option AggregationMethod;
  aggregation_window_hours : option Z;
}.

(** [validate_aggregation_consistency]: aggregation method and window
    should be consistent.  A method is a non-empty string, hence true
    when present. *)
Definition validate_aggregation_consistency (model : FeatureMetadata)
  : py_result (pyobj FeatureMetadata) :=
  let aggregation_method := aggregation_method model in
  let aggregation_window := aggregation_window_hours model in
  if negb (is_None aggregation_method) && negb (truthy aggregation_window) then
    raise_ValueError
      "aggregation_window_hours required when aggregation_method is specified"
  else if truthy aggregation_window && is_None aggregation_method then
    raise_ValueError
      "aggregation_method required when aggregation_window_hours is specified"
  else Return (Instance model).

Definition FeatureMetadata_validators : list (after_validator FeatureMetadata) :=
  [on_instance validate_aggregation_consistency].

(** The constraints the fields of [FeatureMetadata] declare: at most
    200 characters for [feature_name], 1000 for [description] and 50 for
    [unit_of_measure], and [aggregation_window_hours] is
    [conint(ge=1, le=8760)]. *)
Definition FeatureMetadata_fields_valid (data : FeatureMetadata) : bool :=
  max_length 200 (feature_name data)
  && optional (max_length 1000) (description data)
  && optional (max_length 50) (unit_of_measure data)
  && optional (conint_between 1 8760) (aggregation_window_hours data).

(** Construction of a [FeatureMetadata] from data that meets
    [FeatureMetadata_fields_valid]: the after-validator runs on the
    instance. *)
Definition FeatureMetadata_validate (data : FeatureMetadata)
  : outcome (pyobj FeatureMetadata) :=
  model_validate FeatureMetadata_validators data.

(** The constraints the fields of [StatisticalProfile] declare:
    [unique_count] and [cardinality] are [conint(ge=0)]. *)
Definition StatisticalProfile_fields_valid (data : StatisticalProfile) : bool :=
  optional int_ge0 (unique_count data) && optional int_ge0 (cardinality data).

(** A value of [Union[float, int, str, bool, List[Any]]]: the union
    keeps the type of the input, so that [True] stays a [bool].  An item
    of a list is any Python value, kept by its [repr]. *)
Inductive FeatureValue :=
| FloatValue (x : float)
| IntValue (n : Z)
| StrValue (s : string)
| BoolValue (b : bool)
| ListValue (items : list string).

(** [isinstance(value, (int, float))]: [bool] is a subclass of [int] *)
Definition is_numeric (v : FeatureValue) : bool :=
  match v with
  | FloatValue _ | IntValue _ | BoolValue _ => true
  | StrValue _ | ListValue _ => false
  end.

(** [isinstance(value, (str, bool))] *)
Definition is_categorical (v : FeatureValue) : bool :=
  match v with
  | StrValue _ | BoolValue _ => true
  | FloatValue _ | IntValue _ | ListValue _ => false
  end.

(** class FeatureStore.  The three dictionaries are kept in insertion
    order; the fields that neither a validator nor a computed field
    reads are left out. *)
Record FeatureStore := {
  entity_id : string;
  feature_set_name : string;
  feature_values : list (string * FeatureValue);
  feature_metadata : option (list (string * FeatureMetadata));
  statistical_profile : option (list (string * StatisticalProfile));
  upstream_dependencies : option (list string);
  computation_timestamp : option datetime;
  ingestion_timestamp : option datetime;
}.

(** [k in d] for a dictionary *)
Definition has_key {V} (d : list (string * V)) (k : string) : bool :=
  existsb (fun kv => String.eqb (fst kv) k) d.

(** [x.keys()] where [x] is [d or 0]: an empty dictionary has been
    replaced by the [int] 0, which has no [keys]. *)
Definition keys_or_0 {V} (d : list (string * V)) : py_result (list string) :=
  match d with
  | [] => Raise (mkExc AttributeError "'int' object has no attribute 'keys'")
  | _ => Return (map fst d)
  end.

(** [x.items()] where [x] is [d or 0] *)
Definition items_or_0 {V} (d : list (string * V)) : py_result (list (string * V)) :=
  match d with
  | [] => Raise (mkExc AttributeError "'int' object has no attribute 'items'")
  | _ => Return d
  end.

(** [validate_entity_reference]: [entity_id], a required string, is
    never [None]. *)
Definition validate_entity_reference (model : FeatureStore)
  : py_result (pyobj FeatureStore) :=
  Return (Instance model).

Definition with_feature_metadata (model : FeatureStore)
    (m : option (list (string * FeatureMetadata))) : FeatureStore :=
  {| entity_id := entity_id model; feature_set_name := feature_set_name model;
     feature_values := feature_values model; feature_metadata := m;
     statistical_profile := statistical_profile model;
     upstream_dependencies := upstream_dependencies model;
     computation_timestamp := computation_timestamp model;
     ingestion_timestamp := ingestion_timestamp model |}.

(** [validate_feature_metadata_consistency]: feature metadata should
    exist for all features.  The orphaned keys are popped from the
    dictionary that the model holds. *)
Definition validate_feature_metadata_consistency (model : FeatureStore)
  : py_result (pyobj FeatureStore) :=
  let feature_values := feature_values model in
  let feature_metadata := default [] (feature_metadata model) in
  (* missing_metadata = set(feature_values.keys()) - set(feature_metadata.keys()) *)
  _ <- keys_or_0 feature_values ;;;
  _ <- keys_or_0 feature_metadata ;;;
  (* remove orphaned metadata *)
  let kept := List.filter (fun kv => has_key feature_values (fst kv)) feature_metadata in
  Return (Instance (with_feature_metadata model (Some kept))).

(** [validate_feature_values], [validate_feature_set_name_format] and
    [validate_dependency_lists] read the name [v], which neither the
    functions nor the module bind, in their first statement. *)
Definition validate_feature_values (model : pyobj FeatureStore)
  : py_result (pyobj FeatureStore) :=
  unbound_name "v".

Definition validate_feature_set_name_format (model : pyobj FeatureStore)
  : py_result (pyobj FeatureStore) :=
  unbound_name "v".

Definition validate_dependency_lists (model : pyobj FeatureStore)
  : py_result (pyobj FeatureStore) :=
  unbound_name "v".

(** [a < b] on datetimes: a naive and an aware one do not compare; two
    aware ones compare by their UTC instants, the offset being in
    microseconds. *)
Definition datetime_lt (a b : datetime) : py_result bool :=
  match tzinfo a, tzinfo b with
  | None, None => Return (wall_us a <? wall_us b)
  | Some ta, Some tb => Return (wall_us a - ta <? wall_us b - tb)
  | _, _ =>
      Raise (mkExc (OtherException "TypeError")
                   "can't compare offset-naive and offset-aware datetimes")
  end.

(** [validate_timestamp_consistency]: validate timestamp relationships *)
Definition validate_timestamp_consistency (model : FeatureStore)
  : py_result (pyobj FeatureStore) :=
  match computation_timestamp model, ingestion_timestamp model with
  | Some computation_timestamp, Some ingestion_timestamp =>
      earlier <- datetime_lt ingestion_timestamp computation_timestamp ;;;
      if earlier : bool
      then raise_ValueError "Ingestion timestamp must be after computation timestamp"
      else Return (Instance model)
  | _, _ => Return (Instance model)
  end.

(** [validate_statistical_profile_consistency]: validate statistical
    profiles match feature values *)
Definition validate_statistical_profile_consistency (model : FeatureStore)
  : py_result (pyobj FeatureStore) :=
  let feature_values := feature_values model in
  let statistical_profile := default [] (statistical_profile model) in
  profiles <- items_or_0 statistical_profile ;;;
  match List.find (fun kv => match dict_get feature_values (fst kv) with
                             | Some feature_value => negb (is_numeric feature_value)
                             | None => false
                             end) profiles with
  | Some (feature_name, _) =>
      raise_ValueError ("Statistical profile invalid for non-numeric feature: "
                        +:+ feature_name)
  | None => Return (Instance model)
  end.

(** The model validators of [FeatureStore], in the order of their
    definition in the class. *)
Definition FeatureStore_validators : list (after_validator FeatureStore) :=
  [ on_instance validate_entity_reference;
    on_instance validate_feature_metadata_consistency;
    validate_feature_values;
    validate_feature_set_name_format;
    on_instance validate_timestamp_consistency;
    validate_dependency_lists;
    on_instance validate_statistical_profile_consistency ].

(** What pydantic checks of the data of a [FeatureStore] before it runs
    the model validators: [entity_id] matches the pattern of [UUID] and
    [feature_set_name] that of [FeatureSetName]; every metadata entry and
    every statistical profile is an instance that its own construction
    accepts.  The feature values, the dependencies and the timestamps
    carry no constraint; the fields that the record leaves out are taken
    to have passed. *)
Definition FeatureStore_fields_valid (data : FeatureStore) : Prop :=
  UUID (entity_id data) = true
  /\ FeatureSetName (feature_set_name data) = true
  /\ Forall (fun kv => FeatureMetadata_fields_valid (snd kv) = true
                       /\ FeatureMetadata_validate (snd kv)
                          = Validated (Instance (snd kv)))
       (default [] (feature_metadata data))
  /\ Forall (fun kv => StatisticalProfile_fields_valid (snd kv) = true
                       /\ StatisticalProfile_validate (snd kv)
                          = Validated (Instance (snd kv)))
       (default [] (statistical_profile data)).

(** Construction of a [FeatureStore] from data that meets
    [FeatureStore_fields_valid]: the model validators run in order. *)
Definition FeatureStore_validate (data : FeatureStore) : outcome (pyobj FeatureStore) :=
  model_validate FeatureStore_validators data.

(** class FeatureStoreResponse(FeatureStore) *)

(** [feature_count]: count of features in this feature set *)
Definition feature_count (self : FeatureStore) : Z :=
  match feature_values self with
  | [] => 0
  | values => Z.of_nat (length values)
  end.

(** [numeric_feature_count] and [categorical_feature_count] *)
Definition numeric_feature_count (self : FeatureStore) : Z :=
  match feature_values self with
  | [] => 0
  | values => foldl (fun count kv => if is_numeric (snd kv) then count + 1 else count)
                    0 values
  end.

Definition categorical_feature_count (self : FeatureStore) : Z :=
  match feature_values self with
  | [] => 0
  | values => foldl (fun count kv => if is_categorical (snd kv) then count + 1 else count)
                    0 values
  end.

(** [missing_metadata_features]: list features without metadata *)
Definition missing_metadata_features (self : FeatureStore) : list string :=
  match feature_values self, feature_metadata self with
  | [], _ => []
  | values, (None | Some []) => map fst values
  | values, Some metadata =>
      List.filter (fun feature_name => negb (has_key metadata feature_name))
                  (map fst values)
  end.

(** The number of features whose value is of a given kind. *)
Definition count_values (kind : FeatureValue -> bool) (self : FeatureStore) : Z :=
  Z.of_nat (length (List.filter (fun kv => kind (snd kv)) (feature_values self))).

Definition is_bool (v : FeatureValue) : bool :=
  match v with BoolValue _ => true | _ => false end.
Definition is_list (v : FeatureValue) : bool :=
  match v with ListValue _ => true | _ => false end.

(** What [None.keys()] would be for an [int]. *)
Definition no_keys : PyExc :=
  mkExc AttributeError "'int' object has no attribute 'keys'".

End FeatureStoreRecords.

(* ===================================================================== *)
(** ** NMD/S4_pydantic/__init__.py: the model registries                   *)
(* ===================================================================== *)

Module ModelRegistry.

(** A registry maps a table name to a model class, kept here by the
    name of the class, or to [None]. *)
Definition Registry := list (string * option string).

(** What [get_model] gives: the class, or a [KeyError] with its
    argument. *)
Inductive model_lookup :=
| ModelClass (name : string)
| RaiseKeyError (arg : string).

Section Registries.
Variables MODEL_REGISTRY CREATE_MODELS UPDATE_MODELS RESPONSE_MODELS SUMMARY_MODELS
  : Registry.

(** The dictionary [registries] of [get_model] *)
Definition registries : list (string * Registry) :=
  [ ("base", MODEL_REGISTRY); ("create", CREATE_MODELS); ("update", UPDATE_MODELS);
    ("response", RESPONSE_MODELS); ("summary", SUMMARY_MODELS) ].

(** [get_model]: get the appropriate Pydantic model for a table and
    operation *)
Definition get_model (table_name operation : string) : model_lookup :=
  match dict_get registries operation with
  | None => RaiseKeyError ("Unknown operation: " +:+ operation)
  | Some registry =>
      match dict_get registry table_name with
      | None => RaiseKeyError ("Unknown table: " +:+ table_name)
      | Some None =>
          RaiseKeyError ("No " +:+ operation +:+ " model available for table: "
                         +:+ table_name)
      | Some (Some model_class) => ModelClass model_class
      end
  end.

(** [get_table_names]: get list of all available table names *)
Definition get_table_names : list string := map fst MODEL_REGISTRY.

(** [k in d] *)
Definition contains (d : Registry) (k : string) : bool :=
  match dict_get d k with Some _ => true | None => false end.

(** [get_available_operations]: get list of available operations for a
    table *)
Definition get_available_operations (table_name : string) : list string :=
  let operations : list string := [] in
  let operations :=
    if contains MODEL_REGISTRY table_name then (operations ++ ["base"])%list else operations in
  let operations :=
    if contains CREATE_MODELS table_name then (operations ++ ["create"])%list else operations in
  let operations :=
    if match dict_get UPDATE_MODELS table_name with
       | Some (Some _) => true
       | _ => false
       end
    then (operations ++ ["update"])%list else operations in
  let operations :=
    if contains RESPONSE_MODELS table_name then (operations ++ ["response"])%list
    else operations in
  let operations :=
    if contains SUMMARY_MODELS table_name then (operations ++ ["summary"])%list else operations in
  operations.

(** No table is registered without a class, in the registries where
    [get_available_operations] does not look at the class. *)
Definition classes_present : Prop :=
  Forall (fun r : Registry => Forall (fun kv => snd kv <> None) r)
         [MODEL_REGISTRY; CREATE_MODELS; RESPONSE_MODELS; SUMMARY_MODELS].

End Registries.

(** The registries of the package. *)
Definition MODEL_REGISTRY : Registry :=
  [ ("equipment_registry", Some "EquipmentRegistry");
    ("users", Some "Users");
    ("diagnostic_sessions", Some "DiagnosticSessions");
    ("parts_inventory", Some "PartsInventory");
    ("maintenance_predictions", Some "MaintenancePredictions");
    ("reddit_diagnostic_posts", Some "RedditDiagnosticPosts");
    ("models", Some "Models");
    ("feature_store", Some "FeatureStore") ].

Definition CREATE_MODELS : Registry :=
  [ ("equipment_registry", Some "EquipmentRegistryCreate");
    ("users", Some "UsersCreate");
    ("diagnostic_sessions", Some "DiagnosticSessionsCreate");
    ("parts_inventory", Some "PartsInventoryCreate");
    ("maintenance_predictions", Some "MaintenancePredictionsCreate");
    ("reddit_diagnostic_posts", Some "RedditDiagnosticPostsCreate");
    ("models", Some "ModelsCreate");
    ("feature_store", Some "FeatureStoreCreate") ].

Definition UPDATE_MODELS : Registry :=
  [ ("equipment_registry", Some "EquipmentRegistryUpdate");
    ("users", Some "UsersUpdate");
    ("diagnostic_sessions", Some "DiagnosticSessionsUpdate");
    ("parts_inventory", Some "PartsInventoryUpdate");
    ("maintenance_predictions", Some "MaintenancePredictionsUpdate");
    ("reddit_diagnostic_posts", Some "RedditDiagnosticPostsUpdate");
    ("models", Some "ModelsUpdate");
    ("feature_store", Some "FeatureStoreUpdate") ].

Definition RESPONSE_MODELS : Registry :=
  [ ("equipment_registry", Some "EquipmentRegistryResponse");
    ("users", Some "UsersResponse");
    ("diagnostic_sessions", Some "DiagnosticSessionsResponse");
    ("parts_inventory", Some "PartsInventoryResponse");
    ("maintenance_predictions", Some "MaintenancePredictionsResponse");
    ("reddit_diagnostic_posts", Some "RedditDiagnosticPostsResponse");
    ("models", Some "ModelsResponse");
    ("feature_store", Some "FeatureStoreResponse") ].

Definition SUMMARY_MODELS : Registry :=
  [ ("diagnostic_sessions", Some "DiagnosticSessionsSummary");
    ("parts_inventory", Some "PartsInventorySummary");
    ("maintenance_predictions", Some "MaintenancePredictionsSummary");
    ("reddit_diagnostic_posts", Some "RedditDiagnosticPostsSummary");
    ("models", Some "ModelsSummary");
    ("feature_store", Some "FeatureStoreSummary") ].

(** The functions of the package, on its registries. *)
Definition package_get_model : string -> string -> model_lookup :=
  get_model MODEL_REGISTRY CREATE_MODELS UPDATE_MODELS RESPONSE_MODELS SUMMARY_MODELS.

Definition package_get_available_operations : string -> list string :=
  get_available_operations MODEL_REGISTRY CREATE_MODELS UPDATE_MODELS RESPONSE_MODELS
    SUMMARY_MODELS.

End ModelRegistry.

(* ===================================================================== *)
(** ** Records for closed examples of the models                           *)
(* ===================================================================== *)

Module MoreSamples.
Import MaintenancePredictionsModel PartsInventoryModel FeatureStoreRecords.
Import DiagnosticSessions.

(** A prediction whose failure date precedes the prediction date and whose
    status 'acknowledged' has no timestamp. *)
Definition late_prediction : MaintenancePredictions :=
  {| prediction_id := "550e8400-e29b-41d4-a716-446655440000";
     prediction_date := 739510;
     equipment_id := "123e4567-e89b-12d3-a456-426614174000";
     session_id := None;
     prediction_type := "failure_prediction";
     predicted_failure_date := Some 739500;
     predicted_maintenance_date := None;
     priority := Some priority_high;
     status := Some acknowledged;
     risk_assessment := None;
     recommendation := None;
     symptoms_detected := Some [];
     acknowledged_at := None;
     scheduled_maintenance_date := None;
     completed_at := None;
     MaintenancePredictionsModel.created_at := mkDatetime 0 None;
     MaintenancePredictionsModel.updated_at := mkDatetime 0 None;
     expires_at := None |}.

(** The oil filter of the docstring of [PartsInventory]. *)
Definition oil_filter : PartsInventory :=
  {| part_id := "550e8400-e29b-41d4-a716-446655440000";
     part_number := "AC-DELCO-PF52";
     condition := Some new;
     availability_status := Some in_stock;
     is_hazmat := Some false;
     is_core_part := Some false;
     pricing := None;
     specifications := None;
     inventory :=
       Some {| PartsInventory.quantity_on_hand := Some 25;
               PartsInventory.quantity_allocated := Some 3;
               PartsInventory.quantity_available := Some 22;
               PartsInventory.reorder_point := Some 10;
               PartsInventory.reorder_quantity := Some 50;
               PartsInventory.max_stock_level := None;
               PartsInventory.last_received_date := None;
               PartsInventory.last_sold_date := None |} |}.

(** The feature set of the docstring of [FeatureStore], and one with a
    boolean feature. *)
Definition engine_diagnostics : FeatureStore :=
  {| entity_id := "550e8400-e29b-41d4-a716-446655440000";
     feature_set_name := "engine_diagnostics";
     feature_values :=
       [ ("avg_rpm_last_24h", FloatValue 2450.5);
         ("max_temperature_celsius", FloatValue 89.2);
         ("oil_pressure_psi", FloatValue 35.8);
         ("total_runtime_hours", FloatValue 1256.7);
         ("error_count_last_week", IntValue 2) ];
     feature_metadata :=
       Some [ ("avg_rpm_last_24h",
               {| feature_name := "Average RPM Last 24 Hours"; description := None;
                  data_type := type_float; unit_of_measure := Some "rpm";
                  aggregation_method := Some agg_mean;
                  aggregation_window_hours := Some 24 |}) ];
     statistical_profile := None;
     upstream_dependencies := None;
     computation_timestamp := None;
     ingestion_timestamp := None |}.

Definition check_engine : FeatureStore :=
  {| entity_id := "550e8400-e29b-41d4-a716-446655440000";
     feature_set_name := "engine_flags";
     feature_values := [ ("check_engine_light", BoolValue true) ];
     feature_metadata := None;
     statistical_profile := None;
     upstream_dependencies := None;
     computation_timestamp := None;
     ingestion_timestamp := None |}.

(** A prediction with maintenance due ten days after the prediction and
    failure predicted 29 days after it. *)
Definition due_prediction : MaintenancePredictions :=
  {| prediction_id := "550e8400-e29b-41d4-a716-446655440000";
     prediction_date := 739510;
     equipment_id := "123e4567-e89b-12d3-a456-426614174000";
     session_id := None;
     prediction_type := "maintenance_due";
     predicted_failure_date := Some 739539;
     predicted_maintenance_date := Some 739520;
     priority := Some priority_medium;
     status := Some active;
     risk_assessment := None;
     recommendation := None;
     symptoms_detected := Some [];
     acknowledged_at := None;
     scheduled_maintenance_date := None;
     completed_at := None;
     MaintenancePredictionsModel.created_at := mkDatetime 0 None;
     MaintenancePredictionsModel.updated_at := mkDatetime 0 None;
     expires_at := None |}.

(** An acknowledgment that asks for scheduling without a date. *)
Definition undated_acknowledgment
  : MaintenancePredictionsResponse.MaintenancePredictionsAcknowledge :=
  {| MaintenancePredictionsResponse.acknowledged_by :=
       "789e0123-e45b-67c8-d901-234567890123";
     MaintenancePredictionsResponse.notes := None;
     MaintenancePredictionsResponse.schedule_maintenance := Some true;
     MaintenancePredictionsResponse.scheduled_date := None |}.

(** A session of the given type that started at the given time and is
    not completed, with the given number of active P0301 codes. *)
Definition open_session (ty : option DiagnosticSessionsModel.SessionType)
    (started : datetime) (codes : nat) : DiagnosticSessionsModel.DiagnosticSessions :=
  {| DiagnosticSessionsModel.session_id := "550e8400-e29b-41d4-a716-446655440000";
     DiagnosticSessionsModel.session_type := ty;
     DiagnosticSessionsModel.session_status := Some DiagnosticSessionsModel.in_progress;
     DiagnosticSessionsModel.diagnostic_codes :=
       Some (repeat {| DiagnosticSessionsModel.code := codepoints "P0301";
                       DiagnosticSessionsModel.status :=
                         Some DiagnosticSessionsModel.code_active |} codes);
     DiagnosticSessionsModel.resolution := None;
     DiagnosticSessionsModel.started_at := Some started;
     DiagnosticSessionsModel.completed_at := None |}.

(** A Reddit diagnostic code, and a post that mentions P0420 and then,
    as its primary issue, P0301. *)
Definition mentioned (c : string) (primary : option bool)
  : RedditDiagnosticPostsModel.DiagnosticCode :=
  {| RedditDiagnosticPostsModel.code := codepoints c;
     RedditDiagnosticPostsModel.mentioned_context := None;
     RedditDiagnosticPostsModel.is_primary_issue := primary;
     RedditDiagnosticPostsModel.was_cleared := None;
     RedditDiagnosticPostsModel.recurrence_mentioned := None |}.

Definition misfire_post : RedditDiagnosticPostsModel.RedditDiagnosticPosts :=
  {| RedditDiagnosticPostsModel.url :=
       "https://www.reddit.com/r/MechanicAdvice/comments/abc123/p0301_misfire_help/";
     RedditDiagnosticPostsModel.diagnostic_codes :=
       Some [mentioned "P0420" (Some false); mentioned "P0301" (Some true)] |}.

(** The metrics of the docstring of [RedditDiagnosticPosts]: upvotes
    and a net score, no downvotes. *)
Definition docstring_metrics : RedditDiagnosticPostsModel.PostMetrics :=
  {| RedditDiagnosticPostsModel.upvotes := Some 25;
     RedditDiagnosticPostsModel.downvotes := None;
     RedditDiagnosticPostsModel.net_score := Some 23;
     RedditDiagnosticPostsModel.comment_count := Some 12;
     RedditDiagnosticPostsModel.awards_count := None;
     RedditDiagnosticPostsModel.gilded := Some false |}.

End MoreSamples.

(* ===================================================================== *)
(** * Properties                                                           *)
(* ===================================================================== *)

Import S4Runner Reference Calls.
Import DiagnosticSessions PartsInventory MaintenancePredictionsModel FeatureStoreModel Samples.
Local Open Scope run_scope.
Local Open Scope list_scope.

Create HintDb results discriminated.
#[local] Hint Constructors written_from : results.

(** ** ValidationResult *)

Lemma apply_calls_snoc cs c r :
  apply_calls (cs ++ [c]) r = apply_call (apply_calls cs r) c.
Proof. unfold apply_calls. now rewrite foldl_app. Qed.

Lemma apply_calls_fields cs r :
  name (apply_calls cs r) = name r
  /\ category (apply_calls cs r) = category r
  /\ errors (apply_calls cs r) = errors r ++ error_messages cs
  /\ warnings (apply_calls cs r) = warnings r ++ warning_messages cs
  /\ details (apply_calls cs r) = details r
  /\ duration (apply_calls cs r) = duration r
  /\ passed (apply_calls cs r) = passed r && negb (existsb is_error_call cs).
Proof.
  revert r. induction cs as [|c cs IH]; intros r.
  - cbn. rewrite !app_nil_r. destruct (passed r); cbn; tauto.
  - change (apply_calls (c :: cs) r) with (apply_calls cs (apply_call r c)).
    destruct (IH (apply_call r c)) as (Hn & Hc & He & Hw & Hd & Hu & Hp).
    rewrite Hn, Hc, He, Hw, Hd, Hu, Hp.
    destruct c; cbn; rewrite <- ?app_assoc; cbn; repeat split; try reflexivity.
    now rewrite andb_false_r.
Qed.

Lemma existsb_error_call_false cs :
  existsb is_error_call cs = false <-> error_messages cs = [].
Proof.
  induction cs as [|[m|m] cs IH]; cbn; [tauto| |exact IH].
  split; discriminate.
Qed.

Lemma written_from_calls r0 r :
  written_from r0 r ->
  exists cs, name r = name r0 /\ category r = category r0
             /\ passed r = passed (apply_calls cs r0)
             /\ errors r = errors (apply_calls cs r0)
             /\ warnings r = warnings (apply_calls cs r0).
Proof.
  induction 1 as [|m r _ (cs & Hn & Hc & Hp & He & Hw)
                  |m r _ (cs & Hn & Hc & Hp & He & Hw)
                  |d r _ (cs & Hn & Hc & Hp & He & Hw)
                  |k v r _ (cs & Hn & Hc & Hp & He & Hw)].
  - exists []. cbn. tauto.
  - exists (cs ++ [AddError m]). rewrite apply_calls_snoc. cbn.
    rewrite He. tauto.
  - exists (cs ++ [AddWarning m]). rewrite apply_calls_snoc. cbn.
    rewrite Hw. tauto.
  - exists cs. cbn. tauto.
  - exists cs. cbn. tauto.
Qed.

Lemma written_passed_iff r0 r :
  written_from r0 r -> passed r0 = true -> errors r0 = [] ->
  (passed r = true <-> errors r = []).
Proof.
  intros (cs & _ & _ & Hp & He & _)%written_from_calls Hp0 He0.
  destruct (apply_calls_fields cs r0) as (_ & _ & He' & _ & _ & _ & Hp').
  rewrite Hp, He, He', Hp', Hp0, He0. cbn.
  rewrite negb_true_iff. apply existsb_error_call_false.
Qed.
(** ** The stages write a result only through the four writes *)

Lemma finish_eq clock start r w :
  finish clock start r w =
  (set_duration (PrimFloat.sub (time_at clock (clock_reads w)) start) r,
   {| clock_reads := S (clock_reads w); api_calls := api_calls w |}).
Proof. reflexivity. Qed.

Lemma check_required_fields_written sf req r0 r :
  written_from r0 r -> written_from r0 (check_required_fields sf req r).
Proof.
  unfold check_required_fields. revert r.
  induction req as [|f req IH]; intros r Hr; cbn; [assumption|].
  apply IH. destruct (sf !! f); auto with results.
Qed.

Lemma check_field_types_written sf defs r0 r :
  written_from r0 r -> written_from r0 (check_field_types sf defs r).
Proof.
  unfold check_field_types. revert r.
  induction defs as [|d defs IH]; intros r Hr; cbn; [assumption|].
  apply IH. repeat case_match; auto with results.
Qed.

Lemma pattern_details_written (ps : list (string * string)) r0 r :
  written_from r0 r ->
  written_from r0
    (foldl (fun result p =>
              set_detail ("pattern_" +:+ fst p)
                (PatternDetail ("Pattern " +:+ snd p +:+ " validated")) result) r ps).
Proof.
  revert r. induction ps as [|p ps IH]; intros r Hr; cbn; [assumption|].
  apply IH. auto with results.
Qed.

Lemma check_timestamp_row_written row r0 r :
  written_from r0 r -> written_from r0 (check_timestamp_row row r).
Proof.
  intros Hr. unfold check_timestamp_row.
  repeat case_match; auto 10 with results.
Qed.

Lemma check_freshness_written `{PyLib} clock t sh th rows r0 r w :
  written_from r0 r ->
  written_from r0 (fst (check_freshness clock t sh th rows r w)).
Proof.
  intros Hr. unfold check_freshness, mbind, utcnow, ret.
  repeat (case_match; cbn); auto 10 with results.
Qed.

#[local] Hint Resolve check_required_fields_written check_field_types_written
  pattern_details_written check_timestamp_row_written : results.

Lemma schema_stage_written `{PyLib} clock self t w :
  written_from (ValidationResult_init t "schema_compliance")
               (fst (validate_schema_compliance clock self t w)).
Proof.
  unfold validate_schema_compliance, mbind, time_time, call_get_table, log_call, ret.
  cbn. repeat (case_match; cbn); rewrite ?finish_eq; cbn; auto 10 with results.
Qed.

Lemma constraints_stage_written `{PyLib} clock self t w :
  written_from (ValidationResult_init t "data_constraints")
               (fst (validate_data_constraints clock self t w)).
Proof.
  unfold validate_data_constraints, mbind, time_time, call_query_timestamps, log_call, ret.
  cbn. repeat (case_match; cbn); rewrite ?finish_eq; cbn; auto 10 with results.
Qed.

Lemma freshness_stage_written `{PyLib} clock self t w :
  written_from (ValidationResult_init t "freshness_sla")
               (fst (validate_freshness_sla clock self t w)).
Proof.
  unfold validate_freshness_sla, mbind, time_time, call_query_freshness, log_call, ret.
  destruct (config_get _ _) as [slas|e]; [|cbn; auto with results].
  destruct (lookup_sla _ _ _) as [[|kv entry]|]; try (cbn; auto with results).
  destruct (Py.bind _ _) as [[sh th]|e]; [|cbn; auto with results].
  destruct (query_freshness _ _ _ _) as [rows|e]; [|cbn; auto with results].
  match goal with
  | |- context [check_freshness ?c ?t ?a ?b ?rows ?r ?w] =>
      pose proof (check_freshness_written c t a b rows r r w (written_init r)) as Hw;
      destruct (check_freshness c t a b rows r w) as [v w']
  end.
  cbn in *. auto with results.
Qed.

Lemma stage_result_passed_iff r t c :
  written_from (ValidationResult_init t c) r ->
  name r = t /\ category r = c /\ (passed r = true <-> errors r = []).
Proof.
  intros Hr. split; [|split].
  - apply written_from_calls in Hr as (cs & Hn & _). exact Hn.
  - apply written_from_calls in Hr as (cs & _ & Hc & _). exact Hc.
  - now apply (written_passed_iff _ _ Hr).
Qed.

(** ** The run *)

Lemma validate_tables_appends `{PyLib} clock tables : forall self w,
  exists new,
    fst (validate_tables clock self tables w) = with_results self (results self ++ new)
    /\ map attribution new = flat_map checks_of tables
    /\ Forall (fun r => passed r = true <-> errors r = []) new.
Proof.
  induction tables as [|t tables IH]; intros self w.
  - exists []. cbn. rewrite app_nil_r. destruct self; cbn. auto.
  - cbn [validate_tables]. unfold mbind at 1.
    pose proof (schema_stage_written clock self t w) as H1.
    destruct (validate_schema_compliance clock self t w) as [r1 w1].
    unfold mbind at 1.
    set (self1 := with_results self (results self ++ [r1])).
    pose proof (constraints_stage_written clock self1 t w1) as H2.
    destruct (validate_data_constraints clock self1 t w1) as [r2 w2].
    unfold mbind at 1.
    set (self2 := with_results self1 (results self1 ++ [r2])).
    pose proof (freshness_stage_written clock self2 t w2) as H3.
    destruct (validate_freshness_sla clock self2 t w2) as [r3 w3].
    set (self3 := with_results self2 (results self2 ++ [r3])).
    destruct (IH self3 w3) as (new & Hres & Hattr & Hinv).
    exists (r1 :: r2 :: r3 :: new).
    apply stage_result_passed_iff in H1 as (N1 & C1 & P1).
    apply stage_result_passed_iff in H2 as (N2 & C2 & P2).
    apply stage_result_passed_iff in H3 as (N3 & C3 & P3).
    cbn [fst] in *. split; [|split].
    + rewrite Hres. subst self3 self2 self1. cbn.
      rewrite <- !app_assoc. reflexivity.
    + cbn. unfold attribution at 1 2 3. rewrite N1, N2, N3, C1, C2, C3, Hattr.
      reflexivity.
    + do 3 (constructor; [assumption|]). assumption.
Qed.

Lemma flat_map_checks_length tables :
  length (flat_map checks_of tables) = (3 * length tables)%nat.
Proof. induction tables as [|t ts IH]; cbn; [reflexivity|]. rewrite IH. lia. Qed.

Lemma get_matching_tables_world `{PyLib} self pattern w :
  snd (get_matching_tables self pattern w) =
  {| clock_reads := clock_reads w;
     api_calls := api_calls w ++ [CallListTables (dataset_id self)] |}.
Proof.
  unfold get_matching_tables, mbind, call_list_tables, log_call, ret. cbn.
  repeat (case_match; cbn); reflexivity.
Qed.

Lemma has_errors_spec (rs : list ValidationResult) :
  existsb (fun r => negb (passed r)) rs = true
  <-> exists r, r ∈ rs /\ passed r = false.
Proof.
  rewrite existsb_exists. split; intros (r & Hin & Hp); exists r.
  - apply list_elem_of_In in Hin. now rewrite negb_true_iff in Hp.
  - apply list_elem_of_In in Hin. now rewrite negb_true_iff.
Qed.

Lemma has_warnings_spec (rs : list ValidationResult) :
  existsb (fun r => match warnings r with [] => false | _ => true end) rs = true
  <-> exists r, r ∈ rs /\ warnings r <> [].
Proof.
  rewrite existsb_exists. split; intros (r & Hin & Hp); exists r.
  - apply list_elem_of_In in Hin. split; [assumption|].
    intros E. rewrite E in Hp. discriminate.
  - apply list_elem_of_In in Hin. split; [assumption|].
    destruct (warnings r); [congruence|reflexivity].
Qed.

Lemma schema_stage_ignores_results `{PyLib} clock self rs t w :
  validate_schema_compliance clock (with_results self rs) t w
  = validate_schema_compliance clock self t w.
Proof. reflexivity. Qed.

Lemma constraints_stage_ignores_results `{PyLib} clock self rs t w :
  validate_data_constraints clock (with_results self rs) t w
  = validate_data_constraints clock self t w.
Proof. reflexivity. Qed.

Lemma freshness_stage_ignores_results `{PyLib} clock self rs t w :
  validate_freshness_sla clock (with_results self rs) t w
  = validate_freshness_sla clock self t w.
Proof. reflexivity. Qed.

(** Every table of the run has its three stage results among the new
    results, each computed by the stage on the runner as configured. *)
Lemma validate_tables_stage_results `{PyLib} clock tables : forall self w,
  exists new,
    fst (validate_tables clock self tables w) = with_results self (results self ++ new)
    /\ forall t, t ∈ tables ->
         (exists w1, fst (validate_schema_compliance clock self t w1) ∈ new)
         /\ (exists w2, fst (validate_data_constraints clock self t w2) ∈ new)
         /\ (exists w3, fst (validate_freshness_sla clock self t w3) ∈ new).
Proof.
  induction tables as [|a tables IH]; intros self w.
  - exists []. split; [cbn; rewrite app_nil_r; now destruct self|].
    intros t Ht. inversion Ht.
  - cbn [validate_tables]. unfold mbind at 1.
    destruct (validate_schema_compliance clock self a w) as [r1 w1] eqn:E1.
    unfold mbind at 1.
    set (self1 := with_results self (results self ++ [r1])).
    destruct (validate_data_constraints clock self1 a w1) as [r2 w2] eqn:E2.
    unfold mbind at 1.
    set (self2 := with_results self1 (results self1 ++ [r2])).
    destruct (validate_freshness_sla clock self2 a w2) as [r3 w3] eqn:E3.
    set (self3 := with_results self2 (results self2 ++ [r3])).
    destruct (IH self3 w3) as (new & Hres & Hin).
    exists (r1 :: r2 :: r3 :: new). split.
    + rewrite Hres. subst self3 self2 self1. cbn. rewrite <- !app_assoc. reflexivity.
    + intros t Ht. apply elem_of_cons in Ht as [->|Ht].
      * split; [|split].
        -- exists w. rewrite E1. apply list_elem_of_here.
        -- exists w1. subst self1.
           rewrite constraints_stage_ignores_results in E2. rewrite E2.
           do 1 apply list_elem_of_further. apply list_elem_of_here.
        -- exists w2. subst self2 self1.
           rewrite !freshness_stage_ignores_results in E3. rewrite E3.
           do 2 apply list_elem_of_further. apply list_elem_of_here.
      * destruct (Hin t Ht) as ((u1 & H1) & (u2 & H2) & (u3 & H3)).
        subst self3 self2 self1.
        rewrite !schema_stage_ignores_results in H1.
        rewrite !constraints_stage_ignores_results in H2.
        rewrite !freshness_stage_ignores_results in H3.
        split; [|split]; eexists; do 3 apply list_elem_of_further; eassumption.
Qed.

(** C1. The exit code is a function of the accumulated results and of
    [fail_on]: one failed result gives EXIT_HARD_FAILURE (1) whatever
    [fail_on] is; otherwise [fail_on = "warn"] with a result that carries a
    warning gives EXIT_SOFT_FAILURE (2); otherwise EXIT_SUCCESS (0).  When no
    table matches the pattern, [run_validation] returns EXIT_HARD_FAILURE
    with the runner unchanged, after the table listing as its only
    warehouse call and without reading the clock.  When some table
    matches, the exit code [run_validation] returns is that function at
    the runner the loop over the matched tables leaves, whose results are
    the ones held before followed by new ones, the three stage results of
    every matched table among them. *)
Theorem exit_code_policy `{PyLib} (clock : Clock) :
  (forall self fail_on,
      (exists r, r ∈ results self /\ passed r = false) ->
      _determine_exit_code self fail_on = EXIT_HARD_FAILURE)
  /\ (forall self,
      (forall r, r ∈ results self -> passed r = true) ->
      (exists r, r ∈ results self /\ warnings r <> []) ->
      _determine_exit_code self "warn" = EXIT_SOFT_FAILURE)
  /\ (forall self fail_on,
      (forall r, r ∈ results self -> passed r = true) ->
      fail_on <> "warn" \/ (forall r, r ∈ results self -> warnings r = []) ->
      _determine_exit_code self fail_on = EXIT_SUCCESS)
  /\ (EXIT_SUCCESS = 0 /\ EXIT_HARD_FAILURE = 1 /\ EXIT_SOFT_FAILURE = 2)
  /\ (forall self t c m,
      let clean := ValidationResult_init t c in
      _determine_exit_code (with_results self [clean; clean]) "warn" = 0
      /\ _determine_exit_code (with_results self [clean; add_warning m clean]) "error" = 0
      /\ _determine_exit_code (with_results self [clean; add_warning m clean]) "warn" = 2
      /\ _determine_exit_code (with_results self [add_warning m clean; add_error m clean]) "warn" = 1
      /\ _determine_exit_code (with_results self [add_warning m clean; add_error m clean]) "error" = 1)
  /\ (forall self table_pattern fail_on w,
      fst (get_matching_tables self table_pattern w) = [] ->
      run_validation clock self table_pattern fail_on w =
        ((EXIT_HARD_FAILURE, ErrorReport "No matching tables found", self),
         {| clock_reads := clock_reads w;
            api_calls := api_calls w ++ [CallListTables (dataset_id self)] |}))
  /\ (forall self table_pattern fail_on w,
      let tables := fst (get_matching_tables self table_pattern w) in
      let validated :=
        fst (validate_tables clock self tables
               (snd (get_matching_tables self table_pattern w))) in
      tables <> [] ->
      fst (fst (fst (run_validation clock self table_pattern fail_on w)))
      = _determine_exit_code validated fail_on
      /\ snd (fst (run_validation clock self table_pattern fail_on w)) = validated
      /\ exists new,
           results validated = results self ++ new
           /\ forall t, t ∈ tables ->
                (exists w1, fst (validate_schema_compliance clock self t w1) ∈ new)
                /\ (exists w2, fst (validate_data_constraints clock self t w2) ∈ new)
                /\ (exists w3, fst (validate_freshness_sla clock self t w3) ∈ new)).
Proof.
  assert (Hpass : forall rs, (forall r : ValidationResult, r ∈ rs -> passed r = true) ->
                             existsb (fun r => negb (passed r)) rs = false).
  { intros rs Hall. apply not_true_is_false. intros (r & Hin & Hp)%has_errors_spec.
    rewrite (Hall r Hin) in Hp. discriminate. }
  split; [|split; [|split; [|split; [|split; [|split]]]]];
    [| | | repeat split | repeat split | |].
  - intros self fail_on Hex. unfold _determine_exit_code.
    apply has_errors_spec in Hex. now rewrite Hex.
  - intros self Hall Hex. unfold _determine_exit_code.
    rewrite (Hpass _ Hall). apply has_warnings_spec in Hex. now rewrite Hex.
  - intros self fail_on Hall Hor. unfold _determine_exit_code.
    rewrite (Hpass _ Hall). destruct Hor as [Hne | Hnone].
    + apply String.eqb_neq in Hne. now rewrite Hne.
    + replace (existsb _ (results self)) with false; [now rewrite andb_false_r|].
      symmetry. apply not_true_is_false. intros (r & Hin & Hw)%has_warnings_spec.
      now apply Hw, Hnone.
  - intros self table_pattern fail_on w Hnone. unfold run_validation, mbind.
    pose proof (get_matching_tables_world self table_pattern w) as Hw.
    destruct (get_matching_tables self table_pattern w) as [tables w1].
    cbn in Hnone, Hw. subst tables w1. reflexivity.
  - intros self table_pattern fail_on w tables validated Hne.
    subst tables validated. unfold run_validation, mbind.
    destruct (get_matching_tables self table_pattern w) as [tables w1].
    cbn [fst snd] in *. destruct tables as [|t ts]; [congruence|].
    destruct (validate_tables_stage_results clock (t :: ts) self w1)
      as (new & Hres & Hstages).
    destruct (validate_tables clock self (t :: ts) w1) as [self' w2].
    cbn [fst] in Hres |- *.
    destruct (_generate_summary clock self' w2) as [s w3]. cbn [fst snd].
    split; [reflexivity|]. split; [reflexivity|].
    exists new. split; [now rewrite Hres|exact Hstages].
Qed.

(** C10. A run over a non-empty list of matched tables appends exactly
    three results per table, in the order schema_compliance,
    data_constraints, freshness_sla, each attributed to its table and
    category; the summary's total_checks counts the results the runner
    holds, which for a new runner is three times the number of tables. *)
Theorem three_results_per_table `{PyLib} (clock : Clock) self table_pattern fail_on w :
  fst (get_matching_tables self table_pattern w) <> [] ->
  let tables := fst (get_matching_tables self table_pattern w) in
  exists report self' w' new,
    run_validation clock self table_pattern fail_on w =
      ((_determine_exit_code self' fail_on, SummaryReport report, self'), w')
    /\ results self' = results self ++ new
    /\ map attribution new = flat_map checks_of tables
    /\ length new = (3 * length tables)%nat
    /\ total_checks (summary report)
       = Z.of_nat (length (results self)) + 3 * Z.of_nat (length tables)
    /\ (results self = [] ->
        total_checks (summary report) = 3 * Z.of_nat (length tables)).
Proof.
  intros Hne tables. unfold run_validation, mbind.
  subst tables.
  destruct (get_matching_tables self table_pattern w) as [tables w1].
  cbn [fst] in *. destruct tables as [|t ts]; [congruence|].
  destruct (validate_tables_appends clock (t :: ts) self w1)
    as (new & Hres & Hattr & _).
  destruct (validate_tables clock self (t :: ts) w1) as [self' w2].
  cbn [fst] in Hres. subst self'.
  assert (Hlen : length new = (3 * length (t :: ts))%nat).
  { rewrite <- (length_map attribution), Hattr. apply flat_map_checks_length. }
  assert (Htotal : Z.of_nat (length (results self ++ new))
                   = Z.of_nat (length (results self)) + 3 * Z.of_nat (length (t :: ts))).
  { rewrite length_app, Hlen. lia. }
  eexists _, _, _, new. split; [reflexivity|].
  split; [reflexivity|]. split; [exact Hattr|]. split; [exact Hlen|].
  split; [exact Htotal|].
  intros Hfresh. cbn -[Z.mul Z.of_nat length]. rewrite Htotal, Hfresh. reflexivity.
Qed.

Lemma three_results_per_table_witness :
  fst (get_matching_tables (runner0 []) "*" world0) <> []
  /\ exists report self' w' new,
       run_validation clock0 (runner0 []) "*" "error" world0 =
         ((_determine_exit_code self' "error", SummaryReport report, self'), w')
       /\ results self' = results (runner0 []) ++ new
       /\ map attribution new
          = flat_map checks_of (fst (get_matching_tables (runner0 []) "*" world0))
       /\ length new
          = (3 * length (fst (get_matching_tables (runner0 []) "*" world0)))%nat
       /\ total_checks (summary report)
          = Z.of_nat (length (results (runner0 [])))
            + 3 * Z.of_nat (length (fst (get_matching_tables (runner0 []) "*" world0)))
       /\ (results (runner0 []) = [] ->
           total_checks (summary report)
           = 3 * Z.of_nat (length (fst (get_matching_tables (runner0 []) "*" world0)))).
Proof.
  split; [discriminate|].
  apply (three_results_per_table clock0 (runner0 []) "*" "error" world0).
  discriminate.
Defined.

(** C3, as stated, fails on its last clause: the schema stage of the
    table [users] builds a result that no sequence of add_error and
    add_warning calls builds from the new result.  It holds no error and no
    warning, and its [details] carry the key [table_schema], written by
    [result.details['table_schema'] = ...]. *)
Lemma result_written_outside_add_calls :
  exists r,
    r = fst (validate_schema_compliance clock0 (runner0 []) "users" world0)
    /\ errors r = [] /\ warnings r = []
    /\ details r !! "table_schema" = Some (TableSchemaDetail 2 1 1)
    /\ forall calls,
         apply_calls calls (ValidationResult_init "users" "schema_compliance") <> r.
Proof.
  eexists. split; [reflexivity|].
  split; [reflexivity|]. split; [reflexivity|].
  assert (Hd : details (fst (validate_schema_compliance clock0 (runner0 []) "users" world0))
               !! "table_schema" = Some (TableSchemaDetail 2 1 1))
    by (vm_compute; reflexivity).
  split; [exact Hd|].
  intros calls Heq. rewrite <- Heq in Hd.
  destruct (apply_calls_fields calls (ValidationResult_init "users" "schema_compliance"))
    as (_ & _ & _ & _ & Hdet & _).
  rewrite Hdet in Hd. cbn in Hd. rewrite lookup_empty in Hd. discriminate.
Qed.

(** C3, amended.  For every sequence of add_error and add_warning calls
    on a new result, [passed] is true exactly when the sequence holds no
    add_error; add_error sets [passed] to false and add_warning leaves it.
    Besides the two methods, a stage writes a result only by
    [result.duration = ...] and [result.details[key] = ...], which leave
    [passed], [errors] and [warnings] alone: the result of every stage has
    [passed] true exactly when its [errors] are empty.  Once a result is
    appended the run keeps it as it is, and [to_dict] reads it. *)
Theorem passed_iff_no_error_added `{PyLib} (clock : Clock) :
  (forall name category calls,
      let r := apply_calls calls (ValidationResult_init name category) in
      (passed r = true <-> Forall (fun c => is_error_call c = false) calls)
      /\ errors r = error_messages calls
      /\ warnings r = warning_messages calls)
  /\ (forall m r, passed (add_error m r) = false /\ errors (add_error m r) = errors r ++ [m]
                  /\ warnings (add_error m r) = warnings r)
  /\ (forall m r, passed (add_warning m r) = passed r /\ errors (add_warning m r) = errors r
                  /\ warnings (add_warning m r) = warnings r ++ [m])
  /\ (forall self t w,
      written_from (ValidationResult_init t "schema_compliance")
                   (fst (validate_schema_compliance clock self t w))
      /\ written_from (ValidationResult_init t "data_constraints")
                      (fst (validate_data_constraints clock self t w))
      /\ written_from (ValidationResult_init t "freshness_sla")
                      (fst (validate_freshness_sla clock self t w)))
  /\ (forall r0 r, written_from r0 r ->
      exists calls,
        passed r = passed (apply_calls calls r0)
        /\ errors r = errors (apply_calls calls r0)
        /\ warnings r = warnings (apply_calls calls r0))
  /\ (forall t c r, written_from (ValidationResult_init t c) r ->
      (passed r = true <-> errors r = []))
  /\ (forall self tables w,
      exists new,
        results (fst (validate_tables clock self tables w)) = results self ++ new
        /\ Forall (fun r => passed r = true <-> errors r = []) new)
  /\ (forall r, d_passed (to_dict r) = passed r /\ d_errors (to_dict r) = errors r
                /\ d_warnings (to_dict r) = warnings r).
Proof.
  split; [|split; [|split; [|split; [|split; [|split; [|split]]]]]].
  - intros n c calls r.
    destruct (apply_calls_fields calls (ValidationResult_init n c))
      as (_ & _ & He & Hw & _ & _ & Hp).
    subst r. rewrite He, Hw, Hp. cbn. repeat split; try reflexivity.
    + rewrite negb_true_iff. intros Hex. apply Forall_forall. intros x Hin.
      apply not_true_is_false. intros Hx.
      assert (existsb is_error_call calls = true) as Hy; [|congruence].
      apply existsb_exists. exists x. split; [now apply list_elem_of_In|exact Hx].
    + intros Hall. rewrite negb_true_iff. apply not_true_is_false.
      intros (x & Hin & Hx)%existsb_exists.
      rewrite Forall_forall in Hall. apply list_elem_of_In in Hin.
      rewrite (Hall x Hin) in Hx. discriminate.
  - intros m r. cbn. auto.
  - intros m r. cbn. auto.
  - intros self t w. split; [|split].
    + apply schema_stage_written.
    + apply constraints_stage_written.
    + apply freshness_stage_written.
  - intros r0 r (cs & _ & _ & Hp & He & Hw)%written_from_calls. exists cs. auto.
  - intros t c r Hr. now apply (written_passed_iff _ _ Hr).
  - intros self tables w.
    destruct (validate_tables_appends clock tables self w) as (new & Hres & _ & Hinv).
    exists new. rewrite Hres. split; [reflexivity|exact Hinv].
  - intros r. cbn. auto.
Qed.

(** ** Exceptions and missing configuration in the stages *)

Lemma no_hard_error_warning m r : no_hard_error r -> no_hard_error (add_warning m r).
Proof. intros [? ?]. split; assumption. Qed.

Lemma no_hard_error_duration d r : no_hard_error r -> no_hard_error (set_duration d r).
Proof. intros [? ?]. split; assumption. Qed.

Lemma no_hard_error_detail k v r : no_hard_error r -> no_hard_error (set_detail k v r).
Proof. intros [? ?]. split; assumption. Qed.

Lemma no_hard_error_init t c : no_hard_error (ValidationResult_init t c).
Proof. split; reflexivity. Qed.

#[local] Hint Resolve no_hard_error_warning no_hard_error_duration
  no_hard_error_detail no_hard_error_init : results.

Lemma check_freshness_no_hard_error `{PyLib} clock t sh th rows r w :
  no_hard_error r -> no_hard_error (fst (check_freshness clock t sh th rows r w)).
Proof.
  intros Hr. unfold check_freshness, mbind, utcnow, ret.
  repeat (case_match; cbn); auto 10 with results.
Qed.

Lemma freshness_stage_no_hard_error `{PyLib} clock self t w :
  no_hard_error (fst (validate_freshness_sla clock self t w)).
Proof.
  unfold validate_freshness_sla, mbind, time_time, call_query_freshness, log_call, ret.
  destruct (config_get _ _) as [slas|e]; [|cbn; auto with results].
  destruct (lookup_sla _ _ _) as [[|kv entry]|]; try (cbn; auto with results).
  destruct (Py.bind _ _) as [[sh th]|e]; [|cbn; auto with results].
  destruct (query_freshness _ _ _ _) as [rows|e]; [|cbn; auto with results].
  match goal with
  | |- context [check_freshness ?c ?t ?a ?b ?rows ?r ?w] =>
      pose proof (check_freshness_no_hard_error c t a b rows r w
                    (no_hard_error_init _ _)) as Hw;
      destruct (check_freshness c t a b rows r w) as [v w']
  end.
  cbn in *. auto with results.
Qed.

Lemma pattern_details_only_warnings (ps : list (string * string)) r ws :
  only_warnings r ws ->
  only_warnings
    (foldl (fun result p =>
              set_detail ("pattern_" +:+ fst p)
                (PatternDetail ("Pattern " +:+ snd p +:+ " validated")) result) r ps) ws.
Proof.
  revert r. induction ps as [|p ps IH]; intros r Hr; cbn; [assumption|].
  apply IH. destruct Hr as (? & ? & ?). repeat split; assumption.
Qed.

Lemma add_warning_only_warnings m r ws :
  only_warnings r ws -> only_warnings (add_warning m r) (ws ++ [m]).
Proof. intros (? & ? & Hw). repeat split; try assumption. cbn. now rewrite Hw. Qed.



(** ** Freshness *)

Lemma endswith_snoc s c c' : endswith (s +:+ String c EmptyString) c' = Ascii.eqb c c'.
Proof.
  induction s as [|a s IH]; [reflexivity|].
  destruct s as [|b s]; [reflexivity|]. exact IH.
Qed.

Lemma drop_last_snoc s c : drop_last (s +:+ String c EmptyString) = s.
Proof.
  induction s as [|a s IH]; [reflexivity|].
  destruct s as [|b s]; [reflexivity|].
  change (String a (drop_last (String b s +:+ String c EmptyString)) = String a (String b s)).
  now rewrite IH.
Qed.

Lemma parse_duration_units `{PyLib} s :
  _parse_duration (s +:+ "h") = py_float s
  /\ _parse_duration (s +:+ "d") = (x <- py_float s ;;; Return (PrimFloat.mul x 24))
  /\ _parse_duration (s +:+ "m") = (x <- py_float s ;;; Return (PrimFloat.div x 60)).
Proof.
  unfold _parse_duration. rewrite !endswith_snoc, !drop_last_snoc. repeat split.
Qed.

Lemma check_freshness_warnings `{PyLib} clock t sh th row rest r w ts :
  0 < fr_total_rows row ->
  measured_timestamp row = Some ts ->
  let actual := hours_between (utcnow_at clock (clock_reads w)) ts in
  let r' := fst (check_freshness clock t sh th (row :: rest) r w) in
  warnings r' = warnings r ++ staleness_warnings sh th actual
  /\ errors r' = errors r /\ passed r' = passed r.
Proof.
  intros Hrows Hts. unfold check_freshness, mbind, utcnow, ret.
  apply Z.ltb_lt in Hrows. rewrite Hrows.
  unfold measured_timestamp in Hts. rewrite Hts.
  unfold staleness_warnings, hours_between, datetime_sub, replace_tzinfo.
  destruct (tzinfo ts); cbn;
    repeat (case_match; cbn); rewrite ?app_nil_r; repeat split.
Qed.

(** C9, as stated, fails where [latest_created_at] is more recent than
    [latest_updated_at]: with rows created one hour ago and the last
    update 30 hours ago, the more recent maximum is one hour old, within
    both thresholds, and the stage warns that the data is stale by 30
    hours. *)
Lemma staleness_is_not_from_the_more_recent_maximum :
  let row := fresh_row (Some (hours_ago 1)) (Some (hours_ago 30)) in
  let now := utcnow_at clock0 1 in
  more_recent_timestamp row = Some (hours_ago 1)
  /\ staleness_warnings 24 12 (hours_between now (hours_ago 1)) = []
  /\ _parse_duration "24h" = Return 24%float
  /\ _parse_duration "12h" = Return 12%float
  /\ warnings (fst (validate_freshness_sla clock0 (runner0 [row]) "users" world0))
     = ["Data is stale: 30.0h > 24.0h threshold"].
Proof. vm_compute. repeat split. Qed.

(** C9, amended.  In the freshness stage, for a table whose query returns
    a row with [total_rows > 0] and a timestamp, staleness is the hours
    between now and [latest_updated_at] when it is present, and between
    now and [latest_created_at] when it is absent.  The stage then adds
    exactly one of: the warning "Data is stale" when the staleness exceeds
    max_staleness; the warning "Data approaching staleness" when it does
    not but exceeds late_arrival_threshold; no warning otherwise; and in
    no case a hard error.  With max_staleness 24h and
    late_arrival_threshold 12h, a last update 30 hours ago gives the stale
    warning, one 10 hours ago gives no warning. *)
Theorem freshness_staleness_warning (clock : Clock) :
  (* the comparison, on the query's first row *)
  (forall (py : PyLib) self t w c entry sh th row rest ts,
      sla_config self = Dict c ->
      lookup_sla (default [] (freshness_slas c)) ["live_data_tables"; "core_tables"] t
        = Some entry ->
      entry <> [] ->
      _parse_duration (default "24h" (dict_get entry "max_staleness")) = Return sh ->
      _parse_duration (default "12h" (dict_get entry "late_arrival_threshold")) = Return th ->
      query_freshness (client self) (project_id self) (dataset_id self) t
        = Return (row :: rest) ->
      0 < fr_total_rows row ->
      measured_timestamp row = Some ts ->
      let now := utcnow_at clock (S (clock_reads w)) in
      only_warnings (fst (validate_freshness_sla clock self t w))
                    (staleness_warnings sh th (hours_between now ts)))
  (* which timestamp is measured *)
  /\ (forall row u, latest_updated_at row = Some u -> measured_timestamp row = Some u)
  /\ (forall row, latest_updated_at row = None ->
                  measured_timestamp row = latest_created_at row)
  (* the three cases exclude one another *)
  /\ (forall (py : PyLib) sh th actual,
      (PrimFloat.ltb sh actual = true ->
       staleness_warnings sh th actual =
         ["Data is stale: " +:+ format_1f actual +:+ "h > "
          +:+ str_float sh +:+ "h threshold"])
      /\ (PrimFloat.ltb sh actual = false -> PrimFloat.ltb th actual = true ->
          staleness_warnings sh th actual =
            ["Data approaching staleness: " +:+ format_1f actual +:+ "h > "
             +:+ str_float th +:+ "h late threshold"])
      /\ (PrimFloat.ltb sh actual = false -> PrimFloat.ltb th actual = false ->
          staleness_warnings sh th actual = []))
  (* the durations of the SLA file: hours, days, minutes, and hours by
     default; below with a runtime whose [float] reads decimal integers *)
  /\ (forall (py : PyLib) s,
      _parse_duration (s +:+ "h") = py_float s
      /\ _parse_duration (s +:+ "d") = (x <- py_float s ;;; Return (PrimFloat.mul x 24))
      /\ _parse_duration (s +:+ "m") = (x <- py_float s ;;; Return (PrimFloat.div x 60)))
  /\ (_parse_duration "24h" = Return 24%float
      /\ _parse_duration "12h" = Return 12%float
      /\ _parse_duration "2d" = Return 48%float
      /\ _parse_duration "30m" = Return 0.5%float
      /\ _parse_duration "6" = Return 6%float)
  (* max_staleness 24h, late_arrival_threshold 12h *)
  /\ (forall created,
      only_warnings
        (fst (validate_freshness_sla clock0
                (runner0 [fresh_row created (Some (hours_ago 30))]) "users" world0))
        ["Data is stale: 30.0h > 24.0h threshold"]
      /\ only_warnings
           (fst (validate_freshness_sla clock0
                   (runner0 [fresh_row created (Some (hours_ago 10))]) "users" world0))
           []
      /\ only_warnings
           (fst (validate_freshness_sla clock0
                   (runner0 [fresh_row created (Some (hours_ago 20))]) "users" world0))
           ["Data approaching staleness: 20.0h > 12.0h late threshold"])
  /\ only_warnings
       (fst (validate_freshness_sla clock0
               (runner0 [fresh_row (Some (hours_ago 30)) None]) "users" world0))
       ["Data is stale: 30.0h > 24.0h threshold"].
Proof.
  split; [|split; [|split; [|split; [|split; [|split; [|split]]]]]].
  - intros py self t w c entry sh th row rest ts Hc Hl Hne Hsh Hth Hq Hrows Hts now.
    unfold validate_freshness_sla, mbind, time_time, call_query_freshness, log_call, ret.
    rewrite Hc. cbn [config_get]. rewrite Hl.
    destruct entry as [|kv entry]; [congruence|].
    rewrite Hsh. cbn [Py.bind]. rewrite Hth. cbn [Py.bind]. cbn beta iota.
    rewrite Hq. cbn -[check_freshness].
    match goal with
    | |- context [check_freshness ?c ?t ?a ?b ?rows ?r ?w] =>
        destruct (check_freshness_warnings c t a b row rest r w ts Hrows Hts)
          as (Hw & He & Hp);
        destruct (check_freshness c t a b rows r w) as [v w']
    end.
    cbn in Hw, He, Hp. unfold only_warnings. cbn. rewrite Hw, He, Hp. repeat split.
  - intros row u Hu. unfold measured_timestamp. now rewrite Hu.
  - intros row Hu. unfold measured_timestamp. now rewrite Hu.
  - intros py sh th actual. unfold staleness_warnings.
    repeat split; intros; repeat match goal with E : _ = _ |- _ => rewrite E end;
      reflexivity.
  - intros py s. apply parse_duration_units.
  - vm_compute. repeat split.
  - intros created. unfold only_warnings. vm_compute. repeat split.
  - vm_compute. repeat split.
Qed.

(** ** Diagnostic trouble codes *)

Lemma codepoints_PBCU : codepoints "PBCU" = [80; 66; 67; 85]%N.
Proof. reflexivity. Qed.

Lemma DTCCode_spec `{PyLib} (v : pystr) :
  DTCCode v = true <->
  exists c d1 d2 d3 d4,
    v = [c; d1; d2; d3; d4]
    /\ c ∈ codepoints "PBCU"
    /\ Forall (fun d => unicode_decimal d = true) [d1; d2; d3; d4].
Proof.
  unfold DTCCode, DTC_pattern. split.
  - destruct v as [|c [|d1 [|d2 [|d3 [|d4 [|x v]]]]]]; cbn [fullmatch repeat atom_matches];
      rewrite ?andb_false_r; try discriminate.
    rewrite !andb_true_iff. intros (Hc & H1 & H2 & H3 & H4 & _).
    exists c, d1, d2, d3, d4. split; [reflexivity|]. split.
    + apply existsb_exists in Hc as (x & Hin & Hx). apply N.eqb_eq in Hx. subst x.
      now apply list_elem_of_In.
    + repeat constructor; assumption.
  - intros (c & d1 & d2 & d3 & d4 & -> & Hc & Hd).
    cbn [fullmatch repeat atom_matches].
    apply Forall_cons in Hd as [H1 Hd]. apply Forall_cons in Hd as [H2 Hd].
    apply Forall_cons in Hd as [H3 Hd]. apply Forall_cons in Hd as [H4 _].
    rewrite H1, H2, H3, H4. cbn [andb]. rewrite andb_true_r.
    apply existsb_exists. exists c. split; [now apply list_elem_of_In|apply N.eqb_refl].
Qed.

(** C5, as stated, fails: the four characters after the letter need
    not be among the digits 0 to 9.  The letter P followed by the
    fullwidth digits 0, 3, 0, 1 (U+FF10, U+FF13, U+FF10, U+FF11), each a
    decimal digit of Unicode and none an ASCII digit, passes the pattern,
    whose [\d] matches every decimal digit, and then the field
    validator, whose [isdigit] holds of them.  The character classes are
    those of [reference_py], the tables of Unicode 14.0. *)
Lemma fullwidth_digits_are_accepted_in_a_dtc_code :
  let v := [80; 65296; 65299; 65296; 65297]%N in
  length v = 5%nat
  /\ v <> codepoints "P0301"
  /\ Forall (fun d => ascii_digit d = false) (tail v)
  /\ Forall (fun d => unicode_decimal d = true /\ unicode_digit d = true) (tail v)
  /\ DTCCode v = true
  /\ validate_dtc_format v = Return v
  /\ validate_code v = Validated v.
Proof.
  cbv zeta. split; [reflexivity|]. split; [discriminate|].
  split; [repeat (apply Forall_cons_2; [reflexivity|]); apply Forall_nil_2|].
  split; [repeat (apply Forall_cons_2; [split; reflexivity|]); apply Forall_nil_2|].
  split; [reflexivity|]. split; reflexivity.
Qed.

(** C5, amended.  The validator of a diagnostic trouble code, the
    pattern of [DTCCode] followed by [validate_dtc_format], accepts
    exactly the strings of five characters whose first one is P, B, C or
    U and whose other four are decimal digits of Unicode, the characters
    [\d] matches, the digits 0 to 9 among them; it never ends in an
    exception.  "P0301" is accepted; "X0301", "P030", "p0301" and
    "P03011" are rejected.  The two hypotheses are facts of the runtime's
    character classes: [isdigit] holds of every character [\d] matches,
    and [\d] matches the digits 0 to 9. *)
Theorem dtc_code_accepted_iff (py : PyLib) :
  (forall c, unicode_decimal c = true -> unicode_digit c = true) ->
  (forall c, (48 <= c <= 57)%N -> unicode_decimal c = true) ->
  (forall v,
      validate_code v = Validated v <->
      exists c d1 d2 d3 d4,
        v = [c; d1; d2; d3; d4]
        /\ c ∈ codepoints "PBCU"
        /\ Forall (fun d => unicode_decimal d = true) [d1; d2; d3; d4])
  /\ (forall v, validate_code v = Validated v
                \/ exists messages, validate_code v = ValidationError messages)
  /\ (forall v, DTCCode v = true <-> validate_code v = Validated v)
  /\ validate_code (codepoints "P0301") = Validated (codepoints "P0301")
  /\ (exists m, validate_code (codepoints "X0301") = ValidationError m)
  /\ (exists m, validate_code (codepoints "P030") = ValidationError m)
  /\ (exists m, validate_code (codepoints "p0301") = ValidationError m)
  /\ (exists m, validate_code (codepoints "P03011") = ValidationError m).
Proof.
  intros Hdigit Hascii.
  assert (Hacc : forall v, DTCCode v = true -> validate_code v = Validated v).
  { intros v Hv. unfold validate_code. rewrite Hv.
    apply DTCCode_spec in Hv as (c & d1 & d2 & d3 & d4 & -> & Hc & Hd).
    unfold validate_dtc_format. cbn [length Nat.eqb negb].
    replace (existsb (N.eqb c) (codepoints "PBCU")) with true.
    2:{ symmetry. apply existsb_exists. exists c.
        split; [now apply list_elem_of_In|apply N.eqb_refl]. }
    apply Forall_cons in Hd as [H1 Hd]. apply Forall_cons in Hd as [H2 Hd].
    apply Forall_cons in Hd as [H3 Hd]. apply Forall_cons in Hd as [H4 _].
    cbn. rewrite (Hdigit _ H1), (Hdigit _ H2), (Hdigit _ H3), (Hdigit _ H4).
    reflexivity. }
  assert (Hrej : forall v, DTCCode v = false ->
                 validate_code v = ValidationError ["String should match pattern '^[PBCU]\d{4}$'"]).
  { intros v Hv. unfold validate_code. now rewrite Hv. }
  assert (Hiff : forall v, DTCCode v = true <-> validate_code v = Validated v).
  { intros v. split; [apply Hacc|]. intros Hv.
    destruct (DTCCode v) eqn:E; [reflexivity|]. rewrite (Hrej v E) in Hv. discriminate. }
  assert (Hno : forall s, DTCCode (codepoints s) = false ->
                exists m, validate_code (codepoints s) = ValidationError m).
  { intros s Hs. eexists. now apply Hrej. }
  split; [|split; [|split; [|split; [|repeat split]]]].
  - intros v. etransitivity; [symmetry; apply Hiff|apply DTCCode_spec].
  - intros v. destruct (DTCCode v) eqn:E; [left; now apply Hacc|right; eauto].
  - exact Hiff.
  - apply Hacc, DTCCode_spec. exists 80%N, 48%N, 51%N, 48%N, 49%N.
    split; [reflexivity|]. split; [rewrite codepoints_PBCU; constructor|].
    repeat constructor; apply Hascii; lia.
  - apply Hno. reflexivity.
  - apply Hno. unfold DTCCode, DTC_pattern. cbn. now rewrite !andb_false_r.
  - apply Hno. reflexivity.
  - apply Hno. unfold DTCCode, DTC_pattern. cbn. now rewrite !andb_false_r.
Qed.

Lemma dtc_code_accepted_iff_witness :
  validate_code (codepoints "P0301") = Validated (codepoints "P0301")
  /\ (exists m, validate_code (codepoints "p0301") = ValidationError m).
Proof.
  assert (H1 : forall c, unicode_decimal c = true -> unicode_digit c = true).
  { intros c Hc. cbn [unicode_decimal unicode_digit reference_py] in *.
    now rewrite Hc. }
  assert (H2 : forall c, (48 <= c <= 57)%N -> unicode_decimal c = true).
  { intros c [Hlo Hhi]. cbn [unicode_decimal reference_py].
    unfold in_ranges, decimal_digit_ranges. cbn [existsb fst snd].
    apply orb_true_iff. left.
    apply andb_true_iff. split; now apply N.leb_le. }
  destruct (dtc_code_accepted_iff reference_py H1 H2)
    as (_ & _ & _ & Hok & _ & _ & Hlower & _).
  split; [exact Hok|exact Hlower].
Defined.

(** ** Inventory *)

Lemma InventoryInfo_validate_eq r :
  InventoryInfo_validate r =
  if on_hand r <? allocated r then
    ValidationError ["Value error, Allocated quantity cannot exceed quantity on hand"]
  else if truthy (reorder_point r) && truthy (max_stock_level r)
          && (default 0 (max_stock_level r) <=? default 0 (reorder_point r)) then
    ValidationError ["Value error, Reorder point must be less than max stock level"]
  else if truthy (reorder_quantity r) && truthy (max_stock_level r)
          && (default 0 (max_stock_level r) <? default 0 (reorder_quantity r)) then
    ValidationError ["Value error, Reorder quantity cannot exceed max stock level"]
  else Validated (Instance (derived r)).
Proof.
  unfold InventoryInfo_validate, model_validate, InventoryInfo_validators.
  cbn [run_after on_instance Py.bind].
  unfold validate_inventory_consistency, derived, on_hand, allocated, available.
  destruct (default 0 (quantity_available r) =? _); cbn [negb];
    cbn [set_quantity_available reorder_point max_stock_level reorder_quantity];
    (destruct (_ <? _); [reflexivity|]);
    (destruct (_ && _ && _); [reflexivity|]);
    (destruct (_ && _ && _); reflexivity).
Qed.

(** C4.  Validation is the construction of the record from data whose
    fields pass their own constraints (six quantities that are not
    negative).  A record whose quantity_available differs from on_hand
    minus allocated is not reported for it: the outcome is the outcome
    of the same record with quantity_available equal to that difference,
    an error reported for a record is reported for the same record with
    any other quantity_available, and a record that no other check
    rejects (allocated does not exceed on_hand, and the reorder point
    and reorder quantity agree with the max stock level) is accepted
    with quantity_available set to the difference and nothing else
    changed: on_hand=25, allocated=3 yields available=22.  Every
    accepted record holds on_hand minus allocated as its
    quantity_available.  Where allocated exceeds on_hand, as in
    on_hand=10, allocated=15, the outcome is the error "Allocated
    quantity cannot exceed quantity on hand". *)
Theorem inventory_available_is_derived :
  (forall r,
      InventoryInfo_fields_valid r = true ->
      available r <> on_hand r - allocated r ->
      allocated r <= on_hand r ->
      InventoryInfo_fields_valid (set_quantity_available r (on_hand r - allocated r)) = true
      /\ InventoryInfo_validate r
         = InventoryInfo_validate (set_quantity_available r (on_hand r - allocated r))
      /\ (reorder_consistent r = true ->
          InventoryInfo_validate r
          = Validated (Instance (set_quantity_available r (on_hand r - allocated r)))))
  /\ (forall r r',
      InventoryInfo_fields_valid r = true ->
      InventoryInfo_validate r = Validated r' ->
      r' = Instance (derived r) /\ available (derived r) = on_hand r - allocated r)
  /\ (forall r v messages,
      InventoryInfo_fields_valid r = true -> 0 <= v ->
      InventoryInfo_validate r = ValidationError messages ->
      InventoryInfo_fields_valid (set_quantity_available r v) = true
      /\ InventoryInfo_validate (set_quantity_available r v) = ValidationError messages)
  /\ (forall r,
      InventoryInfo_fields_valid r = true ->
      on_hand r < allocated r ->
      InventoryInfo_validate r
      = ValidationError ["Value error, Allocated quantity cannot exceed quantity on hand"])
  /\ (InventoryInfo_fields_valid (inventory 25 3 None None) = true
      /\ InventoryInfo_validate (inventory 25 3 None None)
         = Validated (Instance (set_quantity_available (inventory 25 3 None None) 22)))
  /\ (InventoryInfo_fields_valid (inventory 10 15 None None) = true
      /\ InventoryInfo_validate (inventory 10 15 None None)
         = ValidationError ["Value error, Allocated quantity cannot exceed quantity on hand"]).
Proof.
  assert (Hset : forall r v, InventoryInfo_fields_valid r = true -> 0 <= v ->
                   InventoryInfo_fields_valid (set_quantity_available r v) = true).
  { intros r v Hr Hv. unfold InventoryInfo_fields_valid in *.
    cbn [set_quantity_available quantity_on_hand quantity_allocated quantity_available
         reorder_point reorder_quantity max_stock_level conint_ge0].
    repeat (apply andb_true_iff in Hr as [Hr ?]).
    repeat (apply andb_true_iff; split); try assumption.
    now apply Z.leb_le. }
  split; [|split; [|split; [|split; [|split]]]].
  - intros r Hvalid Hdiff Hle.
    split; [apply Hset; [assumption|lia]|].
    assert (Heq : InventoryInfo_validate r
                  = InventoryInfo_validate
                      (set_quantity_available r (on_hand r - allocated r))).
    { rewrite !InventoryInfo_validate_eq.
      change (on_hand (set_quantity_available r (on_hand r - allocated r)))
        with (on_hand r).
      change (allocated (set_quantity_available r (on_hand r - allocated r)))
        with (allocated r).
      cbn [set_quantity_available reorder_point max_stock_level reorder_quantity].
      unfold derived.
      change (available (set_quantity_available r (on_hand r - allocated r)))
        with (on_hand r - allocated r).
      rewrite Z.eqb_refl. apply Z.eqb_neq in Hdiff. rewrite Hdiff. reflexivity. }
    split; [exact Heq|].
    intros Hre. rewrite InventoryInfo_validate_eq.
    apply Z.leb_le in Hle. rewrite Z.leb_antisym in Hle.
    apply negb_true_iff in Hle. rewrite Hle.
    unfold reorder_consistent in Hre. apply andb_true_iff in Hre as [H1 H2].
    apply negb_true_iff in H1, H2. rewrite H1, H2.
    unfold derived. apply Z.eqb_neq in Hdiff. now rewrite Hdiff.
  - intros r r' _ Hv. rewrite InventoryInfo_validate_eq in Hv.
    repeat (case_match; try discriminate). injection Hv as <-.
    split; [reflexivity|]. unfold derived.
    destruct (available r =? on_hand r - allocated r) eqn:E.
    + now apply Z.eqb_eq.
    + reflexivity.
  - intros r v messages Hvalid Hv0 Hv. split; [now apply Hset|].
    rewrite InventoryInfo_validate_eq in *.
    change (on_hand (set_quantity_available r v)) with (on_hand r).
    change (allocated (set_quantity_available r v)) with (allocated r).
    cbn [set_quantity_available reorder_point max_stock_level reorder_quantity].
    repeat (case_match; try discriminate); assumption.
  - intros r _ Hlt. rewrite InventoryInfo_validate_eq.
    apply Z.ltb_lt in Hlt. now rewrite Hlt.
  - split; reflexivity.
  - split; reflexivity.
Qed.

(** ** Risk assessment *)

(** C7. Validation is the construction of the record from data whose
    fields pass their own constraints (the score, like the two other
    probabilities, within [0, 1]).  For every risk assessment with both
    overall_risk_score and risk_level present, validation reports an
    error exactly when the score lies outside the band of the level: low
    [0.0, 0.3], medium [0.2, 0.7], high [0.6, 0.9], critical [0.8, 1.0],
    bounds included.  A high risk level with a score outside [0.6, 0.9]
    is rejected. *)
Theorem risk_score_must_lie_in_the_band_of_its_level (py : PyLib) :
  (forall r score level,
      RiskAssessment_fields_valid r = true ->
      overall_risk_score r = Some score -> risk_level r = Some level ->
      (within_band level score = false <->
       RiskAssessment_validate r
       = ValidationError ["Value error, Risk score " +:+ str_float score
                          +:+ " inconsistent with risk level " +:+ RiskLevel_str level])
      /\ (within_band level score = true <->
          RiskAssessment_validate r = Validated (Instance r)))
  /\ (forall score,
      within_band low score = PrimFloat.leb 0.0 score && PrimFloat.leb score 0.3
      /\ within_band medium score = PrimFloat.leb 0.2 score && PrimFloat.leb score 0.7
      /\ within_band high score = PrimFloat.leb 0.6 score && PrimFloat.leb score 0.9
      /\ within_band critical score = PrimFloat.leb 0.8 score && PrimFloat.leb score 1.0)
  /\ (forall r,
      RiskAssessment_fields_valid r = true ->
      overall_risk_score r = None \/ risk_level r = None ->
      RiskAssessment_validate r = Validated (Instance r))
  /\ (forall r score,
      RiskAssessment_fields_valid r = true ->
      overall_risk_score r = Some score -> risk_level r = Some high ->
      PrimFloat.leb 0.6 score && PrimFloat.leb score 0.9 = false ->
      exists m, RiskAssessment_validate r = ValidationError m)
  /\ Forall (fun score =>
               RiskAssessment_fields_valid (risk (Some score) (Some high)) = true
               /\ exists m, RiskAssessment_validate (risk (Some score) (Some high))
                            = ValidationError m)
       [0.95; 0.5; 0.0; 1.0]%float
  /\ Forall (fun score =>
               RiskAssessment_fields_valid (risk (Some score) (Some high)) = true
               /\ RiskAssessment_validate (risk (Some score) (Some high))
                  = Validated (Instance (risk (Some score) (Some high))))
       [0.6; 0.75; 0.9]%float.
Proof.
  assert (Heq : forall r score level,
             overall_risk_score r = Some score -> risk_level r = Some level ->
             RiskAssessment_validate r =
             if within_band level score then Validated (Instance r)
             else ValidationError ["Value error, Risk score " +:+ str_float score
                          +:+ " inconsistent with risk level " +:+ RiskLevel_str level]).
  { intros r score level Hs Hl.
    unfold RiskAssessment_validate, model_validate, RiskAssessment_validators.
    cbn [run_after on_instance Py.bind].
    unfold validate_risk_consistency, within_band. rewrite Hs, Hl.
    destruct (thresholds level) as [lo hi]. cbn [fst snd].
    destruct (PrimFloat.leb lo score && PrimFloat.leb score hi); reflexivity. }
  split; [|split; [|split; [|split; [|split]]]].
  - intros r score level _ Hs Hl. rewrite (Heq r score level Hs Hl).
    destruct (within_band level score); split; split;
      try reflexivity; try discriminate.
  - intros score. unfold within_band. cbn [thresholds fst snd]. repeat split.
  - intros r _ Hnone.
    unfold RiskAssessment_validate, model_validate, RiskAssessment_validators.
    cbn [run_after on_instance Py.bind]. unfold validate_risk_consistency.
    destruct Hnone as [-> | Hl]; [reflexivity|].
    rewrite Hl. destruct (overall_risk_score r); reflexivity.
  - intros r score _ Hs Hl Hout. rewrite (Heq r score high Hs Hl).
    unfold within_band. cbn [thresholds fst snd]. rewrite Hout. eexists. reflexivity.
  - repeat (apply Forall_cons_2;
            [split; [reflexivity|]; eexists;
             match goal with
             | |- RiskAssessment_validate (risk (Some ?s) _) = _ =>
                 rewrite (Heq (risk (Some s) (Some high)) s high eq_refl eq_refl)
             end; reflexivity|]).
    apply Forall_nil_2.
  - repeat (apply Forall_cons_2;
            [split; [reflexivity|];
             match goal with
             | |- RiskAssessment_validate (risk (Some ?s) _) = _ =>
                 rewrite (Heq (risk (Some s) (Some high)) s high eq_refl eq_refl)
             end; reflexivity|]).
    apply Forall_nil_2.
Qed.

(** ** Maintenance predictions *)

Lemma MaintenancePredictions_validate_eq r :
  MaintenancePredictions_validate r =
  of_result
    (_ <- validate_prediction_dates r ;;;
     _ <- validate_status_transitions r ;;;
     unbound_name "v").
Proof.
  unfold MaintenancePredictions_validate, model_validate,
    MaintenancePredictions_validators.
  cbn [run_after on_instance].
  unfold validate_prediction_dates, validate_status_transitions,
    validate_risk_financial_consistency, validate_expiration_reasonable,
    validate_symptoms_limit.
  repeat (case_match; cbn [Py.bind on_instance raise_ValueError]; try reflexivity).
Qed.

Lemma validate_prediction_dates_cases r :
  validate_prediction_dates r = Return (Instance r)
  \/ exists m, validate_prediction_dates r = raise_ValueError m.
Proof.
  unfold validate_prediction_dates. repeat (case_match; eauto).
Qed.

Lemma validate_status_transitions_cases r :
  validate_status_transitions r = Return (Instance r)
  \/ exists m, validate_status_transitions r = raise_ValueError m.
Proof.
  unfold validate_status_transitions. repeat (case_match; eauto).
Qed.

(** C6.  On the code, a maintenance prediction whose status is completed
    and whose completed_at is None is reported as an error, and so are
    acknowledged without acknowledged_at and scheduled without
    scheduled_maintenance_date.  The same record with completed_at set is
    not accepted: no record is, since [validate_symptoms_limit] reads the
    unbound name [v] and construction ends in a NameError. *)
Theorem completed_prediction_with_timestamp_raises_NameError :
  (forall r, status r = Some completed -> completed_at r = None ->
             exists m, MaintenancePredictions_validate r = ValidationError m)
  /\ (forall r, status r = Some acknowledged -> acknowledged_at r = None ->
                exists m, MaintenancePredictions_validate r = ValidationError m)
  /\ (forall r, status r = Some scheduled -> scheduled_maintenance_date r = None ->
                exists m, MaintenancePredictions_validate r = ValidationError m)
  /\ (forall r, (exists m, MaintenancePredictions_validate r = ValidationError m)
                \/ MaintenancePredictions_validate r = Propagated NameError_v)
  /\ MaintenancePredictions_validate (prediction completed None None None)
     = ValidationError ["Value error, completed_at required when status is completed"]
  /\ MaintenancePredictions_validate
       (prediction completed None (Some (mkDatetime 86400000000 None)) None)
     = Propagated NameError_v.
Proof.
  assert (Hcases : forall r,
             (exists m, MaintenancePredictions_validate r = ValidationError m)
             \/ (MaintenancePredictions_validate r = Propagated NameError_v
                 /\ exists x, validate_status_transitions r = Return x)).
  { intros r. rewrite MaintenancePredictions_validate_eq.
    destruct (validate_prediction_dates_cases r) as [-> | [m ->]];
      [|left; eexists; reflexivity].
    destruct (validate_status_transitions_cases r) as [E | [m E]]; rewrite E;
      [right; split; [reflexivity|eauto] | left; eexists; reflexivity]. }
  assert (Hstatus : forall r,
             (exists x, validate_status_transitions r = Return x) ->
             (status r = Some completed -> completed_at r <> None)
             /\ (status r = Some acknowledged -> acknowledged_at r <> None)
             /\ (status r = Some scheduled -> scheduled_maintenance_date r <> None)).
  { intros r [x Hx]. unfold validate_status_transitions in Hx.
    repeat split; intros Hs Hnone; rewrite Hs, Hnone in Hx;
      cbn in Hx; unfold raise_ValueError in Hx;
      try discriminate; repeat (case_match; try discriminate). }
  split; [|split; [|split; [|split; [|split]]]].
  - intros r Hs Hn. destruct (Hcases r) as [Hv | [_ Hok]]; [exact Hv|].
    exfalso. destruct (Hstatus r Hok) as (Hc & _ & _). exact (Hc Hs Hn).
  - intros r Hs Hn. destruct (Hcases r) as [Hv | [_ Hok]]; [exact Hv|].
    exfalso. destruct (Hstatus r Hok) as (_ & Ha & _). exact (Ha Hs Hn).
  - intros r Hs Hn. destruct (Hcases r) as [Hv | [_ Hok]]; [exact Hv|].
    exfalso. destruct (Hstatus r Hok) as (_ & _ & Hsc). exact (Hsc Hs Hn).
  - intros r. destruct (Hcases r) as [Hv | [Hv _]]; auto.
  - reflexivity.
  - reflexivity.
Qed.

(** ** Statistical profiles *)

(** C8.  On the code, [validate_percentile_order] taken alone raises the
    error of the claim when percentile_25 exceeds percentile_75 or
    percentile_75 exceeds percentile_95 and returns the model otherwise;
    but no statistical profile is validated, ordered or not: the validator
    defined before it, [validate_std_deviation_non_negative], reads the
    unbound name [v] and construction ends in a NameError. *)
Theorem statistical_profile_construction_raises_NameError :
  (forall r, StatisticalProfile_validate r = Propagated NameError_v)
  /\ StatisticalProfile_validate (profile (Some 25%float) (Some 75%float) (Some 95%float))
     = Propagated NameError_v
  /\ StatisticalProfile_validate (profile (Some 80%float) (Some 50%float) None)
     = Propagated NameError_v
  /\ (forall r a b, percentile_25 r = Some a -> percentile_75 r = Some b ->
                    PrimFloat.ltb b a = true ->
                    of_result (validate_percentile_order r)
                    = ValidationError
                        ["Value error, 25th percentile cannot exceed 75th percentile"])
  /\ (forall r b c, percentile_75 r = Some b -> percentile_95 r = Some c ->
                    PrimFloat.ltb c b = true ->
                    exists m, of_result (validate_percentile_order r) = ValidationError m)
  /\ of_result (validate_percentile_order
                  (profile (Some 25%float) (Some 75%float) (Some 95%float)))
     = Validated (Instance (profile (Some 25%float) (Some 75%float) (Some 95%float)))
  /\ of_result (validate_percentile_order (profile (Some 80%float) (Some 50%float) None))
     = ValidationError ["Value error, 25th percentile cannot exceed 75th percentile"].
Proof.
  split; [|split; [|split; [|split; [|split; [|split]]]]]; try reflexivity.
  - intros r a b Ha Hb Hlt. unfold validate_percentile_order.
    now rewrite Ha, Hb, Hlt.
  - intros r b c Hb Hc Hlt. unfold validate_percentile_order.
    rewrite Hb, Hc, Hlt. destruct (percentile_25 r) as [a|]; [|eauto].
    destruct (PrimFloat.ltb b a); eauto.
Qed.

(** ** The statements above at concrete inputs *)

Lemma exit_code_policy_witness :
  let clean := ValidationResult_init "users" "schema_compliance" in
  _determine_exit_code (with_results (runner0 []) [clean; add_error "e" clean]) "error"
  = EXIT_HARD_FAILURE
  /\ _determine_exit_code (with_results (runner0 []) [clean; add_warning "w" clean]) "warn"
     = EXIT_SOFT_FAILURE
  /\ _determine_exit_code (with_results (runner0 []) [clean; add_warning "w" clean]) "error"
     = EXIT_SUCCESS
  /\ _determine_exit_code (with_results (runner0 []) [clean]) "warn" = EXIT_SUCCESS
  /\ run_validation clock0 (runner0 []) "nonexistent_table" "error" world0
     = ((EXIT_HARD_FAILURE, ErrorReport "No matching tables found", runner0 []),
        {| clock_reads := 0; api_calls := [CallListTables "diagnosticpro_prod"] |}).
Proof.
  cbv zeta.
  destruct (exit_code_policy clock0) as (Hhard & Hsoft & Hok & _ & _ & Hnone & _).
  split; [|split; [|split; [|split]]].
  - apply Hhard. eexists. split; [right; left|reflexivity].
  - apply Hsoft.
    + intros r [-> | ->%list_elem_of_singleton]%elem_of_cons; reflexivity.
    + eexists. split; [right; left|discriminate].
  - apply Hok.
    + intros r [-> | ->%list_elem_of_singleton]%elem_of_cons; reflexivity.
    + left. discriminate.
  - apply Hok.
    + intros r ->%list_elem_of_singleton. reflexivity.
    + right. intros r ->%list_elem_of_singleton. reflexivity.
  - apply (Hnone (runner0 []) "nonexistent_table" "error" world0). reflexivity.
Defined.


Lemma passed_iff_no_error_added_witness :
  let r := fst (validate_schema_compliance clock0 (failing_runner not_found) "users" world0) in
  (passed r = true <-> errors r = [])
  /\ passed r = false
  /\ passed (apply_calls [AddWarning "w"; AddWarning "w'"]
               (ValidationResult_init "users" "freshness_sla")) = true
  /\ passed (apply_calls [AddWarning "w"; AddError "e"; AddWarning "w'"]
               (ValidationResult_init "users" "freshness_sla")) = false.
Proof.
  cbv zeta.
  destruct (passed_iff_no_error_added clock0) as (Hcalls & _ & _ & Hstage & _ & Hinv & _).
  split; [|split; [reflexivity|split]].
  - apply (Hinv "users" "schema_compliance").
    apply (Hstage (failing_runner not_found) "users" world0).
  - apply (Hcalls "users" "freshness_sla" [AddWarning "w"; AddWarning "w'"]).
    repeat constructor.
  - apply not_true_is_false. intros Hp.
    apply (Hcalls "users" "freshness_sla"
             [AddWarning "w"; AddError "e"; AddWarning "w'"]) in Hp.
    apply Forall_cons in Hp as [_ Hp]. apply Forall_cons in Hp as [Hp _].
    discriminate.
Defined.

Lemma inventory_available_is_derived_witness :
  InventoryInfo_fields_valid (inventory 25 3 (Some 5) (Some 40)) = true
  /\ InventoryInfo_validate (inventory 25 3 (Some 5) (Some 40))
     = Validated (Instance (set_quantity_available (inventory 25 3 (Some 5) (Some 40)) 22))
  /\ InventoryInfo_validate (inventory 25 3 (Some 30) (Some 20))
     = InventoryInfo_validate
         (set_quantity_available (inventory 25 3 (Some 30) (Some 20)) 22)
  /\ InventoryInfo_fields_valid (inventory 10 15 None None) = true
  /\ InventoryInfo_validate (inventory 10 15 None None)
     = ValidationError ["Value error, Allocated quantity cannot exceed quantity on hand"].
Proof.
  destruct inventory_available_is_derived as (Hset & _ & _ & Hexceeds & _).
  split; [reflexivity|]. split; [|split; [|split; [reflexivity|]]].
  - apply (Hset (inventory 25 3 (Some 5) (Some 40)));
      [reflexivity|discriminate|discriminate|reflexivity].
  - apply (Hset (inventory 25 3 (Some 30) (Some 20)));
      [reflexivity|discriminate|discriminate].
  - apply (Hexceeds (inventory 10 15 None None)); reflexivity.
Defined.

Lemma risk_score_must_lie_in_the_band_of_its_level_witness :
  RiskAssessment_validate (risk (Some 0.5%float) (Some high))
  = ValidationError ["Value error, Risk score 0.5 inconsistent with risk level high"]
  /\ RiskAssessment_validate (risk (Some 0.25%float) (Some medium))
     = Validated (Instance (risk (Some 0.25%float) (Some medium))).
Proof.
  destruct (risk_score_must_lie_in_the_band_of_its_level reference_py) as (Hband & _).
  split.
  - apply (Hband (risk (Some 0.5%float) (Some high)) 0.5%float high
             eq_refl eq_refl eq_refl).
    reflexivity.
  - apply (Hband (risk (Some 0.25%float) (Some medium)) 0.25%float medium
             eq_refl eq_refl eq_refl).
    reflexivity.
Defined.

Lemma completed_prediction_with_timestamp_raises_NameError_witness :
  (exists m, MaintenancePredictions_validate (prediction completed None None None)
             = ValidationError m)
  /\ (exists m, MaintenancePredictions_validate (prediction acknowledged None None None)
                = ValidationError m)
  /\ (exists m, MaintenancePredictions_validate (prediction scheduled None None None)
                = ValidationError m).
Proof.
  destruct completed_prediction_with_timestamp_raises_NameError
    as (Hcompleted & Hacknowledged & Hscheduled & _).
  split; [|split].
  - apply Hcompleted; reflexivity.
  - apply Hacknowledged; reflexivity.
  - apply Hscheduled; reflexivity.
Defined.

Lemma statistical_profile_construction_raises_NameError_witness :
  of_result (validate_percentile_order (profile (Some 80%float) (Some 50%float) None))
  = ValidationError ["Value error, 25th percentile cannot exceed 75th percentile"]
  /\ (exists m,
       of_result (validate_percentile_order
                    (profile (Some 25%float) (Some 99%float) (Some 95%float)))
       = ValidationError m).
Proof.
  destruct statistical_profile_construction_raises_NameError
    as (_ & _ & _ & H2575 & H7595 & _).
  split.
  - apply (H2575 _ 80%float 50%float); reflexivity.
  - apply (H7595 _ 99%float 95%float); reflexivity.
Defined.

Lemma freshness_staleness_warning_witness :
  only_warnings
    (fst (validate_freshness_sla clock0
            (runner0 [fresh_row (Some (hours_ago 40)) (Some (hours_ago 10))])
            "users" world0))
    []
  /\ only_warnings
       (fst (validate_freshness_sla clock0
               (runner0 [fresh_row (Some (hours_ago 40)) (Some (hours_ago 30))])
               "users" world0))
       ["Data is stale: 30.0h > 24.0h threshold"].
Proof.
  destruct (freshness_staleness_warning clock0) as (Hstage & _).
  split.
  - refine (Hstage reference_py
              (runner0 [fresh_row (Some (hours_ago 40)) (Some (hours_ago 10))])
              "users" world0 _ _ 24%float 12%float _ [] (hours_ago 10)
              eq_refl eq_refl _ eq_refl eq_refl eq_refl eq_refl eq_refl).
    discriminate.
  - refine (Hstage reference_py
              (runner0 [fresh_row (Some (hours_ago 40)) (Some (hours_ago 30))])
              "users" world0 _ _ 24%float 12%float _ [] (hours_ago 30)
              eq_refl eq_refl _ eq_refl eq_refl eq_refl eq_refl eq_refl).
    discriminate.
Defined.

(* ===================================================================== *)
(** * Further properties of the runner                                     *)
(* ===================================================================== *)

Import RunnerTerms.

(** ** Table matching *)

Lemma filter_sublist {A} (f : A -> bool) (l : list A) : sublist (List.filter f l) l.
Proof.
  induction l as [|x l IH]; cbn; [constructor|].
  destruct (f x); now constructor.
Qed.

(** X1. The tables a run validates are tables the warehouse listed, in the
    order of the listing: the pattern "*" keeps them all, any other
    pattern keeps those its regular expression matches.  When the listing
    raises, or the pattern does not compile, no table matches and the run
    ends with EXIT_HARD_FAILURE and the report "No matching tables found",
    whatever [fail_on] is. *)
Theorem matching_tables_come_from_the_listing `{PyLib} (clock : Clock)
    self table_pattern fail_on w :
  let tables := fst (get_matching_tables self table_pattern w) in
  let regex_source :=
    "^" +:+ replace_char "?" "." (replace_char "*" ".*" table_pattern) +:+ "$" in
  (forall listing,
      list_tables (client self) (dataset_id self) = Return listing ->
      sublist tables listing
      /\ (table_pattern = "*" -> tables = listing)
      /\ (table_pattern <> "*" ->
          forall regex, re_compile regex_source = Return regex ->
                        tables = List.filter regex listing)
      /\ (table_pattern <> "*" ->
          forall e, re_compile regex_source = Raise e -> tables = []))
  /\ (forall e, list_tables (client self) (dataset_id self) = Raise e -> tables = [])
  /\ (tables = [] ->
      fst (run_validation clock self table_pattern fail_on w)
      = (EXIT_HARD_FAILURE, ErrorReport "No matching tables found", self)).
Proof.
  intros tables regex_source. subst tables regex_source.
  split; [|split].
  - intros listing Hl.
    unfold get_matching_tables, mbind, call_list_tables, log_call, ret.
    cbn [fst snd]. rewrite Hl. cbn [fst].
    destruct (String.eqb table_pattern "*") eqn:Hp.
    + apply String.eqb_eq in Hp. subst. cbn. repeat split; try reflexivity; congruence.
    + apply String.eqb_neq in Hp.
      destruct (re_compile _) as [regex|e]; cbn [fst].
      * split; [apply filter_sublist|]. split; [congruence|].
        split; [intros _ regex' [= <-]; reflexivity|intros _ e' [=]].
      * split; [apply sublist_nil_l|]. split; [congruence|].
        split; [intros _ regex [=]|reflexivity].
  - intros e He.
    unfold get_matching_tables, mbind, call_list_tables, log_call, ret.
    cbn [fst snd]. rewrite He. reflexivity.
  - unfold run_validation, mbind.
    destruct (get_matching_tables self table_pattern w) as [tables w1].
    cbn [fst]. intros ->. reflexivity.
Qed.

Lemma matching_tables_come_from_the_listing_witness :
  fst (get_matching_tables (runner0 []) "user*" world0) = ["users"]
  /\ fst (get_matching_tables (runner0 []) "*" world0) = ["users"; "parts_inventory"]
  /\ fst (run_validation clock0 (runner0 []) "users,parts_inventory" "error" world0)
     = (EXIT_HARD_FAILURE, ErrorReport "No matching tables found", runner0 []).
Proof.
  destruct (matching_tables_come_from_the_listing clock0 (runner0 []) "user*"
              "error" world0) as (Hlisted & _ & _).
  destruct (Hlisted ["users"; "parts_inventory"] eq_refl) as (_ & _ & Hregex & _).
  destruct (matching_tables_come_from_the_listing clock0 (runner0 []) "*"
              "error" world0) as (Hall & _ & _).
  destruct (Hall ["users"; "parts_inventory"] eq_refl) as (_ & Hstar & _).
  destruct (matching_tables_come_from_the_listing clock0 (runner0 [])
              "users,parts_inventory" "error" world0) as (_ & _ & Hnone).
  split; [|split].
  - rewrite (Hregex ltac:(discriminate) _ eq_refl). reflexivity.
  - apply Hstar. reflexivity.
  - apply Hnone. reflexivity.
Defined.

(** ** The schema stage *)

Lemma schema_fields_of_is_Some (table : Table) (n : string) :
  is_Some (schema_fields_of table !! n) <-> n ∈ map field_name (table_schema table).
Proof.
  unfold schema_fields_of.
  assert (Hgen : forall (l : list SchemaField) (m : gmap string SchemaField),
             is_Some (foldl (fun m f => <[field_name f := f]> m) m l !! n)
             <-> is_Some (m !! n) \/ n ∈ map field_name l).
  { induction l as [|f l IH]; intros m; cbn.
    - split; [auto|]. intros [Hm | Hin]; [exact Hm|]. inversion Hin.
    - rewrite IH, elem_of_cons. destruct (decide (field_name f = n)) as [<- | Hne].
      + rewrite lookup_insert_eq. split; [intros _; right; left; reflexivity|].
        intros _. left. eauto.
      + rewrite lookup_insert_ne by exact Hne. split.
        * intros [Hm | Hin]; auto.
        * intros [Hm | [Heq | Hin]]; auto. congruence. }
  rewrite Hgen, lookup_empty. split; [intros [[x Hx] | Hin]; [discriminate|exact Hin]|auto].
Qed.

Lemma check_required_fields_fields sf req r :
  let r' := check_required_fields sf req r in
  errors r' = errors r ++ map missing_field_message (List.filter (is_missing sf) req)
  /\ warnings r' = warnings r /\ details r' = details r /\ duration r' = duration r
  /\ name r' = name r /\ category r' = category r.
Proof.
  unfold check_required_fields. revert r.
  induction req as [|f req IH]; intros r; cbn.
  - rewrite app_nil_r. repeat split.
  - unfold is_missing at 1. destruct (sf !! f) eqn:E.
    + apply IH.
    + destruct (IH (add_error ("Required field '" +:+ f +:+ "' missing from schema") r))
        as (He & Hw & Hd & Hu & Hn & Hc).
      cbn in He. rewrite <- app_assoc in He. repeat split; assumption.
Qed.

Lemma check_field_types_cons sf d defs r :
  check_field_types sf (d :: defs) r
  = check_field_types sf defs
      (match mismatch sf d with Some m => add_error m r | None => r end).
Proof.
  unfold check_field_types. cbn [foldl]. f_equal.
  unfold mismatch, expected_type, type_mismatch_message.
  destruct (sf !! d.1); [|reflexivity]. destruct (negb _ && negb _); reflexivity.
Qed.

Lemma check_field_types_fields sf defs r :
  let r' := check_field_types sf defs r in
  errors r' = errors r ++ omap (mismatch sf) defs
  /\ warnings r' = warnings r /\ details r' = details r /\ duration r' = duration r
  /\ name r' = name r /\ category r' = category r.
Proof.
  revert r. induction defs as [|d defs IH]; intros r.
  - cbn. rewrite app_nil_r. repeat split.
  - cbv zeta. rewrite check_field_types_cons.
    change (omap (mismatch sf) (d :: defs))
      with (match mismatch sf d with
            | Some y => y :: omap (mismatch sf) defs
            | None => omap (mismatch sf) defs
            end).
    destruct (mismatch sf d) as [m|].
    + destruct (IH (add_error m r)) as (He & Hw & Hd & Hu & Hn & Hc).
      cbn in He. rewrite <- app_assoc in He. repeat split; assumption.
    + apply IH.
Qed.

(** X2. For a table the warehouse has and the contracts file covers, the
    schema stage reports one hard error per required field that no field
    of the table is named after, in the order of the contract, followed by
    one per declared field that the table has with a type other than the
    declared one in upper case; a declaration without a type, and a
    declared field the table lacks and the contract does not require, are
    no error.  The stage passes exactly when there is no such error, adds
    no warning, and records the three field counts. *)
Theorem schema_compliance_verdict `{PyLib} (clock : Clock) self t w table c contract :
  get_table (client self) (dataset_id self) t = Return table ->
  table_contracts self = Dict c ->
  dict_get (default [] (tables c)) t = Some contract ->
  let r := fst (validate_schema_compliance clock self t w) in
  let schema_fields := schema_fields_of table in
  errors r
  = map missing_field_message
        (List.filter (is_missing schema_fields) (contract_required contract))
    ++ omap (mismatch schema_fields) (contract_fields contract)
  /\ warnings r = []
  /\ (passed r = true <->
      (forall f, f ∈ contract_required contract ->
                 f ∈ map field_name (table_schema table))
      /\ (forall n def field,
             (n, def) ∈ contract_fields contract ->
             schema_fields !! n = Some field ->
             expected_type def = "" \/ field_type field = expected_type def))
  /\ details r !! "table_schema"
     = Some (TableSchemaDetail (size schema_fields)
               (length (contract_required contract))
               (length (contract_fields contract))).
Proof.
  intros Ht Hc Hcontract r schema_fields.
  assert (Hwritten : written_from (ValidationResult_init t "schema_compliance") r)
    by apply schema_stage_written.
  apply stage_result_passed_iff in Hwritten as (_ & _ & Hpassed).
  assert (Hr : errors r
               = map missing_field_message
                   (List.filter (is_missing schema_fields) (contract_required contract))
                 ++ omap (mismatch schema_fields) (contract_fields contract)
               /\ warnings r = []
               /\ details r !! "table_schema"
                  = Some (TableSchemaDetail (size schema_fields)
                            (length (contract_required contract))
                            (length (contract_fields contract)))).
  { subst r.
    unfold validate_schema_compliance, mbind, time_time, call_get_table, log_call, ret.
    cbn -[check_required_fields check_field_types schema_fields_of].
    rewrite Ht, Hc. cbn -[check_required_fields check_field_types schema_fields_of].
    rewrite Hcontract.
    fold (contract_required contract) (contract_fields contract).
    fold schema_fields.
    set (r0 := ValidationResult_init t "schema_compliance").
    destruct (check_required_fields_fields schema_fields (contract_required contract) r0)
      as (He1 & Hw1 & _).
    destruct (check_field_types_fields schema_fields (contract_fields contract)
                (check_required_fields schema_fields (contract_required contract) r0))
      as (He2 & Hw2 & _).
    cbn -[check_required_fields check_field_types schema_fields_of].
    rewrite He2, He1, Hw2, Hw1. cbn. rewrite lookup_insert_eq. repeat split. }
  destruct Hr as (He & Hw & Hd).
  split; [exact He|]. split; [exact Hw|]. split; [|exact Hd].
  rewrite Hpassed, He. split.
  - intros [Hmiss Hmis]%app_eq_nil. split.
    + intros f Hf. apply schema_fields_of_is_Some. fold schema_fields.
      destruct (schema_fields !! f) eqn:E; [eauto|].
      exfalso. apply map_eq_nil in Hmiss.
      assert (In f (List.filter (is_missing schema_fields) (contract_required contract))).
      { apply filter_In. split; [now apply list_elem_of_In|].
        unfold is_missing. now rewrite E. }
      rewrite Hmiss in H0. contradiction.
    + intros n def field Hin Hlook.
      assert (Hnone : mismatch schema_fields (n, def) = None).
      { destruct (mismatch schema_fields (n, def)) eqn:E; [|reflexivity].
        exfalso.
        assert (s ∈ omap (mismatch schema_fields) (contract_fields contract)).
        { apply list_elem_of_omap. exists (n, def). split; assumption. }
        rewrite Hmis in H0. inversion H0. }
      unfold mismatch in Hnone. cbn [fst snd] in Hnone. rewrite Hlook in Hnone.
      destruct (String.eqb (expected_type def) "") eqn:E1;
        [left; now apply String.eqb_eq|].
      destruct (String.eqb (field_type field) (expected_type def)) eqn:E2;
        [right; now apply String.eqb_eq|].
      discriminate.
  - intros [Hreq Hdecl].
    enough (Hboth : List.filter (is_missing schema_fields) (contract_required contract) = []
                    /\ omap (mismatch schema_fields) (contract_fields contract) = [])
      by (destruct Hboth as [-> ->]; reflexivity).
    split.
    + destruct (List.filter _ _) as [|f l] eqn:E; [reflexivity|exfalso].
      assert (Hin : In f (List.filter (is_missing schema_fields) (contract_required contract)))
        by (rewrite E; left; reflexivity).
      apply filter_In in Hin as [Hin Hmiss]. apply list_elem_of_In in Hin.
      apply Hreq, schema_fields_of_is_Some in Hin as [x Hx].
      fold schema_fields in Hx. unfold is_missing in Hmiss. rewrite Hx in Hmiss.
      discriminate.
    + destruct (omap _ _) as [|m l] eqn:E; [reflexivity|exfalso].
      assert (Hin : m ∈ omap (mismatch schema_fields) (contract_fields contract))
        by (rewrite E; left).
      apply list_elem_of_omap in Hin as ([n def] & Hin & Hm).
      unfold mismatch in Hm. cbn [fst snd] in Hm.
      destruct (schema_fields !! n) as [field|] eqn:Hlook; [|discriminate].
      destruct (Hdecl n def field Hin Hlook) as [Hempty | Hsame].
      * rewrite Hempty in Hm. discriminate.
      * rewrite Hsame, String.eqb_refl, andb_false_r in Hm. discriminate.
Qed.

Lemma schema_compliance_verdict_witness :
  let r := fst (validate_schema_compliance clock0 (runner0 []) "users" world0) in
  errors r = [] /\ warnings r = [] /\ passed r = true.
Proof.
  cbv zeta.
  destruct (schema_compliance_verdict clock0 (runner0 []) "users" world0 users_schema
              _ _ eq_refl eq_refl eq_refl) as (He & Hw & _ & _).
  split; [exact He|]. split; [exact Hw|reflexivity].
Defined.

(** ** The data constraint stage *)

Lemma check_timestamp_row_fields row r :
  errors (check_timestamp_row row r) = errors r ++ timestamp_errors row
  /\ warnings (check_timestamp_row row r) = warnings r.
Proof.
  unfold check_timestamp_row, timestamp_errors.
  destruct (0 <? null_created_at row), (0 <? future_created_at row),
    (0 <? invalid_updated_at row); cbn; rewrite <- ?app_assoc, ?app_nil_r; auto.
Qed.

Lemma timestamp_errors_nil row :
  timestamp_errors row = []
  <-> null_created_at row <= 0 /\ future_created_at row <= 0 /\ invalid_updated_at row <= 0.
Proof.
  unfold timestamp_errors.
  destruct (Z.ltb_spec 0 (null_created_at row)), (Z.ltb_spec 0 (future_created_at row)),
    (Z.ltb_spec 0 (invalid_updated_at row)); cbn; split;
    try discriminate; try lia; auto.
Qed.

(** X3. With rules for the table, the data constraint stage queries the
    warehouse only when the effective rules have a non-empty [timestamps]
    section, and then once.  Of the answer it reads the first row alone:
    the hard errors are those of the counts of rows with a NULL
    created_at, a future created_at and an updated_at before created_at,
    in this order, and the stage passes exactly when none of the three
    counts is positive.  The count of NULL updated_at that the query also
    returns is never an error; an answer without rows, and rules without
    timestamp rules, pass without error or warning. *)
Theorem data_constraints_verdict `{PyLib} (clock : Clock) self t w q :
  quality_rules self = Dict q ->
  no_rules (effective_rules q t) = false ->
  let r := fst (validate_data_constraints clock self t w) in
  let w' := snd (validate_data_constraints clock self t w) in
  (default [] (timestamps (effective_rules q t)) = [] ->
   only_warnings r [] /\ api_calls w' = api_calls w)
  /\ (default [] (timestamps (effective_rules q t)) <> [] ->
      api_calls w'
      = api_calls w ++ [CallQueryTimestamps (project_id self) (dataset_id self) t]
      /\ (query_timestamps (client self) (project_id self) (dataset_id self) t = Return [] ->
          only_warnings r [])
      /\ (forall row rest,
             query_timestamps (client self) (project_id self) (dataset_id self) t
             = Return (row :: rest) ->
             errors r = timestamp_errors row
             /\ warnings r = []
             /\ (passed r = true <->
                 null_created_at row <= 0 /\ future_created_at row <= 0
                 /\ invalid_updated_at row <= 0))).
Proof.
  intros Hq Hno r w'.
  assert (Hwritten : written_from (ValidationResult_init t "data_constraints") r)
    by apply constraints_stage_written.
  apply stage_result_passed_iff in Hwritten as (_ & _ & Hpassed).
  revert Hpassed. subst r w'.
  unfold validate_data_constraints, mbind, time_time, call_query_timestamps, log_call, ret.
  rewrite Hq. cbn [config_get Py.bind]. fold (effective_rules q t). rewrite Hno.
  set (r0 := foldl _ (ValidationResult_init t "data_constraints") _).
  assert (Hr0 : only_warnings r0 []).
  { subst r0. apply pattern_details_only_warnings. repeat split. }
  clearbody r0. destruct Hr0 as (Hp0 & He0 & Hw0).
  destruct (default [] (timestamps (effective_rules q t))) as [|x l].
  - intros _. split; [|congruence]. intros _. cbn. repeat split; assumption.
  - intros Hpassed. split; [congruence|]. intros _. cbn [fst snd] in *.
    destruct (query_timestamps _ _ _ _) as [[|row rest]|e];
      cbn -[check_timestamp_row] in *.
    + split; [reflexivity|]. split; [|intros ? ? [=]]. intros _. repeat split; assumption.
    + split; [reflexivity|]. split; [intros [=]|]. intros row' rest' [= <- <-].
      destruct (check_timestamp_row_fields row r0) as (He & Hw).
      rewrite He, He0 in *. rewrite Hw, Hw0. cbn -[check_timestamp_row] in *.
      split; [reflexivity|]. split; [reflexivity|].
      rewrite Hpassed. apply timestamp_errors_nil.
    + split; [reflexivity|]. split; [intros [=]|intros ? ? [=]].
Qed.

Lemma data_constraints_verdict_witness :
  let r := fst (validate_data_constraints clock0 (runner0 []) "users" world0) in
  errors r = [] /\ warnings r = [] /\ passed r = true.
Proof.
  cbv zeta.
  destruct (data_constraints_verdict clock0 (runner0 []) "users" world0 _
              eq_refl eq_refl) as (_ & Hquery).
  destruct (Hquery ltac:(discriminate)) as (_ & _ & Hrow).
  destruct (Hrow clean_row [] eq_refl) as (He & Hw & Hp).
  split; [exact He|]. split; [exact Hw|]. apply Hp. cbn. lia.
Defined.

(** ** The freshness stage: which SLA entry, and the outcomes without a
    staleness *)

Import MoreReference.

(** X4. The SLA entry of a table is the one under [live_data_tables] when
    that category lists the table, and otherwise the one under
    [core_tables]; no other category is read.  The first listing wins even
    when it is empty: a table listed under [live_data_tables] with no
    threshold gets the warning "No SLA configuration found", and no query,
    although [core_tables] has thresholds for it. *)
Theorem sla_entry_first_category_wins `{PyLib} (clock : Clock) :
  (forall c t live entry,
      dict_get (default [] (freshness_slas c)) "live_data_tables" = Some live ->
      dict_get live t = Some entry ->
      sla_entry c t = Some entry)
  /\ (forall c t,
      (forall live, dict_get (default [] (freshness_slas c)) "live_data_tables" = Some live ->
                    dict_get live t = None) ->
      sla_entry c t
      = (core ← dict_get (default [] (freshness_slas c)) "core_tables"; dict_get core t))
  /\ (forall c c' t,
      dict_get (default [] (freshness_slas c)) "live_data_tables"
      = dict_get (default [] (freshness_slas c')) "live_data_tables" ->
      dict_get (default [] (freshness_slas c)) "core_tables"
      = dict_get (default [] (freshness_slas c')) "core_tables" ->
      sla_entry c t = sla_entry c' t)
  /\ (forall self t w c,
      sla_config self = Dict c ->
      sla_entry c t = Some [] ->
      only_warnings (fst (validate_freshness_sla clock self t w))
        ["No SLA configuration found for " +:+ t]
      /\ api_calls (snd (validate_freshness_sla clock self t w)) = api_calls w).
Proof.
  unfold sla_entry, sla_categories. split; [|split; [|split]].
  - intros c t live entry Hlive Hentry. cbn. now rewrite Hlive, Hentry.
  - intros c t Hnot. cbn.
    destruct (dict_get _ "live_data_tables") as [live|].
    + rewrite (Hnot live eq_refl).
      destruct (dict_get _ "core_tables") as [core|]; cbn; [|reflexivity].
      destruct (dict_get core t); reflexivity.
    + destruct (dict_get _ "core_tables") as [core|]; cbn; [|reflexivity].
      destruct (dict_get core t); reflexivity.
  - intros c c' t Hlive Hcore. cbn. now rewrite Hlive, Hcore.
  - intros self t w c Hc Hentry.
    unfold validate_freshness_sla, mbind, time_time, ret.
    rewrite Hc. cbn [config_get]. rewrite Hentry. cbn. repeat split.
Qed.

Lemma sla_entry_first_category_wins_witness :
  only_warnings
    (fst (validate_freshness_sla clock0
            (runner_with_sla sla_shadowed [fresh_row None (Some (hours_ago 30))])
            "users" world0))
    ["No SLA configuration found for users"].
Proof.
  destruct (sla_entry_first_category_wins clock0) as (_ & _ & _ & Hempty).
  refine (proj1 (Hempty (runner_with_sla sla_shadowed _) "users" world0 _ eq_refl eq_refl)).
Defined.

(** X5. With an SLA entry for the table, the freshness stage ends in
    exactly one warning and no staleness comparison in three cases.  A
    threshold that [float] cannot read gives "Freshness validation
    failed" before any query is issued.  An answer without rows, or whose
    first row counts no row, gives "Table ... is empty".  A first row
    with rows but neither timestamp gives "No timestamp data found for
    freshness check".  A threshold the entry leaves out is read as "24h"
    for max_staleness and "12h" for late_arrival_threshold. *)
Theorem freshness_outcomes_without_staleness `{PyLib} (clock : Clock)
    self t w c entry :
  sla_config self = Dict c ->
  sla_entry c t = Some entry ->
  entry <> [] ->
  let r := fst (validate_freshness_sla clock self t w) in
  let w' := snd (validate_freshness_sla clock self t w) in
  let max_staleness := default "24h" (dict_get entry "max_staleness") in
  let late_threshold := default "12h" (dict_get entry "late_arrival_threshold") in
  (forall e, _parse_duration max_staleness = Raise e ->
             only_warnings r ["Freshness validation failed: " +:+ exc_str e]
             /\ api_calls w' = api_calls w)
  /\ (forall sh e, _parse_duration max_staleness = Return sh ->
                   _parse_duration late_threshold = Raise e ->
                   only_warnings r ["Freshness validation failed: " +:+ exc_str e]
                   /\ api_calls w' = api_calls w)
  /\ (forall sh th, _parse_duration max_staleness = Return sh ->
                    _parse_duration late_threshold = Return th ->
      api_calls w'
      = api_calls w ++ [CallQueryFreshness (project_id self) (dataset_id self) t]
      /\ (query_freshness (client self) (project_id self) (dataset_id self) t = Return [] ->
          only_warnings r ["Table " +:+ t +:+ " is empty"])
      /\ (forall row rest,
             query_freshness (client self) (project_id self) (dataset_id self) t
             = Return (row :: rest) ->
             (fr_total_rows row <= 0 ->
              only_warnings r ["Table " +:+ t +:+ " is empty"])
             /\ (0 < fr_total_rows row ->
                 latest_updated_at row = None -> latest_created_at row = None ->
                 only_warnings r ["No timestamp data found for freshness check"]))).
Proof.
  intros Hc Hentry Hne r w' max_staleness late_threshold.
  subst r w' max_staleness late_threshold. unfold sla_entry, sla_categories in Hentry.
  unfold validate_freshness_sla, mbind, time_time, call_query_freshness, log_call, ret.
  rewrite Hc. cbn [config_get]. rewrite Hentry.
  destruct entry as [|kv entry]; [congruence|].
  set (max_staleness := default "24h" _). set (late_threshold := default "12h" _).
  split; [|split].
  - intros e He. rewrite He. cbn. repeat split.
  - intros sh e Hsh He. rewrite Hsh. cbn [Py.bind]. rewrite He. cbn. repeat split.
  - intros sh th Hsh Hth. rewrite Hsh. cbn [Py.bind]. rewrite Hth.
    cbn -[check_freshness].
    destruct (query_freshness _ _ _ _) as [rows|e]; cbn -[check_freshness].
    + match goal with
      | |- context [check_freshness ?c ?t ?a ?b ?rows ?r ?w] =>
          assert (Hworld : api_calls (snd (check_freshness c t a b rows r w)) = api_calls w)
      end.
      { unfold check_freshness, mbind, utcnow, ret.
        repeat (case_match; cbn); reflexivity. }
      split.
      { revert Hworld. destruct (check_freshness _ _ _ _ _ _ _). cbn. auto. }
      split.
      * intros [= ->]. cbn. repeat split.
      * intros row rest [= ->]. split.
        -- intros Hrows. unfold check_freshness.
           apply Z.ltb_ge in Hrows. rewrite Hrows. cbn. repeat split.
        -- intros Hrows Hu Hcr. unfold check_freshness.
           apply Z.ltb_lt in Hrows. rewrite Hrows, Hu, Hcr. cbn. repeat split.
    + split; [reflexivity|]. split; [intros [=]|intros ? ? [=]].
Qed.

Lemma freshness_outcomes_without_staleness_witness :
  only_warnings
    (fst (validate_freshness_sla clock0 (runner0 []) "users" world0))
    ["Table users is empty"]
  /\ only_warnings
       (fst (validate_freshness_sla clock0 (runner0 [fresh_row None None]) "users" world0))
       ["No timestamp data found for freshness check"]
  /\ only_warnings
       (fst (validate_freshness_sla clock0
               (runner_with_sla sla_unparsable [fresh_row None (Some (hours_ago 30))])
               "users" world0))
       ["Freshness validation failed: could not convert string to float: 'one day'"].
Proof.
  split; [|split].
  - destruct (freshness_outcomes_without_staleness clock0 (runner0 []) "users" world0
                _ _ eq_refl eq_refl ltac:(discriminate)) as (_ & _ & Hquery).
    destruct (Hquery 24%float 12%float eq_refl eq_refl) as (_ & Hempty & _).
    apply Hempty. reflexivity.
  - destruct (freshness_outcomes_without_staleness clock0
                (runner0 [fresh_row None None]) "users" world0
                _ _ eq_refl eq_refl ltac:(discriminate)) as (_ & _ & Hquery).
    destruct (Hquery 24%float 12%float eq_refl eq_refl) as (_ & _ & Hrow).
    destruct (Hrow _ _ eq_refl) as (_ & Hnone).
    apply Hnone; reflexivity.
  - destruct (freshness_outcomes_without_staleness clock0
                (runner_with_sla sla_unparsable [fresh_row None (Some (hours_ago 30))])
                "users" world0 _ _ eq_refl eq_refl ltac:(discriminate)) as (Hbad & _).
    refine (proj1 (Hbad _ eq_refl)).
Defined.

(** ** The run over several tables *)

(** X6. A configuration file that is an empty document loads as [None],
    not as a dictionary.  With such a contracts file the schema stage
    fails for every table, whatever the warehouse answers; with such a
    rules file the data stage fails with one error and issues no query;
    with such an SLA file the freshness stage only warns.  So a run over
    at least one table with an empty contracts or rules file exits with
    EXIT_HARD_FAILURE, whatever [fail_on] is. *)
Theorem empty_configuration_document `{PyLib} (clock : Clock) self :
  (table_contracts self = NotADict ->
   forall t w,
     let r := fst (validate_schema_compliance clock self t w) in
     passed r = false
     /\ (forall table, get_table (client self) (dataset_id self) t = Return table ->
                       errors r = ["Schema validation failed: " +:+ no_get]))
  /\ (quality_rules self = NotADict ->
      forall t w,
        let r := fst (validate_data_constraints clock self t w) in
        passed r = false
        /\ errors r = ["Data constraint validation failed: " +:+ no_get]
        /\ warnings r = []
        /\ api_calls (snd (validate_data_constraints clock self t w)) = api_calls w)
  /\ (sla_config self = NotADict ->
      forall t w,
        only_warnings (fst (validate_freshness_sla clock self t w))
          ["Freshness validation failed: " +:+ no_get]
        /\ api_calls (snd (validate_freshness_sla clock self t w)) = api_calls w)
  /\ (table_contracts self = NotADict \/ quality_rules self = NotADict ->
      forall table_pattern fail_on w,
        fst (get_matching_tables self table_pattern w) <> [] ->
        fst (fst (fst (run_validation clock self table_pattern fail_on w)))
        = EXIT_HARD_FAILURE).
Proof.
  assert (Hschema : table_contracts self = NotADict -> forall t w,
            passed (fst (validate_schema_compliance clock self t w)) = false
            /\ (forall table, get_table (client self) (dataset_id self) t = Return table ->
                  errors (fst (validate_schema_compliance clock self t w))
                  = ["Schema validation failed: " +:+ no_get])).
  { intros Hc t w.
    unfold validate_schema_compliance, mbind, time_time, call_get_table, log_call, ret.
    rewrite Hc. cbn.
    destruct (get_table _ _ _) as [table|e]; cbn.
    - split; [reflexivity|]. intros _ _. reflexivity.
    - destruct (is_NotFound e); cbn; (split; [reflexivity|intros ? [=]]). }
  assert (Hdata : quality_rules self = NotADict -> forall t w,
            passed (fst (validate_data_constraints clock self t w)) = false
            /\ errors (fst (validate_data_constraints clock self t w))
               = ["Data constraint validation failed: " +:+ no_get]
            /\ warnings (fst (validate_data_constraints clock self t w)) = []
            /\ api_calls (snd (validate_data_constraints clock self t w)) = api_calls w).
  { intros Hc t w. unfold validate_data_constraints, mbind, time_time, ret.
    rewrite Hc. cbn. repeat split. }
  split; [exact Hschema|]. split; [exact Hdata|]. split.
  - intros Hc t w. unfold validate_freshness_sla, mbind, time_time, ret.
    rewrite Hc. cbn. repeat split.
  - intros Hc table_pattern fail_on w Htables.
    unfold run_validation, mbind at 1.
    destruct (get_matching_tables self table_pattern w) as [tables w0].
    cbn [fst] in Htables. destruct tables as [|t tables]; [congruence|].
    unfold mbind at 1.
    destruct (validate_tables_stage_results clock (t :: tables) self w0)
      as (new & Hres & Hin).
    destruct (validate_tables clock self (t :: tables) w0) as [self' w'].
    cbn [fst] in Hres. subst self'.
    unfold mbind, _generate_summary, utcnow, ret. cbn [fst].
    unfold _determine_exit_code.
    assert (Hfailed : existsb (fun r => negb (passed r))
                        (results (with_results self (results self ++ new))) = true).
    { apply has_errors_spec. cbn [results with_results].
      destruct (Hin t (list_elem_of_here _ _)) as ((w1 & H1) & (w2 & H2) & _).
      destruct Hc as [Hc|Hc].
      - eexists. split; [apply elem_of_app; right; exact H1|].
        apply (Hschema Hc).
      - eexists. split; [apply elem_of_app; right; exact H2|].
        apply (Hdata Hc). }
    rewrite Hfailed. reflexivity.
Qed.

Lemma empty_configuration_document_witness :
  fst (fst (fst (run_validation clock0 runner_with_empty_files "users" "error" world0)))
  = EXIT_HARD_FAILURE
  /\ errors (fst (validate_schema_compliance clock0 runner_with_empty_files "users" world0))
     = ["Schema validation failed: 'NoneType' object has no attribute 'get'"].
Proof.
  destruct (empty_configuration_document clock0 runner_with_empty_files)
    as (Hschema & _ & _ & Hrun).
  split.
  - apply Hrun; [left; reflexivity|]. vm_compute. discriminate.
  - refine (proj2 (Hschema eq_refl "users" world0) _ _). reflexivity.
Defined.

(** ** The summary and the exit code *)

Lemma sum_of_ones {A} (l : list A) : sumZ (map (fun _ => 1) l) = Z.of_nat (length l).
Proof. induction l as [|a l IH]; cbn [map sumZ foldr length]; [reflexivity|]. fold (sumZ (map (fun _ : A => 1) l)). lia. Qed.

Lemma count_passed_failed rs :
  count_passed rs + count_failed rs = Z.of_nat (length rs).
Proof.
  unfold count_passed, count_failed.
  induction rs as [|r rs IH]; cbn [List.filter length]; [reflexivity|].
  destruct (passed r); cbn [negb length]; lia.
Qed.

Lemma count_failed_positive rs :
  existsb (fun r => negb (passed r)) rs = (0 <? count_failed rs).
Proof.
  unfold count_failed. induction rs as [|r rs IH]; [reflexivity|].
  cbn [existsb List.filter]. destruct (passed r); cbn [negb orb length].
  - exact IH.
  - symmetry. apply Z.ltb_lt. lia.
Qed.

Lemma count_warnings_nonneg rs : 0 <= count_warnings rs.
Proof.
  unfold count_warnings. induction rs as [|r rs IH]; cbn [map sumZ foldr]; [lia|].
  fold (sumZ (map (fun r => Z.of_nat (length (warnings r))) rs)). lia.
Qed.

Lemma count_warnings_positive rs :
  existsb (fun r => match warnings r with [] => false | _ => true end) rs
  = (0 <? count_warnings rs).
Proof.
  induction rs as [|r rs IH]; [reflexivity|].
  cbn [existsb]. unfold count_warnings. cbn [map sumZ foldr].
  fold (sumZ (map (fun r => Z.of_nat (length (warnings r))) rs)).
  fold (count_warnings rs). pose proof (count_warnings_nonneg rs) as Hnn.
  destruct (warnings r) as [|m ms]; cbn [orb length].
  - rewrite IH. reflexivity.
  - symmetry. apply Z.ltb_lt. lia.
Qed.

Lemma failed_at_most_errors rs :
  Forall (fun r => passed r = true <-> errors r = []) rs ->
  count_failed rs <= count_errors rs.
Proof.
  unfold count_failed, count_errors.
  induction 1 as [|r rs Hr _ IH]; cbn [List.filter map sumZ foldr length]; [lia|].
  fold (sumZ (map (fun r => Z.of_nat (length (errors r))) rs)).
  destruct (passed r) eqn:Hp; cbn [negb length].
  - lia.
  - destruct (errors r) as [|e es]; [|cbn [length]; lia].
    destruct Hr as [_ Hr]. specialize (Hr eq_refl). discriminate.
Qed.

Lemma category_counts_snoc rs r :
  category_counts (rs ++ [r])
  = {| cat_passed := if passed r then cat_passed (category_counts rs) + 1
                     else cat_passed (category_counts rs);
       cat_failed := if passed r then cat_failed (category_counts rs)
                     else cat_failed (category_counts rs) + 1;
       cat_warnings := cat_warnings (category_counts rs)
                       + Z.of_nat (length (warnings r)) |}.
Proof.
  unfold category_counts, count_passed, count_failed, count_warnings. cbn.
  rewrite !List.filter_app, !length_app, map_app. cbn [List.filter map].
  assert (Hsum : forall l x, sumZ (l ++ [x]) = sumZ l + x).
  { induction l as [|a l IH]; intros x; cbn; [lia|]. fold (sumZ (l ++ [x])).
    fold (sumZ l). rewrite IH. lia. }
  rewrite Hsum. destruct (passed r); cbn [negb length]; f_equal; lia.
Qed.

Lemma group_by_category_lookup rs c :
  group_by_category rs !! c
  = match of_category c rs with
    | [] => None
    | l => Some (category_counts l)
    end.
Proof.
  induction rs as [|r rs IH] using rev_ind; [reflexivity|].
  unfold group_by_category. rewrite foldl_app. cbn [foldl].
  fold (group_by_category rs).
  unfold of_category. rewrite List.filter_app. cbn [List.filter].
  fold (of_category c rs) in *.
  destruct (String.eqb (category r) c) eqn:Hc.
  - apply String.eqb_eq in Hc. subst c. rewrite lookup_insert_eq, IH.
    transitivity (Some (category_counts (of_category (category r) rs ++ [r])));
      [|now destruct (of_category (category r) rs)].
    rewrite category_counts_snoc.
    destruct (of_category (category r) rs) as [|a l]; reflexivity.
  - apply String.eqb_neq in Hc. rewrite lookup_insert_ne by exact Hc.
    rewrite app_nil_r. exact IH.
Qed.

Lemma summary_failed_checks `{PyLib} (clock : Clock) self w :
  failed_checks (summary (fst (_generate_summary clock self w)))
  = count_failed (results self).
Proof.
  cbn -[group_by_category]. rewrite sum_of_ones.
  fold (count_passed (results self)).
  pose proof (count_passed_failed (results self)). lia.
Qed.

(** X7. In the summary of a run, [passed_checks] counts the results
    that passed and [failed_checks] those that did not, so the two add up
    to [total_checks]; [by_category] has an entry exactly for the
    categories some result has, and the entry counts the passed and failed
    results of that category and their warnings.  When every result has
    failed exactly when it carries an error, as stage results do,
    [failed_checks] is at most [total_errors]. *)
Theorem summary_counts `{PyLib} (clock : Clock) self w :
  let s := fst (_generate_summary clock self w) in
  let rs := results self in
  passed_checks (summary s) = count_passed rs
  /\ failed_checks (summary s) = count_failed rs
  /\ passed_checks (summary s) + failed_checks (summary s) = total_checks (summary s)
  /\ 0 <= failed_checks (summary s) <= total_checks (summary s)
  /\ (forall c, by_category s !! c
                = match of_category c rs with
                  | [] => None
                  | l => Some (category_counts l)
                  end)
  /\ (Forall (fun r => passed r = true <-> errors r = []) rs ->
      failed_checks (summary s) <= total_errors (summary s)).
Proof.
  cbn -[group_by_category]. rewrite sum_of_ones.
  fold (count_passed (results self)).
  pose proof (count_passed_failed (results self)) as Hsum.
  assert (Hfailed : Z.of_nat (length (results self)) - count_passed (results self)
                    = count_failed (results self)) by lia.
  rewrite Hfailed.
  split; [reflexivity|]. split; [reflexivity|]. split; [exact Hsum|].
  split; [unfold count_failed, count_passed in *; lia|].
  split; [apply group_by_category_lookup|].
  apply failed_at_most_errors.
Qed.

Lemma summary_counts_witness :
  let clean := ValidationResult_init "users" "schema_compliance" in
  let stale := add_warning "Data is stale" (ValidationResult_init "users" "freshness_sla") in
  let self := with_results (runner0 []) [clean; add_error "e" clean; stale] in
  let s := fst (_generate_summary clock0 self world0) in
  passed_checks (summary s) = 2 /\ failed_checks (summary s) = 1
  /\ by_category s !! "schema_compliance"
     = Some {| cat_passed := 1; cat_failed := 1; cat_warnings := 0 |}
  /\ by_category s !! "data_constraints" = None
  /\ failed_checks (summary s) <= total_errors (summary s).
Proof.
  cbv zeta.
  match goal with
  | |- context [_generate_summary clock0 ?self world0] =>
      destruct (summary_counts clock0 self world0) as (Hp & Hf & _ & _ & Hcat & Herr)
  end.
  split; [rewrite Hp; reflexivity|]. split; [rewrite Hf; reflexivity|].
  split; [rewrite Hcat; reflexivity|]. split; [rewrite Hcat; reflexivity|].
  apply Herr. cbn [results with_results].
  do 3 (apply Forall_cons; split; [cbn; split; congruence|]). constructor.
Defined.

Lemma exit_code_by_counts self fail_on :
  _determine_exit_code self fail_on
  = if 0 <? count_failed (results self) then EXIT_HARD_FAILURE
    else if String.eqb fail_on "warn" && (0 <? count_warnings (results self))
         then EXIT_SOFT_FAILURE
         else EXIT_SUCCESS.
Proof.
  unfold _determine_exit_code.
  now rewrite count_failed_positive, count_warnings_positive.
Qed.

(** X8. The exit code of a run agrees with the summary it returns: it
    is EXIT_HARD_FAILURE exactly when [failed_checks] is positive,
    EXIT_SOFT_FAILURE exactly when no check failed, [fail_on] is "warn"
    and [total_warnings] is positive, and EXIT_SUCCESS otherwise; the
    summary lists the results exactly when the output format is "json".
    A run that returns an error report instead of a summary exits with
    EXIT_HARD_FAILURE. *)
Theorem exit_code_agrees_with_summary `{PyLib} (clock : Clock)
    self table_pattern fail_on w :
  match fst (run_validation clock self table_pattern fail_on w) with
  | (code, ErrorReport _, _) => code = EXIT_HARD_FAILURE
  | (code, SummaryReport s, self') =>
      (code = EXIT_HARD_FAILURE <-> 0 < failed_checks (summary s))
      /\ (code = EXIT_SOFT_FAILURE
          <-> failed_checks (summary s) = 0 /\ fail_on = "warn"
              /\ 0 < total_warnings (summary s))
      /\ (code = EXIT_SUCCESS
          <-> failed_checks (summary s) = 0
              /\ (fail_on <> "warn" \/ total_warnings (summary s) = 0))
      /\ s_results s = (if String.eqb (output_format self) "json"
                        then Some (map to_dict (results self')) else None)
  end.
Proof.
  unfold run_validation, mbind at 1.
  destruct (get_matching_tables self table_pattern w) as [[|t tables] w0];
    [reflexivity|].
  unfold mbind at 1.
  destruct (validate_tables_stage_results clock (t :: tables) self w0)
    as (new & Hres & _).
  destruct (validate_tables clock self (t :: tables) w0) as [self' w'].
  cbn [fst] in Hres.
  unfold mbind at 1.
  pose proof (summary_failed_checks clock self' w') as Hfailed.
  assert (Hwarn : total_warnings (summary (fst (_generate_summary clock self' w')))
                  = count_warnings (results self')) by reflexivity.
  assert (Hres' : s_results (fst (_generate_summary clock self' w'))
                  = (if String.eqb (output_format self) "json"
                     then Some (map to_dict (results self')) else None)).
  { rewrite Hres. reflexivity. }
  destruct (_generate_summary clock self' w') as [s w''].
  cbn [fst ret] in *. rewrite Hfailed, Hwarn, exit_code_by_counts.
  pose proof (count_warnings_nonneg (results self')) as Hnn.
  assert (Hfn : 0 <= count_failed (results self')) by (unfold count_failed; lia).
  unfold EXIT_HARD_FAILURE, EXIT_SOFT_FAILURE, EXIT_SUCCESS.
  split; [|split; [|split; [|exact Hres']]].
  - destruct (Z.ltb_spec 0 (count_failed (results self'))) as [Hf|Hf];
      [tauto|].
    destruct (String.eqb fail_on "warn" && _); split; (discriminate || lia).
  - destruct (Z.ltb_spec 0 (count_failed (results self'))) as [Hf|Hf].
    { split; [discriminate|lia]. }
    destruct (String.eqb_spec fail_on "warn") as [Hw|Hw]; cbn [andb].
    + destruct (Z.ltb_spec 0 (count_warnings (results self'))) as [Hc|Hc].
      * split; [intros _; repeat split; (assumption || lia)|reflexivity].
      * split; [discriminate|lia].
    + split; [discriminate|]. intros (_ & Hz & _). congruence.
  - destruct (Z.ltb_spec 0 (count_failed (results self'))) as [Hf|Hf].
    { split; [discriminate|lia]. }
    destruct (String.eqb_spec fail_on "warn") as [Hw|Hw]; cbn [andb].
    + destruct (Z.ltb_spec 0 (count_warnings (results self'))) as [Hc|Hc].
      * split; [discriminate|]. intros (_ & [Hn|Hz]); [congruence|lia].
      * split; [intros _; split; [lia|right; lia]|reflexivity].
    + split; [intros _; split; [lia|now left]|reflexivity].
Qed.

Lemma exit_code_agrees_with_summary_witness :
  exists s self',
    fst (run_validation clock0 (runner0 [fresh_row None (Some (hours_ago 30))])
           "users" "warn" world0)
    = (EXIT_SOFT_FAILURE, SummaryReport s, self')
    /\ failed_checks (summary s) = 0 /\ 0 < total_warnings (summary s).
Proof.
  pose proof (exit_code_agrees_with_summary clock0
                (runner0 [fresh_row None (Some (hours_ago 30))]) "users" "warn" world0)
    as Hrun.
  destruct (fst (run_validation clock0 (runner0 [fresh_row None (Some (hours_ago 30))])
                   "users" "warn" world0)) as [[code [e|s]] self'] eqn:E;
    [vm_compute in E; discriminate|].
  destruct Hrun as (_ & Hsoft & _).
  assert (Hcode : code = EXIT_SOFT_FAILURE)
    by (vm_compute in E; injection E as <- _ _; reflexivity).
  exists s, self'. split; [now rewrite Hcode|].
  destruct (proj1 Hsoft Hcode) as (Hf & _ & Hw). split; assumption.
Defined.

(** ** The warehouse calls of a run *)

Lemma schema_stage_calls `{PyLib} clock self t w :
  api_calls (snd (validate_schema_compliance clock self t w))
  = api_calls w ++ [CallGetTable (dataset_id self) t].
Proof.
  unfold validate_schema_compliance, mbind, time_time, call_get_table, log_call, ret.
  cbn. repeat (case_match; cbn); reflexivity.
Qed.

Lemma constraints_stage_calls `{PyLib} clock self t w :
  exists qs,
    api_calls (snd (validate_data_constraints clock self t w)) = api_calls w ++ qs
    /\ sublist qs [CallQueryTimestamps (project_id self) (dataset_id self) t].
Proof.
  unfold validate_data_constraints, mbind, time_time, call_query_timestamps,
    log_call, ret.
  cbn. repeat (case_match; cbn);
    first [ exists []; split; [now rewrite app_nil_r|apply sublist_nil_l]
          | eexists; split; [reflexivity|reflexivity] ].
Qed.

Lemma freshness_stage_calls `{PyLib} clock self t w :
  exists qs,
    api_calls (snd (validate_freshness_sla clock self t w)) = api_calls w ++ qs
    /\ sublist qs [CallQueryFreshness (project_id self) (dataset_id self) t].
Proof.
  unfold validate_freshness_sla, mbind, time_time, call_query_freshness,
    log_call, ret.
  destruct (config_get _ _) as [slas|e];
    [|exists []; split; [now rewrite app_nil_r|apply sublist_nil_l]].
  destruct (lookup_sla _ _ _) as [[|kv entry]|];
    try (exists []; split; [now rewrite app_nil_r|apply sublist_nil_l]).
  destruct (Py.bind _ _) as [[sh th]|e];
    [|exists []; split; [now rewrite app_nil_r|apply sublist_nil_l]].
  cbn -[check_freshness].
  destruct (query_freshness _ _ _ _) as [rows|e];
    [|eexists; split; [reflexivity|reflexivity]].
  cbn -[check_freshness].
  match goal with
  | |- context [check_freshness ?c ?t ?a ?b ?rows ?r ?w] =>
      assert (Hworld : api_calls (snd (check_freshness c t a b rows r w)) = api_calls w)
        by (unfold check_freshness, mbind, utcnow, ret;
            repeat (case_match; cbn); reflexivity);
      destruct (check_freshness c t a b rows r w) as [v w']
  end.
  cbn in *. eexists. split; [exact Hworld|reflexivity].
Qed.

Lemma generate_summary_calls `{PyLib} clock self w :
  api_calls (snd (_generate_summary clock self w)) = api_calls w.
Proof. reflexivity. Qed.

Lemma validate_tables_calls `{PyLib} clock tables : forall self w,
  exists groups,
    map fst groups = tables
    /\ Forall (fun g => sublist (snd g) (table_queries self (fst g))) groups
    /\ api_calls (snd (validate_tables clock self tables w))
       = api_calls w ++ flat_map (table_calls self) groups.
Proof.
  induction tables as [|t tables IH]; intros self w.
  - exists []. cbn. now rewrite app_nil_r.
  - cbn [validate_tables]. unfold mbind at 1.
    pose proof (schema_stage_calls clock self t w) as H1.
    destruct (validate_schema_compliance clock self t w) as [r1 w1].
    unfold mbind at 1.
    set (self1 := with_results self (results self ++ [r1])).
    destruct (constraints_stage_calls clock self1 t w1) as (q2 & H2 & S2).
    destruct (validate_data_constraints clock self1 t w1) as [r2 w2].
    unfold mbind at 1.
    set (self2 := with_results self1 (results self1 ++ [r2])).
    destruct (freshness_stage_calls clock self2 t w2) as (q3 & H3 & S3).
    destruct (validate_freshness_sla clock self2 t w2) as [r3 w3].
    set (self3 := with_results self2 (results self2 ++ [r3])).
    destruct (IH self3 w3) as (groups & Hfst & Hsub & Hcalls).
    exists ((t, q2 ++ q3) :: groups). cbn [fst snd] in *.
    split; [cbn; now rewrite Hfst|]. split.
    + constructor; [|exact Hsub]. cbn [fst snd].
      change (table_queries self t)
        with ([CallQueryTimestamps (project_id self) (dataset_id self) t]
              ++ [CallQueryFreshness (project_id self) (dataset_id self) t]).
      apply sublist_app; [exact S2|exact S3].
    + rewrite Hcalls, H3, H2, H1.
      change (table_calls self3) with (table_calls self).
      cbn [flat_map].
      change (table_calls self (t, q2 ++ q3))
        with ([CallGetTable (dataset_id self) t] ++ q2 ++ q3).
      rewrite <- !app_assoc. reflexivity.
Qed.

(** X9. The warehouse calls of a run are one listing of the dataset's
    tables and then, for each matching table in order, one lookup of the
    table followed by at most the timestamp query and the freshness query
    of that table, in this order.  No table outside the matching ones is
    looked up or queried, and a matching table is looked up once for each
    time the listing names it. *)
Theorem warehouse_calls_of_a_run `{PyLib} (clock : Clock)
    self table_pattern fail_on w :
  exists groups,
    map fst groups = fst (get_matching_tables self table_pattern w)
    /\ Forall (fun g => sublist (snd g) (table_queries self (fst g))) groups
    /\ api_calls (snd (run_validation clock self table_pattern fail_on w))
       = api_calls w ++ CallListTables (dataset_id self)
                        :: flat_map (table_calls self) groups.
Proof.
  unfold run_validation, mbind at 1.
  pose proof (get_matching_tables_world self table_pattern w) as Hlist.
  destruct (get_matching_tables self table_pattern w) as [tables w0].
  cbn [fst snd] in *.
  destruct tables as [|t tables].
  - exists []. cbn. rewrite Hlist. cbn. auto.
  - destruct (validate_tables_calls clock (t :: tables) self w0)
      as (groups & Hfst & Hsub & Hcalls).
    exists groups. split; [exact Hfst|]. split; [exact Hsub|].
    unfold mbind at 1.
    destruct (validate_tables clock self (t :: tables) w0) as [self' w'].
    cbn [snd] in Hcalls. unfold mbind.
    pose proof (generate_summary_calls clock self' w') as Hsum.
    destruct (_generate_summary clock self' w') as [s w''].
    cbn [snd ret] in *. rewrite Hsum, Hcalls, Hlist. cbn [api_calls].
    rewrite <- app_assoc. reflexivity.
Qed.

Lemma warehouse_calls_of_a_run_witness :
  exists groups,
    map fst groups = ["users"]
    /\ Forall (fun g => sublist (snd g)
                          (table_queries (runner0 [fresh_row None None]) (fst g))) groups
    /\ api_calls (snd (run_validation clock0 (runner0 [fresh_row None None])
                         "user*" "error" world0))
       = CallListTables "diagnosticpro_prod"
         :: flat_map (table_calls (runner0 [fresh_row None None])) groups.
Proof.
  exact (warehouse_calls_of_a_run clock0 (runner0 [fresh_row None None])
           "user*" "error" world0).
Defined.

Lemma run_validation_shape `{PyLib} (clock : Clock) self table_pattern w :
  (exists w0, forall fail_on,
      run_validation clock self table_pattern fail_on w
      = (EXIT_HARD_FAILURE, ErrorReport "No matching tables found", self, w0))
  \/ (exists s self' w', forall fail_on,
        run_validation clock self table_pattern fail_on w
        = (_determine_exit_code self' fail_on, SummaryReport s, self', w')).
Proof.
  unfold run_validation, mbind.
  destruct (get_matching_tables self table_pattern w) as [[|t tables] w0].
  - left. exists w0. reflexivity.
  - right. destruct (validate_tables clock self (t :: tables) w0) as [self' w'].
    destruct (_generate_summary clock self' w') as [s w''].
    exists s, self', w''. reflexivity.
Qed.

(** X25. [fail_on] decides nothing but the exit code: two runs that
    differ only in [fail_on] leave the same results, return the same
    report and issue the same calls.  The exit code is 0, 1 or 2; it is 1
    under one [fail_on] exactly when it is 1 under every other; every
    [fail_on] other than "warn" behaves as "error" and never gives 2; and
    "warn" turns a 0 into a 2 or leaves the code as it is. *)
Theorem fail_on_only_decides_the_exit_code `{PyLib} (clock : Clock)
    self table_pattern fail_on fail_on' w :
  let run := run_validation clock self table_pattern in
  snd (fst (fst (run fail_on w))) = snd (fst (fst (run fail_on' w)))
  /\ snd (fst (run fail_on w)) = snd (fst (run fail_on' w))
  /\ snd (run fail_on w) = snd (run fail_on' w)
  /\ fst (fst (fst (run fail_on w)))
     ∈ [EXIT_SUCCESS; EXIT_HARD_FAILURE; EXIT_SOFT_FAILURE]
  /\ (fst (fst (fst (run fail_on w))) = EXIT_HARD_FAILURE
      <-> fst (fst (fst (run fail_on' w))) = EXIT_HARD_FAILURE)
  /\ (fail_on <> "warn" -> fail_on' <> "warn" ->
      fst (fst (fst (run fail_on w))) = fst (fst (fst (run fail_on' w)))
      /\ fst (fst (fst (run fail_on w))) <> EXIT_SOFT_FAILURE)
  /\ (fail_on = "warn" ->
      fst (fst (fst (run fail_on w))) = fst (fst (fst (run fail_on' w)))
      \/ (fst (fst (fst (run fail_on w))) = EXIT_SOFT_FAILURE
          /\ fst (fst (fst (run fail_on' w))) = EXIT_SUCCESS)).
Proof.
  intros run. subst run.
  destruct (run_validation_shape clock self table_pattern w)
    as [(w0 & Hrun) | (s & self' & w' & Hrun)]; rewrite !Hrun; cbn [fst snd].
  { repeat split; auto; try discriminate. rewrite !elem_of_cons. auto. }
  unfold _determine_exit_code, EXIT_SUCCESS, EXIT_HARD_FAILURE, EXIT_SOFT_FAILURE.
  split; [reflexivity|]. split; [reflexivity|]. split; [reflexivity|].
  destruct (existsb (fun r => negb (passed r)) (results self')).
  { split; [rewrite !elem_of_cons; auto|]. split; [tauto|].
    split; [intros _ _; split; [reflexivity|discriminate]|]. intros _. now left. }
  destruct (String.eqb_spec fail_on "warn") as [Hw|Hw],
           (String.eqb_spec fail_on' "warn") as [Hw'|Hw'];
    destruct (existsb _ (results self')); cbn [andb];
    (split; [rewrite !elem_of_cons; auto|]);
    (split; [split; discriminate|]);
    (split; [intros ? ?; first [congruence | split; [reflexivity|discriminate]]|]);
    intros ?; first [congruence | now left | right; now split].
Qed.

Lemma fail_on_only_decides_the_exit_code_witness :
  let run := run_validation clock0 (runner0 [fresh_row None (Some (hours_ago 30))])
               "users" in
  fst (fst (fst (run "warn" world0))) = EXIT_SOFT_FAILURE
  /\ fst (fst (fst (run "error" world0))) = EXIT_SUCCESS
  /\ snd (fst (run "warn" world0)) = snd (fst (run "error" world0)).
Proof.
  cbv zeta.
  destruct (fail_on_only_decides_the_exit_code clock0
              (runner0 [fresh_row None (Some (hours_ago 30))]) "users" "warn" "error"
              world0) as (_ & Hsame & _ & _ & _ & _ & Hwarn).
  split; [|split; [|exact Hsame]].
  - destruct (Hwarn eq_refl) as [Heq | (Hsoft & _)]; [|exact Hsoft].
    vm_compute in Heq. discriminate.
  - destruct (Hwarn eq_refl) as [Heq | (_ & Hok)]; [|exact Hok].
    vm_compute in Heq. discriminate.
Defined.

(** ** Printing and the exit status of the process *)

Section MainProperties.
Import S4Main.

(** X24. The status the process exits with is the exit code of the
    run, whatever the output format is.  The report is printed unless no
    table matched and the output format is not "json": the text format
    then fails on the missing key 'timestamp' and the status 1 comes from
    the handler of unexpected errors.  The text report lists the failed
    results under FAILURES, and there is such a section exactly when the
    status is 1. *)
Theorem exit_status_of_the_process `{PyLib} (clock : Clock)
    runner table_pattern fail_on w :
  let ran := fst (run_validation clock runner table_pattern fail_on w) in
  let done := fst (main clock (Return runner) table_pattern fail_on w) in
  fst done = fst (fst ran)
  /\ (snd done = None
      <-> fst (get_matching_tables runner table_pattern w) = []
          /\ output_format runner <> "json")
  /\ (output_format runner = "json" -> snd done = Some (PrintedJson (snd (fst ran))))
  /\ (forall text, snd done = Some (PrintedText text) ->
        failures text = List.filter (fun r => negb (passed r)) (results (snd ran))
        /\ (failures text <> [] <-> fst done = EXIT_HARD_FAILURE)
        /\ (with_warnings text <> [] <-> 0 < warning_count text)).
Proof.
  intros ran done. subst ran done. unfold main, mbind.
  assert (Hrun : fst (get_matching_tables runner table_pattern w) = [] ->
                 fst (run_validation clock runner table_pattern fail_on w)
                 = (EXIT_HARD_FAILURE, ErrorReport "No matching tables found", runner)).
  { intros Ht. unfold run_validation, mbind.
    destruct (get_matching_tables runner table_pattern w) as [tables w0].
    cbn [fst] in Ht. subst tables. reflexivity. }
  assert (Hsum : fst (get_matching_tables runner table_pattern w) <> [] ->
                 exists s self',
                   fst (run_validation clock runner table_pattern fail_on w)
                   = (_determine_exit_code self' fail_on, SummaryReport s, self')
                   /\ output_format self' = output_format runner).
  { intros Ht. unfold run_validation, mbind at 1.
    destruct (get_matching_tables runner table_pattern w) as [tables w0].
    cbn [fst] in Ht. destruct tables as [|t tables]; [congruence|].
    unfold mbind at 1.
    destruct (validate_tables_stage_results clock (t :: tables) runner w0)
      as (new & Hres & _).
    destruct (validate_tables clock runner (t :: tables) w0) as [self' w'].
    cbn [fst] in Hres. unfold mbind.
    destruct (_generate_summary clock self' w') as [s w''].
    exists s, self'. split; [reflexivity|]. rewrite Hres. reflexivity. }
  destruct (run_validation clock runner table_pattern fail_on w)
    as [[[exit_code report] runner'] w1].
  cbn [fst snd] in *.
  destruct (fst (get_matching_tables runner table_pattern w)) as [|t tables] eqn:Ht.
  - specialize (Hrun eq_refl). injection Hrun as -> -> ->. clear Hsum.
    unfold print_results.
    destruct (String.eqb_spec (output_format runner) "json") as [Hj|Hj]; cbn.
    + repeat split; try discriminate; try congruence.
      intros (_ & Hn). congruence.
    + repeat split; try discriminate; try congruence.
  - clear Hrun. destruct (Hsum ltac:(discriminate)) as (s & self' & Heq & Hfmt).
    injection Heq as -> -> ->. unfold print_results. rewrite Hfmt.
    destruct (String.eqb_spec (output_format runner) "json") as [Hj|Hj]; cbn.
    + repeat split; try discriminate; try congruence.
      intros (Hn & _). discriminate.
    + split; [reflexivity|]. split; [split; [discriminate|intros (Hn & _); discriminate]|].
      split; [congruence|].
      intros text [= <-]. cbn. split; [reflexivity|]. split.
      * unfold _determine_exit_code.
        destruct (existsb (fun r => negb (passed r)) (results self')) eqn:He.
        -- split; [reflexivity|]. intros _.
           apply existsb_exists in He as (r & Hin & Hr).
           intros Hnil.
           assert (Hf : In r (List.filter (fun r => negb (passed r)) (results self')))
             by (apply List.filter_In; auto).
           rewrite Hnil in Hf. destruct Hf.
        -- split.
           ++ intros Hne. exfalso. apply Hne.
              destruct (List.filter _ _) as [|r l] eqn:Hf; [reflexivity|].
              assert (Hin : In r (r :: l)) by now left.
              rewrite <- Hf in Hin. apply List.filter_In in Hin as (Hin & Hr).
              assert (existsb (fun r => negb (passed r)) (results self') = true)
                by (apply existsb_exists; eauto).
              congruence.
           ++ unfold EXIT_HARD_FAILURE, EXIT_SOFT_FAILURE, EXIT_SUCCESS.
              destruct (String.eqb fail_on "warn" && _); discriminate.
      * set (l := List.filter _ (results self')).
        assert (Hall : Forall (fun r => warnings r <> []) l).
        { apply Forall_forall. intros r Hin.
          apply list_elem_of_In, List.filter_In in Hin as (_ & Hr).
          destruct (warnings r); [discriminate|congruence]. }
        clearbody l. destruct Hall as [|r l Hr Hall]; [split; [congruence|cbn; lia]|].
        split; [|discriminate]. intros _. cbn [map sumZ foldr].
        fold (sumZ (map (fun r => Z.of_nat (length (warnings r))) l)).
        fold (count_warnings l). pose proof (count_warnings_nonneg l).
        destruct (warnings r); [congruence|cbn [length]; lia].
Qed.

Lemma exit_status_of_the_process_witness :
  let done := fst (main clock0 (Return (runner0 [])) "sensor*" "error" world0) in
  fst done = EXIT_HARD_FAILURE /\ snd done = None.
Proof.
  destruct (exit_status_of_the_process clock0 (runner0 []) "sensor*" "error" world0)
    as (Hstatus & Hnone & _).
  split.
  - etransitivity; [exact Hstatus|]. vm_compute. reflexivity.
  - apply Hnone. split; [vm_compute; reflexivity|discriminate].
Defined.

End MainProperties.

(** * Further properties of the models *)

(** ** Maintenance predictions *)

Section MaintenanceProperties.
Import MaintenancePredictionsResponse.

Lemma validate_prediction_dates_ok r :
  validate_prediction_dates r = Return (Instance r) <-> dates_in_order r.
Proof.
  unfold validate_prediction_dates, dates_in_order, raise_ValueError.
  destruct (predicted_failure_date r) as [f|],
           (predicted_maintenance_date r) as [m|],
           (scheduled_maintenance_date r) as [s|];
    repeat match goal with
           | |- context [?a <=? ?b] => destruct (Z.leb_spec a b)
           | |- context [?a <? ?b] => destruct (Z.ltb_spec a b)
           end;
    (split;
     [ try discriminate; intros _; repeat split; intros; simplify_eq; lia
     | try reflexivity; intros (Hf & Hm & Hs); exfalso;
       try specialize (Hf _ eq_refl); try specialize (Hm _ _ eq_refl eq_refl);
       try specialize (Hs _ eq_refl); lia ]).
Qed.

Lemma validate_prediction_dates_message r :
  validate_prediction_dates r = Return (Instance r)
  \/ exists m, validate_prediction_dates r = raise_ValueError m
               /\ ("Value error, " +:+ m) ∈ date_rule_messages.
Proof.
  unfold validate_prediction_dates, date_rule_messages.
  repeat case_match; auto; right; eexists; (split; [reflexivity|]);
    cbn; set_solver.
Qed.

Lemma validate_status_transitions_ok r :
  validate_status_transitions r = Return (Instance r) <-> status_backed r.
Proof.
  unfold validate_status_transitions, status_backed, raise_ValueError.
  destruct (status r) as [[]|], (acknowledged_at r), (scheduled_maintenance_date r),
           (completed_at r); cbn;
    (split; [try discriminate; intros _; repeat split; congruence
            | try reflexivity; intros (Ha & Hs & Hc); exfalso;
              first [now apply Ha | now apply Hs | now apply Hc]]).
Qed.

Lemma validate_status_transitions_message r :
  validate_status_transitions r = Return (Instance r)
  \/ exists m, validate_status_transitions r = raise_ValueError m
               /\ ("Value error, " +:+ m) ∈ status_rule_messages.
Proof.
  unfold validate_status_transitions, status_rule_messages.
  repeat case_match; auto; right; eexists; (split; [reflexivity|]);
    cbn; set_solver.
Qed.

Lemma completeness_messages_apart m :
  m ∈ completeness_messages -> m ∉ date_rule_messages ++ status_rule_messages.
Proof.
  unfold completeness_messages. intros Hm.
  apply elem_of_cons in Hm as [-> | Hm];
    [|apply elem_of_cons in Hm as [-> | Hm]; [|now apply elem_of_nil in Hm]];
    (intros Hin; apply elem_of_app in Hin as [Hin|Hin];
     unfold date_rule_messages, status_rule_messages in Hin;
     repeat (apply elem_of_cons in Hin as [Hin|Hin]; [discriminate|]);
     now apply elem_of_nil in Hin).
Qed.

(** X10. Construction of a maintenance prediction from data whose
    fields pass (identifiers that are UUIDs, a known prediction type, a
    risk assessment and a recommendation that their own classes accept)
    checks the date rules first and the status rules second, and reports
    one message: a record that breaks a date rule gets a date message
    even when its status is not backed by its timestamp; a record with
    its dates in order that breaks a status rule gets a status message;
    every other record ends in the NameError of
    [validate_symptoms_limit].  So no record is validated, and
    [validate_prediction_completeness], defined last, never runs: no
    record is reported for a missing risk assessment or recommendation. *)
Theorem maintenance_prediction_outcome `{PyLib} :
  (forall r, MaintenancePredictions_fields_valid r ->
             (MaintenancePredictions_validate r = Propagated NameError_v
              <-> dates_in_order r /\ status_backed r))
  /\ (forall r, MaintenancePredictions_fields_valid r -> ~ dates_in_order r ->
                exists m, MaintenancePredictions_validate r = ValidationError [m]
                          /\ m ∈ date_rule_messages)
  /\ (forall r, MaintenancePredictions_fields_valid r ->
                dates_in_order r -> ~ status_backed r ->
                exists m, MaintenancePredictions_validate r = ValidationError [m]
                          /\ m ∈ status_rule_messages)
  /\ (forall r v, MaintenancePredictions_fields_valid r ->
                  MaintenancePredictions_validate r <> Validated v)
  /\ (forall r m, MaintenancePredictions_fields_valid r ->
                  m ∈ completeness_messages ->
                  MaintenancePredictions_validate r <> ValidationError [m]).
Proof.
  assert (Hcases : forall r,
    (exists m, MaintenancePredictions_validate r = ValidationError [m]
               /\ m ∈ date_rule_messages /\ ~ dates_in_order r)
    \/ (exists m, MaintenancePredictions_validate r = ValidationError [m]
                  /\ m ∈ status_rule_messages
                  /\ dates_in_order r /\ ~ status_backed r)
    \/ (MaintenancePredictions_validate r = Propagated NameError_v
        /\ dates_in_order r /\ status_backed r)).
  { intros r. rewrite MaintenancePredictions_validate_eq.
    pose proof (validate_prediction_dates_ok r) as Hd.
    pose proof (validate_status_transitions_ok r) as Hs.
    destruct (validate_prediction_dates_message r) as [Ed | (m & Ed & Hm)].
    - destruct (validate_status_transitions_message r) as [Es | (m & Es & Hm)].
      + right; right. rewrite Ed, Es. cbn. split; [reflexivity|]. split; tauto.
      + right; left. exists ("Value error, " +:+ m). rewrite Ed, Es. cbn.
        split; [reflexivity|]. split; [exact Hm|]. split; [tauto|].
        intros Hb. apply Hs in Hb. rewrite Es in Hb. discriminate.
    - left. exists ("Value error, " +:+ m). rewrite Ed. cbn.
      split; [reflexivity|]. split; [exact Hm|].
      intros Hb. apply Hd in Hb. rewrite Ed in Hb. discriminate. }
  split; [|split; [|split; [|split]]].
  - intros r _. destruct (Hcases r) as [(m & E & _ & Hn) | [(m & E & _ & Hd & Hn) | (E & Hd & Hs)]];
      rewrite E; (split; [try discriminate|]); tauto.
  - intros r _ Hn. destruct (Hcases r) as [(m & E & Hm & _) | [(m & E & _ & Hd & _) | (E & Hd & _)]];
      [eauto|tauto|tauto].
  - intros r _ Hd Hn. destruct (Hcases r) as [(m & E & _ & Hn') | [(m & E & Hm & _) | (E & _ & Hs)]];
      [tauto|eauto|tauto].
  - intros r v _. destruct (Hcases r) as [(m & E & _) | [(m & E & _) | (E & _)]];
      rewrite E; discriminate.
  - intros r m _ Hm. destruct (Hcases r) as [(m' & E & Hm' & _) | [(m' & E & Hm' & _) | (E & _)]];
      rewrite E; [| |discriminate]; intros [= ->];
      apply (completeness_messages_apart _ Hm); apply elem_of_app; auto.
Qed.

Lemma maintenance_prediction_outcome_witness :
  MaintenancePredictions_fields_valid (py := reference_py) MoreSamples.late_prediction
  /\ exists m, MaintenancePredictions_validate MoreSamples.late_prediction
               = ValidationError [m]
               /\ m ∈ date_rule_messages.
Proof.
  assert (Hvalid : MaintenancePredictions_fields_valid (py := reference_py)
                     MoreSamples.late_prediction).
  { unfold MaintenancePredictions_fields_valid.
    split; [reflexivity|]. split; [reflexivity|]. split; [reflexivity|].
    split; [reflexivity|]. split; intros ? [=]. }
  split; [exact Hvalid|].
  apply (proj1 (proj2 (@maintenance_prediction_outcome reference_py)) _ Hvalid).
  intros (Hf & _). specialize (Hf _ eq_refl). cbn in Hf. lia.
Defined.

(** X11. An acknowledgment whose fields pass (an acknowledging user
    that is a UUID, notes of at most 1000 characters) is accepted exactly
    when a requested scheduling comes with a date and the date, requested
    or not, is not before today; the two failures have their own message,
    the missing date first.  Acceptance depends on the day of validation:
    what is accepted today was accepted on every earlier day. *)
Theorem acknowledgment_scheduling (today : Z) (r : MaintenancePredictionsAcknowledge) :
  MaintenancePredictionsAcknowledge_fields_valid r = true ->
  (MaintenancePredictionsAcknowledge_validate today r = Validated (Instance r)
   <-> (schedule_maintenance r = Some true -> scheduled_date r <> None)
       /\ (forall d, scheduled_date r = Some d -> today <= d))
  /\ (schedule_maintenance r = Some true -> scheduled_date r = None ->
      MaintenancePredictionsAcknowledge_validate today r
      = ValidationError
          ["Value error, scheduled_date required when schedule_maintenance is true"])
  /\ (forall d, scheduled_date r = Some d -> d < today ->
      MaintenancePredictionsAcknowledge_validate today r
      = ValidationError ["Value error, scheduled_date cannot be in the past"])
  /\ (forall earlier, earlier <= today ->
      MaintenancePredictionsAcknowledge_validate today r = Validated (Instance r) ->
      MaintenancePredictionsAcknowledge_validate earlier r = Validated (Instance r)).
Proof.
  intros _.
  assert (Hiff : forall day,
    MaintenancePredictionsAcknowledge_validate day r = Validated (Instance r)
    <-> (schedule_maintenance r = Some true -> scheduled_date r <> None)
        /\ (forall d, scheduled_date r = Some d -> day <= d)).
  { intros day.
    unfold MaintenancePredictionsAcknowledge_validate, model_validate,
      MaintenancePredictionsAcknowledge_validators.
    cbn [run_after on_instance Py.bind]. unfold validate_scheduling.
    destruct (schedule_maintenance r) as [[]|], (scheduled_date r) as [d|];
      cbn; try destruct (Z.ltb_spec d day); cbn;
      (split; [first [discriminate
                     | intros _; split; [congruence|intros ? [= <-]; lia]]
              | first [reflexivity
                      | intros (Hs & Hd); exfalso;
                        first [now apply Hs | specialize (Hd _ eq_refl); lia]]]). }
  split; [apply Hiff|]. split; [|split].
  - intros Hs Hd.
    unfold MaintenancePredictionsAcknowledge_validate, model_validate,
      MaintenancePredictionsAcknowledge_validators.
    cbn [run_after on_instance Py.bind]. unfold validate_scheduling.
    rewrite Hs, Hd. reflexivity.
  - intros d Hd Hlt.
    unfold MaintenancePredictionsAcknowledge_validate, model_validate,
      MaintenancePredictionsAcknowledge_validators.
    cbn [run_after on_instance Py.bind]. unfold validate_scheduling.
    rewrite Hd. apply Z.ltb_lt in Hlt. rewrite Hlt.
    destruct (schedule_maintenance r) as [[]|]; reflexivity.
  - intros earlier Hle Hok. apply Hiff. apply Hiff in Hok as (Hs & Hd).
    split; [exact Hs|]. intros d E. specialize (Hd d E). lia.
Qed.

Lemma acknowledgment_scheduling_witness :
  MaintenancePredictionsAcknowledge_fields_valid MoreSamples.undated_acknowledgment = true
  /\ MaintenancePredictionsAcknowledge_validate 739510 MoreSamples.undated_acknowledgment
     = ValidationError
         ["Value error, scheduled_date required when schedule_maintenance is true"].
Proof.
  split; [reflexivity|].
  apply (proj1 (proj2 (acknowledgment_scheduling 739510
                         MoreSamples.undated_acknowledgment eq_refl)));
    reflexivity.
Defined.

Lemma min_1_at_most_1 (score : float) : PrimFloat.leb (min_1 score) 1 = true.
Proof.
  unfold min_1. destruct (PrimFloat.ltb score 1) eqn:Hlt; [|reflexivity].
  rewrite FloatAxioms.ltb_spec in Hlt. rewrite FloatAxioms.leb_spec.
  unfold SFltb in Hlt. unfold SFleb.
  destruct (SFcompare (Prim2SF score) (Prim2SF 1)) as [[]|];
    (discriminate || reflexivity).
Qed.

(** X12. The computed fields of a prediction agree with each other and
    with the date rules: [is_overdue] holds exactly when
    [days_until_maintenance] is negative; on a record that passes
    [validate_prediction_dates] the days until maintenance are fewer than
    the days until failure, so a record with a maintenance date whose
    failure date is today or past is overdue; and [urgency_score] never
    exceeds 1.0, whatever the risk score is. *)
Theorem computed_fields_of_a_prediction (today : Z) (r : MaintenancePredictions) :
  (is_overdue today r = true
   <-> exists d, days_until_maintenance today r = Some d /\ d < 0)
  /\ (validate_prediction_dates r = Return (Instance r) ->
      forall m f, days_until_maintenance today r = Some m ->
                  days_until_failure today r = Some f -> m < f)
  /\ (validate_prediction_dates r = Return (Instance r) ->
      predicted_maintenance_date r <> None ->
      forall f, days_until_failure today r = Some f -> f <= 0 ->
                is_overdue today r = true)
  /\ PrimFloat.leb (urgency_score today r) 1 = true.
Proof.
  unfold is_overdue, days_until_maintenance, days_until_failure.
  split; [|split; [|split]].
  - destruct (predicted_maintenance_date r) as [m|].
    + rewrite Z.ltb_lt. split.
      * intros Hlt. exists (m - today). split; [reflexivity|lia].
      * intros (d & [= <-] & Hd). lia.
    + split; [discriminate|]. intros (d & Hd & _). discriminate.
  - intros Hok m f Hm Hf. apply validate_prediction_dates_ok in Hok as (_ & Hmf & _).
    destruct (predicted_maintenance_date r) as [m'|]; [|discriminate].
    destruct (predicted_failure_date r) as [f'|]; [|discriminate].
    specialize (Hmf _ _ eq_refl eq_refl). simplify_eq. lia.
  - intros Hok Hm f Hf Hle. apply validate_prediction_dates_ok in Hok as (_ & Hmf & _).
    destruct (predicted_maintenance_date r) as [m'|]; [|congruence].
    destruct (predicted_failure_date r) as [f'|]; [|discriminate].
    specialize (Hmf _ _ eq_refl eq_refl). simplify_eq. apply Z.ltb_lt. lia.
  - apply min_1_at_most_1.
Qed.

Lemma computed_fields_of_a_prediction_witness :
  days_until_failure 739539 MoreSamples.due_prediction = Some 0
  /\ is_overdue 739539 MoreSamples.due_prediction = true.
Proof.
  split; [reflexivity|].
  destruct (computed_fields_of_a_prediction 739539 MoreSamples.due_prediction)
    as (_ & _ & Hdue & _).
  apply (Hdue eq_refl ltac:(discriminate) 0 eq_refl). lia.
Defined.

End MaintenanceProperties.

(** ** Diagnostic sessions *)

Section SessionProperties.
Import PyDecimal DiagnosticSessionsModel.

Lemma validate_diagnostic_codes_limit_eq v :
  validate_diagnostic_codes_limit v
  = if (50 <? length (default [] v))%nat
    then raise_ValueError "Maximum 50 diagnostic codes allowed per session"
    else Return v.
Proof. destruct v as [[|c codes]|]; reflexivity. Qed.

(** X13. A diagnostic session whose fields pass (an identifier that
    is a UUID, codes that the class of a code accepts, a total cost that
    is not negative) is accepted exactly when it has at most 50
    diagnostic codes, and then as it was given; a longer list is reported
    with "Maximum 50 diagnostic codes allowed per session".  On an
    accepted session [active_dtc_count] lies between 0 and the number of
    codes, hence is at most 50; it is 0 without codes, and the number of
    codes when every code has status 'active'. *)
Theorem session_codes_limit `{PyLib} (data : DiagnosticSessions) :
  DiagnosticSessions_fields_valid data ->
  let n := length (default [] (diagnostic_codes data)) in
  ((n <= 50)%nat <-> DiagnosticSessions_validate data = Validated data)
  /\ ((50 < n)%nat <->
      DiagnosticSessions_validate data
      = ValidationError ["Value error, Maximum 50 diagnostic codes allowed per session"])
  /\ 0 <= active_dtc_count data <= Z.of_nat n
  /\ (forall s, DiagnosticSessions_validate data = Validated s ->
                s = data /\ 0 <= active_dtc_count s <= 50)
  /\ (n = 0%nat -> active_dtc_count data = 0)
  /\ (Forall (fun c => status c = Some code_active) (default [] (diagnostic_codes data)) ->
      active_dtc_count data = Z.of_nat n).
Proof.
  intros _ n. subst n.
  assert (Hcount : 0 <= active_dtc_count data
                   <= Z.of_nat (length (default [] (diagnostic_codes data)))).
  { unfold active_dtc_count.
    destruct (diagnostic_codes data) as [[|c codes]|];
      cbn [default from_option id length]; try lia.
    match goal with
    | |- context [List.filter ?f ?l] => pose proof (List.filter_length_le f l) as Hle
    end.
    cbn [length] in Hle. lia. }
  assert (Hok : (length (default [] (diagnostic_codes data)) <= 50)%nat ->
                DiagnosticSessions_validate data = Validated data).
  { intros Hn. unfold DiagnosticSessions_validate.
    rewrite validate_diagnostic_codes_limit_eq.
    destruct (Nat.ltb_spec 50 (length (default [] (diagnostic_codes data)))); [lia|].
    now destruct data. }
  assert (Hbad : (50 < length (default [] (diagnostic_codes data)))%nat ->
                 DiagnosticSessions_validate data
                 = ValidationError
                     ["Value error, Maximum 50 diagnostic codes allowed per session"]).
  { intros Hn. unfold DiagnosticSessions_validate.
    rewrite validate_diagnostic_codes_limit_eq.
    destruct (Nat.ltb_spec 50 (length (default [] (diagnostic_codes data))));
      [reflexivity|lia]. }
  split; [|split; [|split; [exact Hcount|split; [|split]]]].
  - split; [exact Hok|]. intros Hv.
    destruct (Nat.le_gt_cases (length (default [] (diagnostic_codes data))) 50)
      as [Hn|Hn]; [exact Hn|]. rewrite (Hbad Hn) in Hv. discriminate.
  - split; [exact Hbad|]. intros Hv.
    destruct (Nat.le_gt_cases (length (default [] (diagnostic_codes data))) 50)
      as [Hn|Hn]; [|exact Hn]. rewrite (Hok Hn) in Hv. discriminate.
  - intros s Hs.
    destruct (Nat.le_gt_cases (length (default [] (diagnostic_codes data))) 50)
      as [Hn|Hn].
    + rewrite (Hok Hn) in Hs. injection Hs as <-. split; [reflexivity|lia].
    + rewrite (Hbad Hn) in Hs. discriminate.
  - intros Hn. lia.
  - unfold active_dtc_count.
    destruct (diagnostic_codes data) as [[|c codes]|];
      cbn [default from_option id]; try reflexivity.
    intros Hall. f_equal. generalize (c :: codes) Hall. clear.
    induction 1 as [|c' l Hc _ IH]; [reflexivity|].
    cbn [List.filter length]. rewrite Hc. cbn [length]. now rewrite IH.
Qed.

Lemma session_codes_limit_witness :
  DiagnosticSessions_fields_valid (py := reference_py)
    (MoreSamples.open_session None (mkDatetime 0 None) 51)
  /\ DiagnosticSessions_validate (MoreSamples.open_session None (mkDatetime 0 None) 51)
     = ValidationError ["Value error, Maximum 50 diagnostic codes allowed per session"]
  /\ active_dtc_count (MoreSamples.open_session None (mkDatetime 0 None) 50) = 50.
Proof.
  assert (Hvalid : forall n, DiagnosticSessions_fields_valid (py := reference_py)
                               (MoreSamples.open_session None (mkDatetime 0 None) n)).
  { intros n. split; [reflexivity|]. split; [|intros ? ? [=]].
    cbn [MoreSamples.open_session diagnostic_codes default from_option id].
    apply Forall_forall. intros c Hc. apply list_elem_of_In, repeat_spec in Hc.
    subst c. reflexivity. }
  split; [apply Hvalid|]. split.
  - apply (proj1 (proj2 (@session_codes_limit reference_py
                           (MoreSamples.open_session None (mkDatetime 0 None) 51)
                           (Hvalid 51%nat)))).
    vm_compute. lia.
  - etransitivity;
      [apply (proj2 (proj2 (proj2 (proj2 (proj2
                (@session_codes_limit reference_py
                   (MoreSamples.open_session None (mkDatetime 0 None) 50)
                   (Hvalid 50%nat)))))))
      |reflexivity].
    cbn. repeat constructor.
Defined.

(** X14. [estimated_completion] gives a time only for a session that
    has started and is not completed; the time is the start plus the
    estimate of the session type, between 45 and 180 minutes later and 90
    minutes for a session without type, in the time zone of the start;
    the addition overflows only when the start is within the estimate of
    the largest datetime.  A session is billable exactly when it is
    completed and its resolution has a positive total cost. *)
Theorem computed_fields_of_a_session (self : DiagnosticSessions) :
  (forall t, estimated_completion self = Return (Some t) ->
     exists started,
       started_at self = Some started /\ completed_at self = None
       /\ wall_us t = wall_us started + estimates (session_type self) * 60000000
       /\ tzinfo t = tzinfo started
       /\ wall_us started + 45 * 60000000 <= wall_us t
          <= wall_us started + 180 * 60000000)
  /\ (estimated_completion self = Return None
      <-> started_at self = None \/ completed_at self <> None)
  /\ (forall e, estimated_completion self = Raise e ->
        exists started,
          started_at self = Some started
          /\ datetime_max_us - 180 * 60000000 < wall_us started)
  /\ (session_type self = None ->
      forall started, started_at self = Some started -> completed_at self = None ->
        wall_us started + 90 * 60000000 <= datetime_max_us ->
        estimated_completion self
        = Return (Some (mkDatetime (wall_us started + 90 * 60000000) (tzinfo started))))
  /\ (is_billable self = true
      <-> session_status self = Some completed
          /\ exists res cost, resolution self = Some res /\ total_cost res = Some cost
                              /\ decimal_positive cost = true).
Proof.
  assert (Hest : 45 <= estimates (session_type self) <= 180)
    by (destruct (session_type self) as [[]|]; cbn; lia).
  unfold estimated_completion, add_minutes.
  split; [|split; [|split; [|split]]].
  - intros t Ht.
    destruct (started_at self) as [started|]; [|discriminate].
    destruct (completed_at self); [discriminate|].
    destruct (Z.leb_spec (wall_us started + estimates (session_type self) * 60000000)
                datetime_max_us); [|discriminate].
    cbn in Ht. injection Ht as <-. exists started. cbn. repeat split; lia.
  - destruct (started_at self) as [started|], (completed_at self) as [c|];
      try (split; [intros _; (now left) || (now right)|reflexivity]).
    destruct (Z.leb_spec (wall_us started + estimates (session_type self) * 60000000)
                datetime_max_us); cbn;
      (split; [discriminate|intros [?|?]; congruence]).
  - intros e He.
    destruct (started_at self) as [started|]; [|discriminate].
    destruct (completed_at self); [discriminate|].
    destruct (Z.leb_spec (wall_us started + estimates (session_type self) * 60000000)
                datetime_max_us); [discriminate|].
    exists started. split; [reflexivity|lia].
  - intros Hty started Hs Hc Hfit. rewrite Hs, Hc, Hty. cbn [estimates].
    apply Z.leb_le in Hfit. rewrite Hfit. reflexivity.
  - unfold is_billable.
    destruct (session_status self) as [[]|];
      try (split; [discriminate|intros (? & _); discriminate]).
    destruct (resolution self) as [res|];
      [|split; [discriminate|intros (_ & ? & ? & ? & _); discriminate]].
    destruct (total_cost res) as [cost|] eqn:Hcost;
      [|split; [discriminate|intros (_ & ? & ? & [= <-] & ? & _); congruence]].
    unfold decimal_truthy, decimal_positive. split.
    + intros Hb. split; [reflexivity|]. exists res, cost.
      repeat split; try assumption.
      apply andb_true_iff in Hb as (_ & Hb). exact Hb.
    + intros (_ & res' & cost' & [= <-] & Hc & Hp).
      rewrite Hcost in Hc. injection Hc as <-.
      apply andb_true_iff in Hp as (Hs & Hn).
      unfold decimal_positive. rewrite Hs, Hn. reflexivity.
Qed.

Lemma computed_fields_of_a_session_witness :
  estimated_completion (MoreSamples.open_session None (mkDatetime 0 (Some 0)) 1)
  = Return (Some (mkDatetime 5400000000 (Some 0))).
Proof.
  refine (proj1 (proj2 (proj2 (proj2
            (computed_fields_of_a_session
               (MoreSamples.open_session None (mkDatetime 0 (Some 0)) 1)))))
            eq_refl _ eq_refl eq_refl _).
  vm_compute. discriminate.
Defined.

End SessionProperties.

(** ** Reddit diagnostic posts *)

Section RedditProperties.
Import PyDecimal RedditDiagnosticPostsModel.

(** X15. In the Reddit model the class [DiagnosticCode] accepts no
    code.  Of data whose other field passes (a context of at most 500
    characters), a code that does not match the DTC pattern is a
    validation error, and every code that matches it, so every code that
    the [DiagnosticCode] of the diagnostic sessions accepts, ends in the
    NameError of [validate_dtc_format].  [EquipmentInfo] and [RepairInfo]
    end in a NameError for every input whose fields pass their
    constraints; [validate_currency_with_cost], which never runs, would
    set the currency to USD for a positive cost without currency and
    change nothing else. *)
Theorem reddit_nested_models_raise_NameError `{PyLib} :
  (forall d, DiagnosticCode_fields_valid d = true -> DTCCode (code d) = false ->
             DiagnosticCode_validate d
             = ValidationError ["String should match pattern '^[PBCU]\d{4}$'"])
  /\ (forall d, DiagnosticCode_fields_valid d = true -> DTCCode (code d) = true ->
                DiagnosticCode_validate d = Propagated NameError_v)
  /\ (forall d, DiagnosticCode_fields_valid d = true ->
                validate_code (code d) = Validated (code d) ->
                DiagnosticCode_validate d = Propagated NameError_v)
  /\ (forall d v, DiagnosticCode_fields_valid d = true ->
                  DiagnosticCode_validate d <> Validated v)
  /\ (forall e, EquipmentInfo_fields_valid e = true ->
                EquipmentInfo_validate e = Propagated NameError_v)
  /\ (forall r, RepairInfo_fields_valid r = true ->
                RepairInfo_validate r = Propagated NameError_v)
  /\ (forall r, exists r',
        validate_currency_with_cost r = Return (Instance r')
        /\ cost_mentioned r' = cost_mentioned r
        /\ parts_replaced r' = parts_replaced r
        /\ labor_performed r' = labor_performed r
        /\ (currency r' = currency r \/ currency r' = Some "USD")
        /\ (forall c, cost_mentioned r = Some c -> decimal_positive c = true ->
                      currency r' <> None /\ currency r' <> Some "")).
Proof.
  assert (Hmatch : forall d, DTCCode (code d) = true ->
                             DiagnosticCode_validate d = Propagated NameError_v).
  { intros d Hd. unfold DiagnosticCode_validate. rewrite Hd. reflexivity. }
  split; [|split; [|split; [|split; [|split; [|split]]]]].
  - intros d _ Hd. unfold DiagnosticCode_validate. rewrite Hd. reflexivity.
  - intros d _. apply Hmatch.
  - intros d _ Hd. apply Hmatch. unfold validate_code in Hd.
    destruct (DTCCode (code d)); [reflexivity|discriminate].
  - intros d v _. unfold DiagnosticCode_validate.
    destruct (DTCCode (code d)); discriminate.
  - reflexivity.
  - reflexivity.
  - intros r. unfold validate_currency_with_cost.
    set (defaulted := _ && _).
    assert (Hdef : defaulted = true ->
                   exists c, cost_mentioned r = Some c /\ decimal_positive c = true).
    { subst defaulted. intros Hd. apply andb_true_iff in Hd as (Hd & _).
      destruct (cost_mentioned r) as [c|]; [eauto|discriminate]. }
    assert (Hkeep : defaulted = false ->
                    forall c, cost_mentioned r = Some c -> decimal_positive c = true ->
                              currency r <> None /\ currency r <> Some "").
    { subst defaulted. intros Hd c Hc Hp. rewrite Hc, Hp in Hd. cbn in Hd.
      destruct (currency r) as [[|a s]|]; try discriminate. split; congruence. }
    destruct defaulted.
    + eexists. split; [reflexivity|]. cbn. repeat split; auto; discriminate.
    + eexists. split; [reflexivity|].
      repeat split; auto; intros; edestruct Hkeep as [? ?]; eauto.
Qed.

Lemma reddit_nested_models_raise_NameError_witness :
  validate_code (codepoints "P0301") = Validated (codepoints "P0301")
  /\ DiagnosticCode_fields_valid (MoreSamples.mentioned "P0301" (Some true)) = true
  /\ DiagnosticCode_validate (MoreSamples.mentioned "P0301" (Some true))
     = Propagated NameError_v
  /\ DiagnosticCode_validate (MoreSamples.mentioned "P030" (Some true))
     = ValidationError ["String should match pattern '^[PBCU]\d{4}$'"].
Proof.
  destruct (@reddit_nested_models_raise_NameError reference_py)
    as (Hpattern & _ & Hsessions & _).
  split; [reflexivity|]. split; [reflexivity|]. split.
  - apply Hsessions; reflexivity.
  - apply Hpattern; reflexivity.
Defined.

(** X16. Construction of [PostMetrics] from data whose fields pass
    (votes and counts that are not negative) never fails, and its result
    meets the constraints of the fields again.  With upvotes and
    downvotes both present the net score becomes their difference,
    whatever net score was given, and lies between minus the downvotes
    and the upvotes; with one of them absent the given net score stays.
    No other field changes, and validating the result again changes
    nothing. *)
Theorem post_metrics_net_score (m : PostMetrics) :
  PostMetrics_fields_valid m = true ->
  exists m',
    PostMetrics_validate m = Validated (Instance m')
    /\ PostMetrics_fields_valid m' = true
    /\ upvotes m' = upvotes m /\ downvotes m' = downvotes m
    /\ comment_count m' = comment_count m /\ awards_count m' = awards_count m
    /\ gilded m' = gilded m
    /\ (forall u d, upvotes m = Some u -> downvotes m = Some d ->
                    net_score m' = Some (u - d) /\ - d <= u - d <= u)
    /\ (upvotes m = None \/ downvotes m = None -> m' = m)
    /\ PostMetrics_validate m' = Validated (Instance m').
Proof.
  unfold PostMetrics_validate, model_validate, PostMetrics_validators.
  cbn [run_after on_instance Py.bind]. unfold calculate_net_score.
  unfold PostMetrics_fields_valid, FieldConstraints.optional, FieldConstraints.int_ge0.
  destruct m as [[u|] [d|] n c a g]; cbn; intros Hvalid;
    repeat (apply andb_true_iff in Hvalid as [Hvalid ?]);
    eexists; (split; [reflexivity|]); cbn;
    (split; [repeat (apply andb_true_iff; split); assumption|]);
    repeat split; try congruence; try (intros [?|?]; congruence);
    try (intros ? ? [= <-] [= <-]); try reflexivity;
    simplify_eq; try lia.
Qed.

Lemma post_metrics_net_score_witness :
  PostMetrics_fields_valid MoreSamples.docstring_metrics = true
  /\ PostMetrics_validate MoreSamples.docstring_metrics
     = Validated (Instance MoreSamples.docstring_metrics).
Proof.
  split; [reflexivity|].
  destruct (post_metrics_net_score MoreSamples.docstring_metrics eq_refl)
    as (m' & Hv & _ & _ & _ & _ & _ & _ & _ & Hsame & _).
  rewrite Hv, (Hsame (or_intror eq_refl)). reflexivity.
Defined.

Lemma find_some_code {A} (f : A -> bool) (l : list A) (c : A) :
  List.find f l = Some c -> c ∈ l /\ f c = true.
Proof.
  intros Hf. apply List.find_some in Hf as (Hin & Hc).
  split; [now apply list_elem_of_In|exact Hc].
Qed.

(** X17. [primary_dtc_code] is None exactly when the post has no
    diagnostic code, that is when [has_diagnostic_codes] is false;
    otherwise it is the code of an entry of the list: of the first entry
    marked as the primary issue, and of the first entry when none is
    marked. *)
Theorem primary_dtc_code_of_a_post (self : RedditDiagnosticPosts) :
  let codes := default [] (diagnostic_codes self) in
  (has_diagnostic_codes self = true <-> codes <> [])
  /\ (primary_dtc_code self = None <-> has_diagnostic_codes self = false)
  /\ (forall c, primary_dtc_code self = Some c -> exists d, d ∈ codes /\ code d = c)
  /\ (forall before d after,
        codes = before ++ d :: after ->
        is_primary_issue d = Some true ->
        Forall (fun b => is_primary_issue b <> Some true) before ->
        primary_dtc_code self = Some (code d))
  /\ (forall first rest,
        codes = first :: rest ->
        Forall (fun b => is_primary_issue b <> Some true) codes ->
        primary_dtc_code self = Some (code first)).
Proof.
  intros codes. subst codes.
  unfold has_diagnostic_codes, primary_dtc_code.
  destruct (diagnostic_codes self) as [[|first rest]|]; cbn [default from_option id].
  1, 3: (split; [split; [discriminate|congruence]|]; split; [tauto|];
         split; [discriminate|];
         split; [intros [] ? ?; discriminate|intros ? ?; discriminate]).
  assert (Hfind : forall l before d after,
            l = before ++ d :: after ->
            is_primary_issue d = Some true ->
            Forall (fun b => is_primary_issue b <> Some true) before ->
            List.find (fun c => default false (is_primary_issue c)) l = Some d).
  { intros l before. revert l.
    induction before as [|b before IH]; intros l d after -> Hd Hb; cbn.
    - now rewrite Hd.
    - inversion Hb as [|? ? Hb1 Hb2]; subst.
      destruct (is_primary_issue b) as [[]|]; cbn; try congruence;
        now apply (IH _ d after). }
  assert (Hnone : forall l,
            Forall (fun b => is_primary_issue b <> Some true) l ->
            List.find (fun c => default false (is_primary_issue c)) l = None).
  { induction 1 as [|b l Hb _ IH]; [reflexivity|]. cbn.
    destruct (is_primary_issue b) as [[]|]; cbn; congruence. }
  split; [split; [discriminate|reflexivity]|].
  split; [split; [|discriminate]; destruct (List.find _ _); discriminate|].
  split; [|split].
  - intros c Hc.
    destruct (List.find _ (first :: rest)) as [d|] eqn:Hf.
    + apply find_some_code in Hf as (Hin & _). injection Hc as <-. eauto.
    + injection Hc as <-. exists first. split; [apply list_elem_of_here|reflexivity].
  - intros before d after Hl Hd Hb. now rewrite (Hfind _ _ _ _ Hl Hd Hb).
  - intros first' rest' [= <- <-] Hall. now rewrite (Hnone _ Hall).
Qed.

Lemma primary_dtc_code_of_a_post_witness :
  primary_dtc_code MoreSamples.misfire_post = Some (codepoints "P0301").
Proof.
  destruct (primary_dtc_code_of_a_post MoreSamples.misfire_post)
    as (_ & _ & _ & Hprimary & _).
  apply (Hprimary [MoreSamples.mentioned "P0420" (Some false)]
                  (MoreSamples.mentioned "P0301" (Some true)) []);
    [reflexivity|reflexivity|].
  repeat constructor. discriminate.
Defined.

End RedditProperties.

(** ** Parts inventory *)

Section PartsProperties.
Import PyDecimal PartsInventoryModel.

(** X18. No catalog entry is constructed through validation:
    construction from data whose fields pass (identifiers of the right
    form, pricing, specifications and inventory that their own classes
    accept) ends in a NameError, the first model validator reading the
    unbound name [v].  Taken by itself, the availability rule passes a
    record unchanged, and it ties the status to the inventory:
    'low_stock' passes only if [needs_reorder] holds; 'out_of_stock'
    passes only with nothing available, and then, the reorder point not
    being negative, [needs_reorder] holds as well; 'in_stock' passes
    only with something available, which for an inventory that came out
    of its own validation means that less is allocated than is on hand;
    the other statuses, a missing status and a missing inventory always
    pass. *)
Theorem availability_rule_and_reorder (p : PartsInventory) :
  (PartsInventory_fields_valid p ->
   PartsInventory_validate p = Propagated NameError_v)
  /\ (forall x, validate_availability_inventory_consistency p = Return x ->
                x = Instance p)
  /\ (availability_status p = Some low_stock ->
      (validate_availability_inventory_consistency p = Return (Instance p)
       <-> inventory p = None \/ needs_reorder p = true))
  /\ (availability_status p = Some out_of_stock ->
      forall inv, inventory p = Some inv ->
        (validate_availability_inventory_consistency p = Return (Instance p)
         <-> Samples.available inv <= 0)
        /\ (validate_availability_inventory_consistency p = Return (Instance p) ->
            0 <= default 0 (reorder_point inv) -> needs_reorder p = true))
  /\ (availability_status p = Some in_stock ->
      forall inv, inventory p = Some inv ->
        (validate_availability_inventory_consistency p = Return (Instance p)
         <-> Samples.available inv <> 0)
        /\ (forall data, InventoryInfo_fields_valid data = true ->
              InventoryInfo_validate data = Validated (Instance inv) ->
              (validate_availability_inventory_consistency p = Return (Instance p)
               <-> Samples.allocated data < Samples.on_hand data)))
  /\ (availability_status p ∉ [Some low_stock; Some out_of_stock; Some in_stock]
      \/ inventory p = None ->
      validate_availability_inventory_consistency p = Return (Instance p)).
Proof.
  split; [reflexivity|].
  unfold validate_availability_inventory_consistency, needs_reorder,
    Samples.available, raise_ValueError.
  split; [|split; [|split; [|split]]].
  - intros x.
    destruct (inventory p) as [inv|], (availability_status p) as [[]|];
      repeat case_match; congruence.
  - intros Hs. rewrite Hs.
    destruct (inventory p) as [inv|]; [|split; auto].
    destruct (Z.ltb_spec (default 0 (reorder_point inv))
                (default 0 (quantity_available inv))).
    + split; [discriminate|]. intros [?|Hle]; [discriminate|].
      apply Z.leb_le in Hle. lia.
    + split; [|reflexivity]. intros _. right. apply Z.leb_le. lia.
  - intros Hs inv Hinv. rewrite Hs, Hinv.
    destruct (Z.ltb_spec 0 (default 0 (quantity_available inv))).
    + split; [split; [discriminate|lia]|discriminate].
    + split; [split; [lia|reflexivity]|]. intros _ Hr. apply Z.leb_le. lia.
  - intros Hs inv Hinv. rewrite Hs, Hinv.
    assert (Hiff : (if default 0 (quantity_available inv) =? 0
                    then Raise (mkExc ValueError "Cannot be in_stock with zero available inventory")
                    else Return (Instance p)) = Return (Instance p)
                   <-> default 0 (quantity_available inv) <> 0).
    { destruct (Z.eqb_spec (default 0 (quantity_available inv)) 0);
        (split; [discriminate || (intros _; assumption)|congruence || reflexivity]). }
    split; [exact Hiff|].
    intros data _ Hdata. rewrite Hiff. rewrite InventoryInfo_validate_eq in Hdata.
    destruct (Z.ltb_spec (Samples.on_hand data) (Samples.allocated data));
      [discriminate|].
    repeat (destruct (_ && _ && _); [discriminate|]).
    injection Hdata as <-. unfold Samples.derived.
    destruct (Z.eqb_spec (Samples.available data)
                (Samples.on_hand data - Samples.allocated data)) as [E|E].
    + fold (Samples.available data). lia.
    + cbn. lia.
  - intros [Hs|Hinv].
    + destruct (inventory p) as [inv|]; [|reflexivity].
      destruct (availability_status p) as [[]|]; try reflexivity;
        exfalso; apply Hs; set_solver.
    + rewrite Hinv. reflexivity.
Qed.

Lemma availability_rule_and_reorder_witness :
  PartsInventory_fields_valid MoreSamples.oil_filter
  /\ PartsInventory_validate MoreSamples.oil_filter = Propagated NameError_v
  /\ validate_availability_inventory_consistency MoreSamples.oil_filter
     = Return (Instance MoreSamples.oil_filter)
  /\ needs_reorder MoreSamples.oil_filter = false.
Proof.
  assert (Hvalid : PartsInventory_fields_valid MoreSamples.oil_filter).
  { split; [reflexivity|]. split; [reflexivity|].
    split; [intros ? [=]|]. split; [intros ? [=]|].
    intros inv [= <-].
    match goal with
    | |- exists given, _ /\ _ = Validated (Instance ?i) => exists i
    end.
    split; reflexivity. }
  destruct (availability_rule_and_reorder MoreSamples.oil_filter)
    as (Hname & _ & _ & _ & Hstock & _).
  split; [exact Hvalid|]. split; [exact (Hname Hvalid)|]. split; [|reflexivity].
  destruct (Hstock eq_refl _ eq_refl) as (Hiff & _).
  apply Hiff. discriminate.
Defined.

End PartsProperties.

(** ** Feature store *)

Section FeatureStoreProperties.
Import FeatureStoreRecords.

(** X19. A feature metadata entry whose fields pass (names and texts
    within their lengths, a window between 1 and 8760 hours) is accepted
    exactly when it names an aggregation method and an aggregation window
    together or neither of them.  Each of the two failures has its own
    message, and an accepted entry is returned as it is. *)
Theorem aggregation_method_and_window (m : FeatureMetadata) :
  FeatureMetadata_fields_valid m = true ->
  (FeatureMetadata_validate m = Validated (Instance m)
   <-> (aggregation_method m <> None <-> aggregation_window_hours m <> None))
  /\ (aggregation_method m <> None -> aggregation_window_hours m = None ->
      FeatureMetadata_validate m
      = ValidationError ["Value error, aggregation_window_hours required when aggregation_method is specified"])
  /\ (aggregation_method m = None -> aggregation_window_hours m <> None ->
      FeatureMetadata_validate m
      = ValidationError ["Value error, aggregation_method required when aggregation_window_hours is specified"])
  /\ (forall x, FeatureMetadata_validate m = Validated x -> x = Instance m).
Proof.
  intros Hvalid.
  assert (Htruthy : truthy (aggregation_window_hours m)
                    = negb (is_None (aggregation_window_hours m))).
  { unfold FeatureMetadata_fields_valid in Hvalid.
    apply andb_true_iff in Hvalid as [_ Hw].
    destruct (aggregation_window_hours m) as [w|]; [|reflexivity].
    cbn in Hw |- *. unfold FieldConstraints.conint_between in Hw.
    apply andb_true_iff in Hw as [Hlo _]. apply Z.leb_le in Hlo.
    destruct (Z.eqb_spec w 0); [lia|reflexivity]. }
  unfold FeatureMetadata_validate, model_validate, FeatureMetadata_validators.
  cbn [run_after on_instance Py.bind]. unfold validate_aggregation_consistency.
  rewrite Htruthy. clear Htruthy Hvalid.
  split; [|split; [|split]].
  - destruct (aggregation_method m), (aggregation_window_hours m); cbn;
      (split; [first [discriminate | intros _; split; congruence]
              | first [reflexivity | intros [H1 H2]; exfalso;
                       first [now apply H2 | now apply H1]]]).
  - intros Hm Hw. rewrite Hw. destruct (aggregation_method m); [reflexivity|congruence].
  - intros Hm Hw. rewrite Hm.
    destruct (aggregation_window_hours m); [reflexivity|congruence].
  - intros x. destruct (aggregation_method m), (aggregation_window_hours m);
      cbn; congruence.
Qed.

Lemma aggregation_method_and_window_witness :
  let m := {| feature_name := "Average RPM Last 24 Hours"; description := None;
              data_type := type_float; unit_of_measure := Some "rpm";
              aggregation_method := Some agg_mean;
              aggregation_window_hours := None |} in
  FeatureMetadata_fields_valid m = true
  /\ FeatureMetadata_validate m
     = ValidationError ["Value error, aggregation_window_hours required when aggregation_method is specified"].
Proof.
  intros m. split; [reflexivity|].
  apply (proj1 (proj2 (aggregation_method_and_window m eq_refl)));
    [discriminate|reflexivity].
Defined.

(** X20. No feature store is constructed through validation, and of
    data whose fields pass (an entity that is a UUID, a well-formed
    feature set name, metadata entries and statistical profiles that
    their own classes accept) none is reported as a validation error.
    With no feature value, or with feature metadata that is absent or
    empty (the default), the metadata rule calls [keys] on the [int] 0
    and construction ends in an AttributeError; otherwise the metadata
    rule drops the metadata of names that are no feature, keeps the rest
    in order, and construction ends in the NameError of
    [validate_feature_values]. *)
Theorem feature_store_construction (data : FeatureStore) :
  FeatureStore_fields_valid data ->
  (feature_values data = [] \/ default [] (feature_metadata data) = [] ->
   FeatureStore_validate data = Propagated no_keys)
  /\ (feature_values data <> [] -> default [] (feature_metadata data) <> [] ->
      FeatureStore_validate data = Propagated NameError_v
      /\ exists kept,
           validate_feature_metadata_consistency data
           = Return (Instance (with_feature_metadata data (Some kept)))
           /\ sublist kept (default [] (feature_metadata data))
           /\ (forall k m, (k, m) ∈ kept
                           <-> (k, m) ∈ default [] (feature_metadata data)
                               /\ has_key (feature_values data) k = true)
           /\ validate_feature_metadata_consistency
                (with_feature_metadata data (Some kept))
              = (if kept is [] then Raise no_keys
                 else Return (Instance (with_feature_metadata data (Some kept)))))
  /\ (forall v, FeatureStore_validate data <> Validated v)
  /\ (forall ms, FeatureStore_validate data <> ValidationError ms).
Proof.
  intros _.
  unfold FeatureStore_validate, model_validate, FeatureStore_validators.
  cbn [run_after on_instance Py.bind validate_entity_reference].
  unfold validate_feature_metadata_consistency.
  destruct (feature_values data) as [|fv fvs] eqn:Hfv.
  { cbn. repeat split; try discriminate; try congruence. }
  destruct (default [] (feature_metadata data)) as [|md mds] eqn:Hmd.
  { cbn. repeat split; try discriminate; try congruence. }
  cbn [keys_or_0 Py.bind]. split; [intros [?|?]; discriminate|].
  split; [|split; discriminate].
  intros _ _. split; [reflexivity|].
  set (kept := List.filter _ (md :: mds)).
  exists kept. split; [reflexivity|]. split; [apply filter_sublist|]. split.
  - intros k m. subst kept. rewrite !list_elem_of_In, List.filter_In. reflexivity.
  - cbn [with_feature_metadata feature_values feature_metadata default from_option id].
    rewrite Hfv. cbn [keys_or_0 Py.bind].
    assert (Hidem : List.filter (fun kv => has_key (fv :: fvs) (fst kv)) kept = kept).
    { subst kept. generalize (md :: mds). intros l.
      induction l as [|x l IH]; [reflexivity|]. cbn [List.filter].
      destruct (has_key (fv :: fvs) (fst x)) eqn:Hx; [|exact IH].
      cbn [List.filter]. rewrite Hx, IH. reflexivity. }
    destruct kept as [|k0 kept'] eqn:Hk; [reflexivity|].
    cbn [keys_or_0 Py.bind]. rewrite Hidem. reflexivity.
Qed.

Lemma feature_store_construction_witness :
  FeatureStore_fields_valid MoreSamples.engine_diagnostics
  /\ FeatureStore_validate MoreSamples.engine_diagnostics = Propagated NameError_v
  /\ FeatureStore_validate (with_feature_metadata MoreSamples.engine_diagnostics None)
     = Propagated no_keys.
Proof.
  assert (Hvalid : FeatureStore_fields_valid MoreSamples.engine_diagnostics).
  { split; [reflexivity|]. split; [reflexivity|]. split.
    - apply Forall_cons_2; [split; reflexivity|apply Forall_nil_2].
    - apply Forall_nil_2. }
  assert (Hvalid' : FeatureStore_fields_valid
                      (with_feature_metadata MoreSamples.engine_diagnostics None)).
  { split; [reflexivity|]. split; [reflexivity|]. split; apply Forall_nil_2. }
  split; [exact Hvalid|]. split.
  - apply (proj1 (proj2 (feature_store_construction
                           MoreSamples.engine_diagnostics Hvalid)));
      discriminate.
  - apply (proj1 (feature_store_construction
                    (with_feature_metadata MoreSamples.engine_diagnostics None)
                    Hvalid')).
    right. reflexivity.
Defined.

Lemma foldl_count {A} (p : A -> bool) (l : list A) (n : Z) :
  foldl (fun count x => if p x then count + 1 else count) n l
  = n + Z.of_nat (length (List.filter p l)).
Proof.
  revert n. induction l as [|x l IH]; intros n; cbn [foldl List.filter].
  - cbn. lia.
  - rewrite IH. destruct (p x); cbn [length]; lia.
Qed.

Lemma count_by_kind (l : list (string * FeatureValue)) :
  Z.of_nat (length (List.filter (fun kv => is_numeric (snd kv)) l))
  + Z.of_nat (length (List.filter (fun kv => is_categorical (snd kv)) l))
  = Z.of_nat (length l)
    + Z.of_nat (length (List.filter (fun kv => is_bool (snd kv)) l))
    - Z.of_nat (length (List.filter (fun kv => is_list (snd kv)) l)).
Proof.
  induction l as [|[k v] l IH]; [reflexivity|].
  cbn [List.filter snd length]. destruct v; cbn [is_numeric is_categorical is_bool is_list length]; lia.
Qed.

(** X21. The numeric and the categorical feature counts count the
    features by the type of their value, a boolean in both and a list in
    neither: together they are the feature count plus the number of
    boolean features minus the number of list features, so they exceed
    the feature count as soon as there are more boolean than list
    features. *)
Theorem feature_counts_by_kind (self : FeatureStore) :
  feature_count self = Z.of_nat (length (feature_values self))
  /\ numeric_feature_count self = count_values is_numeric self
  /\ categorical_feature_count self = count_values is_categorical self
  /\ numeric_feature_count self + categorical_feature_count self
     = feature_count self + count_values is_bool self - count_values is_list self
  /\ (count_values is_list self < count_values is_bool self ->
      feature_count self < numeric_feature_count self + categorical_feature_count self).
Proof.
  assert (Hc : feature_count self = Z.of_nat (length (feature_values self))).
  { unfold feature_count. now destruct (feature_values self). }
  assert (Hn : numeric_feature_count self = count_values is_numeric self).
  { unfold numeric_feature_count, count_values.
    destruct (feature_values self) as [|kv l] eqn:E; [reflexivity|].
    now rewrite (foldl_count (fun kv => is_numeric (snd kv))). }
  assert (Hg : categorical_feature_count self = count_values is_categorical self).
  { unfold categorical_feature_count, count_values.
    destruct (feature_values self) as [|kv l] eqn:E; [reflexivity|].
    now rewrite (foldl_count (fun kv => is_categorical (snd kv))). }
  pose proof (count_by_kind (feature_values self)) as Hk.
  fold (count_values is_numeric self) in Hk.
  fold (count_values is_categorical self) in Hk.
  fold (count_values is_bool self) in Hk.
  fold (count_values is_list self) in Hk.
  rewrite Hc, Hn, Hg. repeat split; try lia.
Qed.

Lemma feature_counts_by_kind_witness :
  feature_count MoreSamples.check_engine = 1
  /\ feature_count MoreSamples.check_engine
     < numeric_feature_count MoreSamples.check_engine
       + categorical_feature_count MoreSamples.check_engine.
Proof.
  split; [reflexivity|].
  apply (proj2 (proj2 (proj2 (proj2 (feature_counts_by_kind MoreSamples.check_engine))))).
  reflexivity.
Defined.

Lemma has_key_In {V} (d : list (string * V)) (k : string) :
  has_key d k = true <-> In k (map fst d).
Proof.
  unfold has_key. rewrite existsb_exists, in_map_iff. split.
  - intros (kv & Hin & Heq). apply String.eqb_eq in Heq. eauto.
  - intros (kv & Heq & Hin). exists kv. split; [exact Hin|]. now apply String.eqb_eq.
Qed.

Lemma filter_map_fst {V} (p : string -> bool) (d : list (string * V)) :
  map fst (List.filter (fun kv => p (fst kv)) d) = List.filter p (map fst d).
Proof.
  induction d as [|kv d IH]; [reflexivity|]. cbn [List.filter map].
  destruct (p (fst kv)); cbn [map]; now rewrite IH.
Qed.

Lemma filter_split_length {A} (p : A -> bool) (l : list A) :
  (length (List.filter (fun x => negb (p x)) l) + length (List.filter p l))%nat
  = length l.
Proof.
  induction l as [|x l IH]; [reflexivity|]. cbn [List.filter].
  destruct (p x); cbn [negb length]; lia.
Qed.

Lemma common_keys_length (a b : list string) :
  NoDup a -> NoDup b ->
  length (List.filter (fun k => existsb (String.eqb k) b) a)
  = length (List.filter (fun k => existsb (String.eqb k) a) b).
Proof.
  intros Ha Hb. apply Permutation_length. apply NoDup_Permutation.
  - apply NoDup_ListNoDup, List.NoDup_filter. now apply NoDup_ListNoDup.
  - apply NoDup_ListNoDup, List.NoDup_filter. now apply NoDup_ListNoDup.
  - intros k. rewrite !list_elem_of_In, !List.filter_In, !existsb_exists.
    split; intros (Hin & k' & Hin' & Heq); apply String.eqb_eq in Heq; subst k';
      (split; [assumption|]); exists k; (split; [assumption|apply String.eqb_refl]).
Qed.

Lemma has_key_existsb {V} (d : list (string * V)) (k : string) :
  has_key d k = existsb (String.eqb k) (map fst d).
Proof.
  unfold has_key. induction d as [|kv d IH]; [reflexivity|]. cbn [existsb map].
  rewrite IH. f_equal. apply String.eqb_sym.
Qed.

(** X22. [missing_metadata_features] lists, in the order of the
    feature values, exactly the feature names that have no metadata, all
    of them when there is no metadata.  Dropping orphaned metadata does
    not change the list, and after it the missing names and the metadata
    entries together are as many as the features. *)
Theorem missing_metadata_and_orphans (self : FeatureStore) :
  (forall k, k ∈ missing_metadata_features self
             <-> has_key (feature_values self) k = true
                 /\ has_key (default [] (feature_metadata self)) k = false)
  /\ sublist (missing_metadata_features self) (map fst (feature_values self))
  /\ (default [] (feature_metadata self) = [] ->
      missing_metadata_features self = map fst (feature_values self))
  /\ (forall kept,
        validate_feature_metadata_consistency self
        = Return (Instance (with_feature_metadata self (Some kept))) ->
        missing_metadata_features (with_feature_metadata self (Some kept))
        = missing_metadata_features self
        /\ (NoDup (map fst (feature_values self)) ->
            NoDup (map fst (default [] (feature_metadata self))) ->
            Z.of_nat (length (missing_metadata_features self))
            + Z.of_nat (length kept)
            = feature_count self)).
Proof.
  assert (Heq : missing_metadata_features self
                = List.filter (fun k => negb (has_key (default [] (feature_metadata self)) k))
                              (map fst (feature_values self))).
  { unfold missing_metadata_features.
    destruct (feature_values self) as [|fv fvs]; [reflexivity|].
    destruct (feature_metadata self) as [[|md mds]|]; cbn [default from_option id];
      try reflexivity;
      (symmetry; apply List.forallb_filter_id; apply forallb_forall; reflexivity). }
  split; [|split; [|split]].
  - intros k. rewrite Heq, list_elem_of_In, List.filter_In, negb_true_iff.
    rewrite has_key_In. reflexivity.
  - rewrite Heq. apply filter_sublist.
  - intros Hmd. rewrite Heq, Hmd.
    apply List.forallb_filter_id. apply forallb_forall. reflexivity.
  - intros kept Hkept. unfold validate_feature_metadata_consistency in Hkept.
    destruct (feature_values self) as [|fv fvs] eqn:Hfv; [discriminate|].
    destruct (default [] (feature_metadata self)) as [|md mds] eqn:Hmd; [discriminate|].
    cbn [keys_or_0 Py.bind] in Hkept.
    assert (Hk : kept = List.filter (fun kv => has_key (fv :: fvs) (fst kv)) (md :: mds)).
    { unfold with_feature_metadata in Hkept. injection Hkept as Hkept.
      symmetry. exact Hkept. }
    clear Hkept.
    assert (Hmiss : missing_metadata_features (with_feature_metadata self (Some kept))
                    = List.filter (fun k => negb (has_key kept k)) (map fst (fv :: fvs))).
    { unfold missing_metadata_features.
      cbn [with_feature_metadata feature_values feature_metadata]. rewrite Hfv.
      destruct kept as [|k0 kept']; [|reflexivity].
      symmetry. apply List.forallb_filter_id. apply forallb_forall. reflexivity. }
    split.
    + rewrite Hmiss, Heq. apply List.filter_ext_in. intros k Hin. f_equal.
      rewrite Hk, !has_key_existsb, filter_map_fst.
      apply eq_true_iff_eq. rewrite !existsb_exists. split.
      * intros (k' & Hin' & E). apply List.filter_In in Hin' as (Hin' & _). eauto.
      * intros (k' & Hin' & E). exists k'. split; [|exact E].
        apply List.filter_In. split; [exact Hin'|].
        apply String.eqb_eq in E. subst k'. now apply has_key_In.
    + intros Hnv Hnm. rewrite Heq.
      assert (Hc : feature_count self = Z.of_nat (length (map fst (fv :: fvs)))).
      { unfold feature_count. rewrite Hfv, length_map. reflexivity. }
      rewrite Hc, <- (filter_split_length (has_key (md :: mds)) (map fst (fv :: fvs))).
      rewrite Nat2Z.inj_add. f_equal. f_equal.
      rewrite Hk, <- (length_map fst), filter_map_fst.
      rewrite (List.filter_ext _ _ (has_key_existsb (fv :: fvs))).
      rewrite (List.filter_ext _ _ (has_key_existsb (md :: mds))).
      symmetry. now apply common_keys_length.
Qed.

Lemma missing_metadata_and_orphans_witness :
  missing_metadata_features MoreSamples.engine_diagnostics
  = ["max_temperature_celsius"; "oil_pressure_psi"; "total_runtime_hours";
     "error_count_last_week"]
  /\ Z.of_nat (length (missing_metadata_features MoreSamples.engine_diagnostics)) + 1
     = feature_count MoreSamples.engine_diagnostics.
Proof.
  split; [reflexivity|].
  destruct (missing_metadata_and_orphans MoreSamples.engine_diagnostics)
    as (_ & _ & _ & Hkept).
  destruct (Hkept _ eq_refl) as (_ & Hcount).
  apply Hcount; apply NoDup_ListNoDup; repeat constructor; cbn;
    intuition discriminate.
Defined.

End FeatureStoreProperties.

(** ** The model registries *)

Section RegistryProperties.
Import ModelRegistry.

Lemma dict_get_present {V} (d : list (string * V)) (k : string) (P : V -> Prop) :
  Forall (fun kv => P (snd kv)) d ->
  forall v, dict_get d k = Some v -> P v.
Proof.
  induction 1 as [|[k' v'] d Hkv _ IH]; intros v; cbn [dict_get]; [discriminate|].
  destruct (String.eqb k' k); [intros [= <-]; exact Hkv|apply IH].
Qed.

(** X23. When no table is registered without a class, the operations
    that [get_available_operations] lists for a table are exactly those
    for which [get_model] returns a class, in the order base, create,
    update, response, summary.  [get_model] checks the operation before
    the table: an unknown operation is reported as such for every table.
    The table names are the tables that have the operation base. *)
Theorem available_operations_are_the_models_found
    (base create update response summary : Registry) :
  classes_present base create response summary ->
  (forall t op,
      op ∈ get_available_operations base create update response summary t
      <-> exists cls, get_model base create update response summary t op
                      = ModelClass cls)
  /\ (forall t, sublist (get_available_operations base create update response summary t)
                        ["base"; "create"; "update"; "response"; "summary"])
  /\ (forall t op, op ∉ ["base"; "create"; "update"; "response"; "summary"] ->
                   get_model base create update response summary t op
                   = RaiseKeyError ("Unknown operation: " +:+ op))
  /\ (forall t, t ∈ get_table_names base
                <-> "base" ∈ get_available_operations base create update response
                              summary t).
Proof.
  intros Hpresent.
  apply Forall_cons in Hpresent as (Hb & Hpresent).
  apply Forall_cons in Hpresent as (Hc & Hpresent).
  apply Forall_cons in Hpresent as (Hr & Hpresent).
  apply Forall_cons in Hpresent as (Hs & _).
  assert (Hfound : forall (r : Registry) t,
            Forall (fun kv => snd kv <> None) r ->
            contains r t = true
            <-> exists cls, dict_get r t = Some (Some cls)).
  { intros r t Hr'. unfold contains.
    destruct (dict_get r t) as [[cls|]|] eqn:E.
    - split; eauto.
    - exfalso. exact (dict_get_present r t (fun v => v <> None) Hr' None E eq_refl).
    - split; [discriminate|intros (? & ?); discriminate]. }
  assert (Hget : forall t op r,
            dict_get (registries base create update response summary) op = Some r ->
            (exists cls, get_model base create update response summary t op
                         = ModelClass cls)
            <-> exists cls, dict_get r t = Some (Some cls)).
  { intros t op r Hop. unfold get_model. rewrite Hop.
    destruct (dict_get r t) as [[cls|]|]; split; intros (c & E);
      try discriminate; eauto. }
  assert (Hin : forall t op,
            op ∈ get_available_operations base create update response summary t
            <-> (op = "base" /\ contains base t = true)
                \/ (op = "create" /\ contains create t = true)
                \/ (op = "update" /\ exists cls, dict_get update t = Some (Some cls))
                \/ (op = "response" /\ contains response t = true)
                \/ (op = "summary" /\ contains summary t = true)).
  { intros t op. unfold get_available_operations.
    assert (Hu : (exists cls, dict_get update t = Some (Some cls))
                 <-> match dict_get update t with
                     | Some (Some _) => true | _ => false end = true).
    { destruct (dict_get update t) as [[cls|]|]; split;
        try discriminate; try (intros (? & ?); discriminate); eauto. }
    rewrite Hu.
    destruct (contains base t), (contains create t),
      (match dict_get update t with Some (Some _) => true | _ => false end),
      (contains response t), (contains summary t); cbn [app];
      rewrite ?elem_of_cons, ?elem_of_nil; intuition congruence. }
  split; [|split; [|split]].
  - intros t op. rewrite Hin. split.
    + intros [(-> & H)|[(-> & H)|[(-> & H)|[(-> & H)|(-> & H)]]]].
      * apply (Hget t "base" base eq_refl). now apply Hfound.
      * apply (Hget t "create" create eq_refl). now apply Hfound.
      * apply (Hget t "update" update eq_refl). exact H.
      * apply (Hget t "response" response eq_refl). now apply Hfound.
      * apply (Hget t "summary" summary eq_refl). now apply Hfound.
    + intros Hcls.
      destruct (dict_get (registries base create update response summary) op)
        as [r|] eqn:Hop.
      * unfold registries in Hop. cbn [dict_get] in Hop.
        repeat match type of Hop with
               | (if String.eqb ?a op then _ else _) = _ =>
                   destruct (String.eqb_spec a op) as [<-|_]
               end; try discriminate; injection Hop as <-.
        -- left. split; [reflexivity|]. apply Hfound; [exact Hb|].
           now apply (Hget t "base" base eq_refl).
        -- right; left. split; [reflexivity|]. apply Hfound; [exact Hc|].
           now apply (Hget t "create" create eq_refl).
        -- right; right; left. split; [reflexivity|].
           now apply (Hget t "update" update eq_refl).
        -- right; right; right; left. split; [reflexivity|].
           apply Hfound; [exact Hr|]. now apply (Hget t "response" response eq_refl).
        -- right; right; right; right. split; [reflexivity|].
           apply Hfound; [exact Hs|]. now apply (Hget t "summary" summary eq_refl).
      * destruct Hcls as (cls & E). unfold get_model in E. rewrite Hop in E.
        discriminate.
  - intros t. unfold get_available_operations.
    destruct (contains base t), (contains create t),
      (match dict_get update t with Some (Some _) => true | _ => false end),
      (contains response t), (contains summary t); cbn [app];
      repeat first [apply sublist_nil_l | apply sublist_skip; [] | apply sublist_cons ].
  - intros t op Hop. unfold get_model, registries. cbn [dict_get].
    repeat match goal with
           | |- context [String.eqb ?a op] =>
               destruct (String.eqb_spec a op) as [<-|_];
               [exfalso; apply Hop; rewrite ?elem_of_cons; tauto|]
           end.
    reflexivity.
  - intros t. rewrite Hin. unfold get_table_names, contains. split.
    + intros Ht. left. split; [reflexivity|].
      apply list_elem_of_In, in_map_iff in Ht as ((k & v) & <- & Hkv).
      clear -Hkv. induction base as [|[k' v'] d IH]; [destruct Hkv|].
      cbn [dict_get fst]. destruct (String.eqb_spec k' k); [reflexivity|].
      destruct Hkv as [[= -> ->]|Hkv]; [congruence|now apply IH].
    + intros [(_ & H)|[(? & _)|[(? & _)|[(? & _)|(? & _)]]]]; try discriminate.
      apply list_elem_of_In. clear -H.
      induction base as [|[k' v'] d IH]; [discriminate|].
      cbn [dict_get] in H. cbn [map fst].
      destruct (String.eqb_spec k' t); [now left|right; now apply IH].
Qed.

Lemma available_operations_are_the_models_found_witness :
  package_get_available_operations "users" = ["base"; "create"; "update"; "response"]
  /\ (forall op, op ∈ package_get_available_operations "users"
                 <-> exists cls, package_get_model "users" op = ModelClass cls)
  /\ package_get_model "users" "summary" = RaiseKeyError "Unknown table: users"
  /\ package_get_model "users" "delete" = RaiseKeyError "Unknown operation: delete".
Proof.
  assert (Hp : classes_present MODEL_REGISTRY CREATE_MODELS RESPONSE_MODELS SUMMARY_MODELS)
    by (repeat constructor; discriminate).
  destruct (available_operations_are_the_models_found
              MODEL_REGISTRY CREATE_MODELS UPDATE_MODELS RESPONSE_MODELS SUMMARY_MODELS Hp)
    as (Hiff & _ & _ & _).
  split; [reflexivity|]. split; [exact (Hiff "users")|]. split; reflexivity.
Defined.

End RegistryProperties.
